(* ===== verification/_CoqProject ===== *)
-Q . S2P
Prelude.v
JsText.v
StatusUpdater.v
Dashboard.v
Countdown.v
Session.v
Ledger.v
StarRating.v
AnimatedCounter.v
TypingAnimation.v
UploadRoute.v
Backend.v
Forms.v
DonationDetails.v
NewDonation.v
AiFlow.v
ProfileContext.v
ProfileEdit.v
EditDonation.v
Leaderboard.v
Orders.v
Auth.v
Listings.v
ProfilePage.v
Headers.v
Pages.v
