(* ===== verification/Prelude.v ===== *)
(** * Hack-4-Hunger: a verification development

    Hack-4-Hunger ([src/]) is a Next.js food-donation marketplace.  Donors
    list food, receivers reserve it, and delivery agents carry it; most
    pages are UI wired to a hosted backend (auth, tables, object storage),
    and the delivery agent's dashboard is a client-side simulation.  The
    parts with state and sequencing, and how they interact:

    - the delivery simulator: the duty switch
      ([src/contexts/delivery-context.tsx], toggled in
      [src/components/layout/delivery-header.tsx]), the dashboard page
      ([src/app/delivery/page.tsx]: task ledger, a 5 s offer interval,
      accept/decline/advance handlers, tables), the offer sheet with its
      100 ms countdown ([src/components/delivery/task-notification.tsx])
      and the status dialog ([src/components/delivery/delivery-status-updater.tsx]);
    - the donation flow: the new-donation form
      ([src/components/donations/new-donation-form.tsx]) inserts a listing
      and uploads its image through the upload route
      ([src/app/api/upload/route.ts]); the details page
      ([src/app/dashboard/donations/[id]/page.tsx] and
      [donation-details-client.tsx]) reserves or deletes a listing;
    - the profile: [src/contexts/profile-context.tsx] fetches or creates
      the signed-in user's profile on auth events;
      [src/components/profile/edit-profile-form.tsx] edits it and uploads
      the avatar through the same route;
    - the read-only pages: the donation listing
      ([src/app/dashboard/page.tsx] with
      [src/components/donations/donation-card.tsx]), the leaderboard
      ([src/app/dashboard/leaderboard/page.tsx]), the receiver's orders
      ([src/app/dashboard/orders/page.tsx] and [orders/[id]/page.tsx]) and
      the donor profile ([src/app/dashboard/profile/page.tsx]), which read
      the rows the handlers write;
    - the headers ([src/components/layout/header.tsx],
      [delivery-header.tsx]): navigation, account menu, logout;
    - the auth pages ([src/app/signup/page.tsx], [src/app/login/page.tsx]):
      sign-up inserts the profile row the provider otherwise creates;
    - presentational components with arithmetic or timers: star rating,
      animated counter, typing animation.

    ** Files

    - [Prelude.v] (this file): the JavaScript array primitives the code
      relies on ([findIndex] with its [-1], [find], [includes],
      out-of-range reads as [undefined] = [None],
      [Math.floor(Math.random() * n)] with [Math.random()] in [0, 1)),
      lemmas on them and on keyed lists, the [Progression] type class (the
      interface of a strictly ordered stage sequence), the [h4h] hint
      databases and the [js_scope] notation.
    - [StatusUpdater.v]: Module [DeliveryStatusUpdater] translates the
      updater ([deliverySteps], [currentStepIndex], [activeStepIndex],
      [handleUpdate], [nextActionText], the [disabled] test, the step list
      and the sheet/dialog view); Module [DeliveryStage] is the abstract
      stage machine, an instance of [Progression].  Theorems: the string
      code refines the stage machine, the button is disabled exactly when a
      click does nothing, unknown statuses are not rejected.
    - [Dashboard.v]: Module [Dashboard] translates the page: [Task], the
      ledger [DashState] (one field per [useState]),
      [acceptedTaskIds]/[availableTasks], [offerTick] (the interval callback
      under the effect's guard), [handleStatusUpdate], [handleAcceptTask],
      [handleDeclineTask], the statistics and the render model.  Theorems:
      each handler on every branch, offers drawn in range, and the two ways
      a task re-enters the offer pool.
    - [Countdown.v]: Module [TaskNotification]: the sheet's state, effect,
      interval firing, buttons and render.  Theorems: the exact tick of the
      timeout (the 51st, 5.1 s) and termination from any bar value.
    - [Ledger.v]: Module [Ledger], the design's task ledger (duty flag,
      one offer slot, ongoing and completed lists, declined counter) as a
      step relation [lstep] with the design's six operations, and the
      abstraction [abs] of a session state.  Theorem: every run of the
      delivery page refines the ledger machine (each event stutters or is
      one ledger step), a simulation proved from the session invariant.
    - [Session.v]: Modules [DeliveryContext] (the duty switch) and
      [Session]: a step function [sys_step] on the composed state over the
      UI events, [reachable] states, the invariant [Inv] by rule induction,
      disjoint buckets, the declined counter, delivery in four clicks,
      timeout within 51 ticks, the countdown restart on every page
      re-render, well-formed tables and colliding keys.  [sys_step] also
      admits events behind the open modal sheet, so it over-approximates
      the page: sound for the invariants and the refinement.
    - [StarRating.v], [AnimatedCounter.v], [TypingAnimation.v]: the star
      counts (and the [RangeError] outside [0..totalStars]); the counter's
      frames, computed on primitive binary64 floats as JavaScript does,
      proved equal to a closed form over its 90 frames, its restart
      when [value] changes and its [toLocaleString] text; the typing
      animation as a state
      machine over its two timers, with its invariant, that it never stops,
      and the cycle from one word to the next.
    - [UploadRoute.v]: Module [UploadRoute]: [POST] with every early
      return, over an arbitrary storage backend (a Section variable).
      Theorems: the only write is into the caller's folder of an allowed
      bucket, when it answers 200, and that a string passes as a file.
    - [JsText.v]: [Number(s)], [split], [trim], [setHours],
      [toISOString] and the [en-US] [toLocaleString] of integers on the
      inputs the pages produce, and zod's email pattern, as executable
      functions.
    - [Backend.v]: the hosted service as the client sees it: rows of
      [donations], [orders], [profiles], stored objects, and a state monad
      [St] over a [World] whose list of call outcomes decides which request
      fails (used through stdpp's monad notations), with the log of toasts
      and navigations.
    - [Forms.v]: what the forms rely on from [react-hook-form] with
      [zodResolver]: [handleSubmit] runs the schema, keeps each field's
      first issue for its [<FormMessage />], and calls the handler only on
      valid input.
    - [DonationDetails.v]: the details page's id check and single-row
      load, the reservation and deletion handlers, the render.  Theorems:
      every branch of both handlers (the order left behind when the status
      update fails), two receivers reserving the same donation.
    - [NewDonation.v]: the zod schema, every state setter of the form
      (file, camera, AI generation and its reader callbacks), the submit
      composed with [UploadRoute.POST].  Theorems: the schema's acceptance
      condition, the full success path, the listing orphaned (and then
      undeletable) when the upload fails, the unguarded AI button.
    - [ProfileContext.v]: the provider with [fetchProfile] as jobs that
      interleave with auth events.  Theorems: fetch-or-create, two
      overlapping fetches ending without a profile, a sign-out undone by a
      late fetch.
    - [ProfileEdit.v]: the profile schema, both handlers and the form as
      a machine over input and submit events ([profileForm_step]), whose
      inputs honour the [disabled] attribute of the render.  Theorems: the
      avatar change keeps old objects; with a stored email that zod
      rejects, no sequence of inputs and submits writes the profile, and
      every submit shows the email issue.
    - [EditDonation.v]: the edit form's defaults (local [HH:mm] of the
      stored instant), schema, submit and render.  Theorem: submitting the
      form unchanged writes back the same pickup instant and closes the
      dialog.
    - [Leaderboard.v]: the two role queries ([power_coins] descending by
      stdpp's [merge_sort], [limit(10)]), the rank and default mapping and
      [LeaderboardTable].  Theorems: every tab is well formed (ranks
      [1..n], [n <= 10], one-letter fallbacks, coins non-increasing, each
      the count of a profile of the role), it shows the role's top coin
      counts, and a failed query looks like an empty role.
    - [Orders.v]: the order history page (query newest first, the fetch
      effect, badges, render) and the order details page ([.single()] with
      its joins, the effect over [params.id], render).  Theorems: the
      history table is well formed and complete, a row's link loads the
      same order, every error path of both pages (null joins throw), and,
      composed with [DonationDetails], that a delivery reservation is
      displayed as a pickup without its fee.
    - [Listings.v]: the donation listing page (its fetch effect over the
      database view [public_donations], skeletons, cards) and
      [DonationCard].  Theorem, composed with [DonationDetails]: after a
      reservation every card of the donation is shown reserved, with a
      disabled [View Details] button.
    - [ProfilePage.v]: the donor profile page: the history query and its
      effect keyed on the provider's [user], and the render on the
      provider's state.  Theorem, composed with [ProfileContext]: a
      sign-out during the profile fetch leaves the page showing the
      previous user's profile and donations.
    - [Headers.v]: both headers' links with their highlight tests, the
      avatar fallback and [handleLogout].  Theorem: on nested routes the
      desktop and mobile navigations disagree.
    - [AiFlow.v]: the AI suggestion flow ([suggestDonationPrompt]'s
      message, [output!] under the flow's output schema) over the model as
      a parameter, composed with the form's reader callback: every failure
      of the flow is silent.
    - [Pages.v]: the pages without state of their own: the landing page
      (links, the typing animation over [heroWords], four animated
      counters), the delivery agent's profile, both point shops, the stat
      card and the donations chart.  Lemmas: the impact figures are
      constants, one shop item name holds a mis-encoded rupee sign, the
      price labels are the prices grouped by thousands.
    - [Auth.v]: the sign-up and sign-in schemas, handlers (the Google
      sign-in as a redirect effect) and renders.  Theorems:
      every branch of [handleSignUp], and, composed with [ProfileContext],
      that a sign-up whose profile insert failed gets a profile named after
      the email at the first sign-in.

    ** Modelling choices

    Strings are [string]; money and counters are [Z] or [nat] (small
    integers, no rounding); ratings and quantities are [Q], exact on the
    halves and integers the pages hold.  The animated counter's arithmetic
    is where doubles round visibly, so it runs on Rocq's primitive
    binary64 floats ([PrimFloat]) as the JavaScript does, with
    [Math.round] taken on the double's exact value through [Prim2SF].
    Every handler runs to completion on the single UI thread, so React's
    batched setters are one function from the old state to the new; an
    awaited request splits a handler into steps, and where two requests of
    different handlers can interleave (the profile provider) the steps are
    separate events.  [Math.random()], [uuidv4()], [URL.createObjectURL]
    and the time zone are parameters.  Timers are events; there is no fuel:
    runs follow finite event lists and timing results give explicit counts
    (51 countdown firings, 90 counter frames, [2|w|+3] typing events per
    word).  The backend's failures are explicit outcomes; the table column
    defaults of [profiles] and of the points columns of [orders] are
    parameters.  Three facts of the database are fixed by the model:
    [orders.id] is a serial in insertion order and [created_at] grows with
    it; [donations.id] comes from a sequence; ties in [ORDER BY] keep the
    table order (stdpp's stable [merge_sort]), and the ranking theorems do
    not depend on how ties are broken.  The auth service's answers
    ([signUp], [signInWithPassword], [getUser]) are arguments of the
    handlers.  The schema is not in the repository: a delete of a
    donation keeps its orders (what [ON DELETE SET NULL] gives, while a
    refusal under [NO ACTION] is the call's failure outcome), and a
    cascade is not modelled.  Modal dialogs do not block the events behind
    them in the session model, which therefore admits more runs than the
    page.

    ** Not modelled

    Where the OAuth provider sends the browser back (no page exists for
    it under [src/app]); the two layouts, which only mount a provider
    around a header and the page (the header and page models take the
    provider's state as input), the loader bar and the new-donation page,
    a heading around [NewDonationForm]; the Supabase client constructor
    and the generative model (external services, parameters of the
    handlers); icons and styling.  Dates are kept as the [created_at]
    position or an epoch value; [toLocaleDateString],
    [toLocaleTimeString] and the [PPP] date format are not modelled; the
    axis ticks [recharts] picks are not modelled. *)

From stdpp Require Export base list strings decidable sets sorting.
From Stdlib Require Export ZArith Lia.
From Stdlib Require Import QArith Qround.
From Stdlib Require String.

(** ** JavaScript array and string primitives

    The TypeScript sources use a handful of [Array.prototype] methods and
    [Math] functions whose exact behaviour matters to the proofs:
    [findIndex] returns [-1] when nothing matches, indexing out of range
    yields [undefined] (modelled as [None]), [includes] is membership under
    [===], and a random index is [Math.floor(Math.random() * n)] with
    [Math.random()] in the half-open interval [0, 1). *)

Local Close Scope Q_scope.

Declare Scope js_scope.
Delimit Scope js_scope with js.

Module Js.

(** [arr[i]] on an array: [undefined] for a negative or too large index. *)
Definition js_at {A} (l : list A) (i : Z) : option A :=
  if (i <? 0)%Z then None else l !! Z.to_nat i.

(** [arr.findIndex(p)]: the index of the first match, [-1] when none. *)
Fixpoint js_findIndex {A} (p : A -> bool) (l : list A) : Z :=
  match l with
  | [] => (-1)%Z
  | x :: l' =>
      if p x then 0%Z
      else let r := js_findIndex p l' in if (r =? -1)%Z then (-1)%Z else (r + 1)%Z
  end.

(** [arr.find(p)]: the first element satisfying [p], or [undefined]. *)
Fixpoint js_find {A} (p : A -> bool) (l : list A) : option A :=
  match l with
  | [] => None
  | x :: l' => if p x then Some x else js_find p l'
  end.

(** [arr.includes(x)] on an array of strings ([===] is string equality). *)
Definition js_includes (l : list string) (x : string) : bool :=
  bool_decide (x ∈ l).

(** [s || d] on a nullable string column: [null] and [""] are falsy. *)
Definition js_or_str (s : option string) (d : string) : string :=
  match s with Some t => if bool_decide (t = "") then d else t | None => d end.

(** [Math.floor(r * n)] for the random draw [r = Math.random()]. *)
Definition random_index (r : Q) (n : nat) : nat :=
  Z.to_nat (Qfloor (r * inject_Z (Z.of_nat n))).

(** [Math.random()] returns a value in [0, 1). *)
Definition is_math_random (r : Q) : bool :=
  Qle_bool 0 r && negb (Qle_bool 1 r).

End Js.

Export Js.

Notation "l .[ i ]" := (js_at l i) (at level 1, format "l .[ i ]") : js_scope.

(** ** Automation shared by the component files *)

(** Proves a decidable proposition on closed data by evaluating its
    decision procedure. *)
Ltac decide_eval :=
  match goal with |- ?P => apply (bool_decide_unpack P); vm_compute; exact I end.

Create HintDb h4h discriminated.
Create Rewrite HintDb h4h_rw.

(** ** Generic lemmas on the JavaScript primitives *)

Section JsLemmas.
Context {A : Type}.
Implicit Types (p : A -> bool) (l : list A).

(** Nothing matches: [findIndex] answers [-1]. *)
Lemma js_findIndex_none p l :
  (forall y, y ∈ l -> p y = false) -> js_findIndex p l = (-1)%Z.
Proof.
  induction l as [|x l IH]; intros Hl; [done|].
  simpl. rewrite Hl, IH by set_solver. done.
Qed.

(** The first match, after a prefix with no match, is at the prefix's length. *)
Lemma js_findIndex_app p l1 x l2 :
  (forall y, y ∈ l1 -> p y = false) -> p x = true ->
  js_findIndex p (l1 ++ x :: l2) = Z.of_nat (length l1).
Proof.
  induction l1 as [|y l1 IH]; intros Hl Hx; simpl.
  - by rewrite Hx.
  - rewrite Hl, IH by set_solver.
    destruct (Z.eqb_spec (Z.of_nat (length l1)) (-1)); lia.
Qed.

Lemma js_findIndex_range p l :
  (-1 <= js_findIndex p l < Z.of_nat (length l))%Z.
Proof.
  induction l as [|x l IH]; [simpl; lia|].
  simpl. destruct (p x); [lia|].
  destruct (Z.eqb_spec (js_findIndex p l) (-1)); lia.
Qed.

Lemma js_at_nat l (n : nat) : js_at l (Z.of_nat n) = l !! n.
Proof. unfold js_at. rewrite Nat2Z.id. by destruct (Z.ltb_spec (Z.of_nat n) 0); [lia|]. Qed.

Lemma js_find_Some p l x :
  js_find p l = Some x -> x ∈ l /\ p x = true.
Proof.
  induction l as [|y l IH]; simpl; [done|].
  destruct (p y) eqn:E; [intros [= <-]; split; [left|done]|].
  intros H. destruct (IH H). split; [by right|done].
Qed.

Lemma js_find_None p l :
  js_find p l = None -> forall y, y ∈ l -> p y = false.
Proof.
  induction l as [|y l IH]; simpl; [set_solver|].
  destruct (p y) eqn:E; [done|]. intros H z Hz.
  apply elem_of_cons in Hz as [->|Hz]; auto.
Qed.

Lemma js_find_None_intro p l :
  (forall y, y ∈ l -> p y = false) -> js_find p l = None.
Proof.
  induction l as [|y l IH]; intros Hl; simpl; [done|].
  rewrite Hl by set_solver. apply IH. set_solver.
Qed.

End JsLemmas.

Lemma js_includes_spec l x : js_includes l x = true <-> x ∈ l.
Proof. unfold js_includes. apply bool_decide_eq_true. Qed.

Section RandomIndex.
Local Open Scope Q_scope.

(** [Math.floor(Math.random() * n)] is a valid index of a non-empty array. *)
Lemma random_index_lt r n :
  is_math_random r = true -> (0 < n)%nat -> (random_index r n < n)%nat.
Proof.
  unfold is_math_random, random_index. intros Hr Hn.
  apply andb_true_iff in Hr as [H0 H1].
  apply Qle_bool_iff in H0. apply negb_true_iff in H1.
  assert (Hlt : r < 1).
  { destruct (Qlt_le_dec r 1) as [|Hle]; [done|].
    apply Qle_bool_iff in Hle. congruence. }
  assert (Hpos : 0 < inject_Z (Z.of_nat n)).
  { change 0 with (inject_Z 0). rewrite <- Zlt_Qlt. lia. }
  assert (Hup : r * inject_Z (Z.of_nat n) < inject_Z (Z.of_nat n)).
  { rewrite <- (Qmult_1_l (inject_Z (Z.of_nat n))) at 2.
    by apply Qmult_lt_compat_r. }
  assert (Hlo : 0 <= r * inject_Z (Z.of_nat n)).
  { apply Qmult_le_0_compat; [done|]. by apply Qlt_le_weak. }
  pose proof (Qfloor_le (r * inject_Z (Z.of_nat n))) as Hf.
  pose proof (Qfloor_resp_le _ _ Hlo) as Hf0.
  change (Qfloor 0) with 0%Z in Hf0.
  assert (Hz : (Qfloor (r * inject_Z (Z.of_nat n)) < Z.of_nat n)%Z).
  { rewrite Zlt_Qlt. eapply Qle_lt_trans; [exact Hf|exact Hup]. }
  lia.
Qed.

End RandomIndex.


(** ** Lists of records keyed by a field *)

Lemma filter_Forall_id {A} (P : A -> Prop) `{!forall x, Decision (P x)} (l : list A) :
  Forall P l -> filter P l = l.
Proof. induction 1 as [|x l Hx _ IH]; [done|]. by rewrite filter_cons_True, IH. Qed.

Section KeyedLists.
Context {A K : Type} (key : A -> K).

Lemma NoDup_fmap_filter (P : A -> Prop) `{!forall x, Decision (P x)} (l : list A) :
  NoDup (key <$> l) -> NoDup (key <$> filter P l).
Proof.
  induction l as [|x l IH]; intros Hnd; [constructor|].
  rewrite fmap_cons in Hnd. apply NoDup_cons in Hnd as [Hx Hnd].
  rewrite filter_cons. case_decide; [|by apply IH].
  rewrite fmap_cons. constructor; [|by apply IH].
  intros (y & Hy & Hin)%list_elem_of_fmap_1. apply list_elem_of_filter in Hin as [_ Hin].
  apply Hx. rewrite Hy. by apply list_elem_of_fmap_2.
Qed.

Lemma elem_of_fmap_filter (P : A -> Prop) `{!forall x, Decision (P x)} (l : list A) k :
  k ∈ key <$> filter P l -> k ∈ key <$> l.
Proof.
  intros (y & -> & Hin)%list_elem_of_fmap_1. apply list_elem_of_filter in Hin as [_ Hin].
  by apply list_elem_of_fmap_2.
Qed.

Lemma filter_key_absent `{!EqDecision K} (l : list A) k :
  k ∉ key <$> l -> filter (fun y => key y = k) l = [].
Proof.
  induction l as [|y l IH]; intros Hk; [done|]. rewrite fmap_cons in Hk.
  rewrite filter_cons_False; [apply IH|]; set_solver.
Qed.

(** Selecting by key in a list whose keys are distinct
    ([.eq('id', k).single()] on a primary key). *)
Lemma filter_key_unique `{!EqDecision K} (l : list A) x :
  NoDup (key <$> l) -> x ∈ l -> filter (fun y => key y = key x) l = [x].
Proof.
  induction l as [|y l IH]; intros Hnd Hx; [set_solver|].
  rewrite fmap_cons in Hnd. apply NoDup_cons in Hnd as [Hy Hnd].
  apply elem_of_cons in Hx as [->|Hx].
  - rewrite filter_cons_True by done. by rewrite filter_key_absent.
  - rewrite filter_cons_False; [by apply IH|].
    intros E. apply Hy. rewrite E. by apply list_elem_of_fmap_2.
Qed.

Lemma filter_key_other_absent `{!EqDecision K} (l : list A) k :
  k ∉ key <$> l -> filter (fun y => key y <> k) l = l.
Proof.
  induction l as [|y l IH]; intros Hk; [done|]. rewrite fmap_cons in Hk.
  rewrite filter_cons_True by set_solver. f_equal. apply IH. set_solver.
Qed.

(** Around an element of a list with unique keys, no other element has its key. *)
Lemma key_split_absent (l1 l2 : list A) x :
  NoDup (key <$> (l1 ++ x :: l2)) -> key x ∉ key <$> l1 /\ key x ∉ key <$> l2.
Proof.
  rewrite fmap_app, fmap_cons. intros (_ & Hdis & Hnd2)%NoDup_app.
  apply NoDup_cons in Hnd2 as [Hn2 _]. split; [|done].
  intros Hin. apply (Hdis _ Hin). by left.
Qed.

Lemma filter_key_split `{!EqDecision K} (l1 l2 : list A) x :
  NoDup (key <$> (l1 ++ x :: l2)) ->
  filter (fun y => key y <> key x) (l1 ++ x :: l2) = (l1 ++ l2)%list.
Proof.
  intros [H1 H2]%key_split_absent. rewrite filter_app, filter_cons_False by tauto.
  by rewrite !filter_key_other_absent.
Qed.

(** Updating, in place, the elements with the key of [x]. *)
Lemma map_key_split `{!EqDecision K} (f : A -> A) (l1 l2 : list A) x :
  NoDup (key <$> (l1 ++ x :: l2)) ->
  (fun y => if bool_decide (key y = key x) then f y else y) <$> (l1 ++ x :: l2) =
    (l1 ++ f x :: l2)%list.
Proof.
  intros [H1 H2]%key_split_absent.
  assert (Hid : forall l : list A, key x ∉ key <$> l ->
            (fun y => if bool_decide (key y = key x) then f y else y) <$> l = l).
  { induction l as [|y l IH]; intros Hn; [done|]. rewrite fmap_cons in Hn. rewrite fmap_cons.
    rewrite bool_decide_eq_false_2 by set_solver. f_equal. apply IH. set_solver. }
  rewrite fmap_app, fmap_cons, !Hid by done. by rewrite bool_decide_eq_true_2.
Qed.

End KeyedLists.

(** Two lists related pointwise have equal projections. *)
Lemma Forall2_fmap_eq {A B C} (f : A -> C) (g : B -> C) (P : A -> B -> Prop) l k :
  Forall2 P l k -> (forall x y, P x y -> f x = g y) -> f <$> l = g <$> k.
Proof. induction 1; intros Hfg; cbn; f_equal; eauto. Qed.

(** Keeping some elements of a sorted list keeps it sorted. *)
Lemma StronglySorted_filter {A} (R : relation A) (P : A -> Prop) `{!forall x, Decision (P x)} l :
  StronglySorted R l -> StronglySorted R (filter P l).
Proof.
  induction 1 as [|x l Hs IH Hx]; [constructor|]. rewrite filter_cons. case_decide; [|done].
  constructor; [done|]. apply Forall_forall. intros y [_ Hy]%list_elem_of_filter.
  by eapply Forall_forall in Hx.
Qed.

(** A property of every element of [imap f l], from the elements of [l]
    and their positions ([arr.map((x, i) => ...)]). *)
Lemma Forall_imap_intro {A B} (P : B -> Prop) (f : nat -> A -> B) (l : list A) :
  (forall i x, l !! i = Some x -> P (f i x)) -> Forall P (imap f l).
Proof.
  intros H. apply Forall_lookup_2. intros i y (x & Hx & ->)%list_lookup_imap_Some. eauto.
Qed.

(** The positions [arr.map((x, i) => ...)] pairs with the elements
    increase along the list. *)
Lemma imap_pair_sorted {A} (off : nat) (l : list A) :
  StronglySorted (fun a b => a.1 < b.1)%nat (imap (fun k x => (off + k, x)) l).
Proof.
  revert off; induction l as [|x l IH]; intros off; [constructor|].
  rewrite imap_cons. constructor.
  - rewrite (imap_ext _ (fun k y => (S off + k, y))) by (intros; cbn; f_equal; lia). apply IH.
  - apply Forall_imap_intro. intros; cbn; lia.
Qed.

#[export] Hint Resolve NoDup_fmap_filter elem_of_fmap_filter : h4h.

(** ** Ordered progressions

    An interface for a finite, strictly ordered sequence of stages: each
    stage has a rank, [next] moves to the stage of the following rank and
    the ranks are bounded.  Clients prove termination of "advance until
    done" loops against the interface only. *)

Class Progression (St : Type) := {
  prog_next : St -> option St;
  prog_rank : St -> nat;
  prog_max : nat;
  prog_rank_next : forall s s', prog_next s = Some s' -> prog_rank s' = S (prog_rank s);
  prog_rank_bound : forall s, prog_rank s <= prog_max
}.

(** [n] successive advances, stopping at the first stage with no successor. *)
Fixpoint prog_advance {St} `{Progression St} (n : nat) (s : St) : St :=
  match n with
  | O => s
  | S n' => match prog_next s with Some s' => prog_advance n' s' | None => s end
  end.

Section ProgressionLemmas.
Context {St : Type} `{Progression St}.

(** Advancing [prog_max - rank s] times reaches a stage with no successor. *)
Lemma prog_advance_terminal s :
  prog_next (prog_advance (prog_max - prog_rank s) s) = None.
Proof.
  remember (prog_max - prog_rank s) as n eqn:Hn. revert s Hn.
  induction n as [|n IH]; intros s Hn; simpl.
  - destruct (prog_next s) as [s'|] eqn:E; [|done].
    apply prog_rank_next in E. pose proof (prog_rank_bound s'). lia.
  - destruct (prog_next s) as [s'|] eqn:E; [|done].
    apply IH. apply prog_rank_next in E. lia.
Qed.

End ProgressionLemmas.

(** ** String prefixes (used for the [completed-] identifiers) *)

Lemma prefix_append_self (p s : string) : String.prefix p (String.append p s) = true.
Proof. induction p as [|c p IH]; simpl; [by destruct s|]. by destruct (Ascii.ascii_dec c c). Qed.

(** A string that does not start with [p] is not [p] followed by anything. *)
Lemma append_ne_of_prefix (p s q : string) : String.prefix p q = false -> String.append p s <> q.
Proof. intros H <-. by rewrite prefix_append_self in H. Qed.

(** [q.startsWith(p)] carries over to every extension of [q]. *)
Lemma prefix_append_r (p q s : string) :
  String.prefix p q = true -> String.prefix p (String.append q s) = true.
Proof.
  revert q; induction p as [|c p IH]; intros [|c' q] H;
    [by destruct (String.append _ s) .. | cbn in H; discriminate |].
  change (String.append (String.String c' q) s) with (String.String c' (String.append q s)).
  cbn in *. destruct (Ascii.ascii_dec c c'); [by apply IH | done].
Qed.

(** Two strings that differ at some position stay apart after any
    extension of either. *)
Lemma prefix_append_apart (p q s : string) :
  String.prefix p q = false -> String.prefix q p = false -> String.prefix p (String.append q s) = false.
Proof.
  revert q; induction p as [|c p IH]; intros [|c' q] H1 H2; cbn in H1, H2; try discriminate.
  change (String.append (String.String c' q) s) with (String.String c' (String.append q s)).
  cbn. destruct (Ascii.ascii_dec c c') as [<-|]; [|done].
  destruct (Ascii.ascii_dec c c); [by apply IH | done].
Qed.

Lemma js_at_in_range {A} (l : list A) (i : Z) :
  (0 <= i < Z.of_nat (length l))%Z -> is_Some (js_at l i).
Proof.
  intros Hi. unfold js_at. destruct (Z.ltb_spec i 0); [lia|].
  apply lookup_lt_is_Some_2. lia.
Qed.

Lemma js_at_out_of_range {A} (l : list A) (i : Z) :
  (i < 0 \/ Z.of_nat (length l) <= i)%Z -> js_at l i = None.
Proof.
  intros Hi. unfold js_at. destruct (Z.ltb_spec i 0); [done|].
  apply lookup_ge_None_2. lia.
Qed.

Lemma js_or_str_nonempty s d : d <> "" -> js_or_str s d <> "".
Proof. destruct s as [t|]; cbn; [case_bool_decide|]; done. Qed.

#[export] Hint Resolve js_at_in_range js_find_Some js_or_str_nonempty : h4h.
#[export] Hint Rewrite @js_at_nat : h4h_rw.
