(* ===== verification/JsText.v ===== *)
(** * JavaScript string, number and date primitives used by the forms

    The donation forms turn the text of their inputs into numbers and
    dates: [Number(s)], [s.split(':')], [s.trim()], [Date.prototype.setHours]
    and [Date.prototype.toISOString].  These are library functions, not
    code of the repository; this file gives them executable definitions
    following the ECMAScript specification on the inputs the forms produce:

    - white space is the ASCII white space (tab, line breaks, space); the
      other Unicode spaces are not modelled;
    - [Number(s)] reads decimal numerals with an optional sign and
      fraction into [Q], [None] standing for [NaN]; exponents, hexadecimal
      numerals and [Infinity] are not modelled (they read as [NaN]);
    - a [Date] is [Some t] with [t] the milliseconds since the epoch, or
      [None] for an invalid date; local time is a fixed offset [tz] in
      minutes from UTC (daylight saving is not modelled). *)

From S2P Require Import Prelude.
From Stdlib Require Import QArith Qround.
From stdpp Require Import pretty.
Local Close Scope Q_scope.
Open Scope string_scope.
Local Open Scope Z_scope.

Module JsText.

Definition is_ws (c : Ascii.ascii) : bool :=
  let n := Ascii.nat_of_ascii c in bool_decide (n = 32 \/ 9 <= n <= 13)%nat.

Definition is_digit (c : Ascii.ascii) : bool :=
  bool_decide (48 <= Ascii.nat_of_ascii c <= 57)%nat.

Definition digit_val (c : Ascii.ascii) : Z := Z.of_nat (Ascii.nat_of_ascii c) - 48.

Fixpoint skip_ws (s : string) : string :=
  match s with
  | String c s' => if is_ws c then skip_ws s' else s
  | EmptyString => EmptyString
  end.

Fixpoint str_rev (s : string) (acc : string) : string :=
  match s with
  | String c s' => str_rev s' (String c acc)
  | EmptyString => acc
  end.

(** [s.trim()] *)
Definition js_trim (s : string) : string :=
  str_rev (skip_ws (str_rev (skip_ws s) "")) "".

(** [s.split(sep)] for a one-character separator: always at least one
    piece. *)
Fixpoint js_split (sep : Ascii.ascii) (s : string) : list string :=
  match s with
  | EmptyString => [""]
  | String c s' =>
      let rest := js_split sep s' in
      if bool_decide (c = sep) then "" :: rest
      else match rest with
           | r :: rs => String c r :: rs
           | [] => [String c ""]
           end
  end.

Fixpoint all_digits (s : string) : bool :=
  match s with
  | String c s' => is_digit c && all_digits s'
  | EmptyString => true
  end.

(** The value of a string of digits, read left to right. *)
Fixpoint digits_acc (s : string) (acc : Z) : Z :=
  match s with
  | String c s' => digits_acc s' (10 * acc + digit_val c)
  | EmptyString => acc
  end.

Definition dot : Ascii.ascii := Ascii.ascii_of_nat 46.

(** An unsigned decimal numeral [int], [int.frac], [.frac] or [int.]. *)
Definition unsigned_numeral (u : string) : option Q :=
  match js_split dot u with
  | [a] => if negb (bool_decide (a = "")) && all_digits a then Some (inject_Z (digits_acc a 0)) else None
  | [a; b] =>
      if negb (bool_decide (a = "" /\ b = "")) && all_digits a && all_digits b then
        Some (inject_Z (digits_acc a 0) + inject_Z (digits_acc b 0) / inject_Z (10 ^ Z.of_nat (String.length b)))%Q
      else None
  | _ => None
  end.

(** [Number(s)] on a string; [None] is [NaN]. *)
Definition js_Number (s : string) : option Q :=
  match js_trim s with
  | EmptyString => Some 0%Q
  | String c u =>
      if bool_decide (Ascii.nat_of_ascii c = 43%nat) then unsigned_numeral u
      else if bool_decide (Ascii.nat_of_ascii c = 45%nat) then Qopp <$> unsigned_numeral u
      else unsigned_numeral (String c u)
  end.

(** [ToIntegerOrInfinity] on a finite number: truncation toward zero. *)
Definition js_trunc (q : Q) : Z :=
  if Qle_bool 0 q then Qfloor q else - Qfloor (- q).

(** ** zod's [z.string().email()]

    The pattern of zod 3:
    [^(?!\.)(?!.*\.\.)([A-Z0-9_'+\-\.]* )[A-Z0-9_+-]@([A-Z0-9][A-Z0-9\-]*\.)+[A-Z]{2,}$]
    (without the space before the third closing parenthesis)
    with the [i] flag, read as a function of the string. *)

Definition is_alpha (c : Ascii.ascii) : bool :=
  let n := Ascii.nat_of_ascii c in bool_decide (65 <= n <= 90 \/ 97 <= n <= 122)%nat.

Definition is_alnum (c : Ascii.ascii) : bool := is_alpha c || is_digit c.

Definition char_in (c : Ascii.ascii) (codes : list nat) : bool :=
  bool_decide (Ascii.nat_of_ascii c ∈ codes).

(** [[A-Z0-9_'+\-\.]] and [[A-Z0-9_+-]]: [_] 95, ['] 39, [+] 43, [-] 45, [.] 46. *)
Definition local_char (c : Ascii.ascii) : bool := is_alnum c || char_in c [95; 39; 43; 45; 46]%nat.
Definition local_last (c : Ascii.ascii) : bool := is_alnum c || char_in c [95; 43; 45]%nat.

Fixpoint str_all (p : Ascii.ascii -> bool) (s : string) : bool :=
  match s with String c s' => p c && str_all p s' | EmptyString => true end.

Fixpoint str_last (s : string) : option Ascii.ascii :=
  match s with
  | EmptyString => None
  | String c EmptyString => Some c
  | String _ s' => str_last s'
  end.

Fixpoint has_double_dot (s : string) : bool :=
  match s with
  | String c ((String c' _) as s') =>
      (bool_decide (Ascii.nat_of_ascii c = 46%nat) && bool_decide (Ascii.nat_of_ascii c' = 46%nat))
      || has_double_dot s'
  | _ => false
  end.

Definition at_char : Ascii.ascii := Ascii.ascii_of_nat 64.

(** [[A-Z0-9][A-Z0-9\-]*] *)
Definition domain_label (l : string) : bool :=
  match l with
  | String c l' => is_alnum c && str_all (fun c => is_alnum c || char_in c [45]%nat) l'
  | EmptyString => false
  end.

Definition zod_email (s : string) : bool :=
  negb (has_double_dot s) &&
  match js_split at_char s with
  | [loc; dom] =>
      match loc, str_last loc with
      | String c _, Some l =>
          negb (char_in c [46]%nat) && str_all local_char loc && local_last l &&
          match rev (js_split dot dom) with
          | tld :: (_ :: _) as labels =>
              bool_decide (2 <= String.length tld)%nat && str_all is_alpha tld &&
              forallb domain_label labels
          | _ => false
          end
      | _, _ => false
      end
  | _ => false
  end.

(** ** Dates *)

Definition msPerDay : Z := 86400000.
Definition msPerHour : Z := 3600000.
Definition msPerMinute : Z := 60000.

(** [TimeClip]: times beyond 8.64e15 ms are invalid. *)
Definition time_clip (t : Z) : option Z :=
  if (Z.abs t <=? 8640000000000000)%Z then Some t else None.

(** [d.setHours(h, m)] in a time zone [tz] minutes ahead of UTC: keeps
    the local day, the seconds and the milliseconds. *)
Definition date_setHours (tz : Z) (d : option Z) (h m : option Q) : option Z :=
  match d, h, m with
  | Some t, Some h, Some m =>
      let local := t + tz * msPerMinute in
      let day := local / msPerDay in
      let sec_ms := (local mod msPerDay) mod msPerMinute in
      time_clip (day * msPerDay + js_trunc h * msPerHour + js_trunc m * msPerMinute + sec_ms
                 - tz * msPerMinute)
  | _, _, _ => None
  end.

(** The civil date of a day count since 1970-01-01 (proleptic Gregorian). *)
Definition civil_from_days (z : Z) : Z * Z * Z :=
  let z := z + 719468 in
  let era := z / 146097 in
  let doe := z - era * 146097 in
  let yoe := (doe - doe / 1460 + doe / 36524 - doe / 146096) / 365 in
  let doy := doe - (365 * yoe + yoe / 4 - yoe / 100) in
  let mp := (5 * doy + 2) / 153 in
  let d := doy - (153 * mp + 2) / 5 + 1 in
  let m := if mp <? 10 then mp + 3 else mp - 9 in
  (if m <=? 2 then yoe + era * 400 + 1 else yoe + era * 400, m, d).

(** [s.charAt(0)]: the first character, or [""] for the empty string. *)
Definition charAt0 (s : string) : string :=
  match s with String.EmptyString => "" | String.String c _ => String.String c "" end.

(** [n] written with at least [w] digits. *)
Definition pad (w : nat) (n : Z) : string :=
  let s := pretty (Z.to_N n) in
  String.append (String.concat "" (repeat "0" (w - String.length s))) s.

(** [d.toISOString()]: [YYYY-MM-DDTHH:mm:ss.sssZ], years outside 0..9999
    as a signed six-digit year; an invalid date throws [RangeError]
    ([None]). *)
Definition toISOString (d : option Z) : option string :=
  match d with
  | None => None
  | Some t =>
      let '(y, mo, da) := civil_from_days (t / msPerDay) in
      let r := t mod msPerDay in
      let year := if (0 <=? y) && (y <=? 9999) then pad 4 y
                  else String.append (if y <? 0 then "-" else "+") (pad 6 (Z.abs y)) in
      Some (year +:+ "-" +:+ pad 2 mo +:+ "-" +:+ pad 2 da +:+ "T" +:+
            pad 2 (r / msPerHour) +:+ ":" +:+ pad 2 ((r mod msPerHour) / msPerMinute) +:+ ":" +:+
            pad 2 ((r mod msPerMinute) / 1000) +:+ "." +:+ pad 3 (r mod 1000) +:+ "Z")
  end.

(** [n.toLocaleString()] for an integer [n] under the [en-US] locale (the
    default of the server and of an English browser): the decimal digits in
    groups of three separated by [,], after a [-] for a negative [n]. *)
Definition group_sep : Ascii.ascii := Ascii.ascii_of_nat 44.

(** Separators into the reversed digits: after every third digit that
    has more digits after it. *)
Fixpoint group_rev (ds : list Ascii.ascii) : list Ascii.ascii :=
  match ds with
  | a :: b :: c :: ((_ :: _) as rest) => a :: b :: c :: group_sep :: group_rev rest
  | _ => ds
  end.

Definition toLocaleString (n : Z) : string :=
  String.append (if n <? 0 then "-" else "")
    (String.string_of_list_ascii (reverse (group_rev (reverse (String.list_ascii_of_string (pretty (Z.abs_N n))))))).

(** ** Lemmas *)

Lemma charAt0_length s : s <> "" -> String.length (charAt0 s) = 1%nat.
Proof. by destruct s. Qed.

Definition no_char (c : Ascii.ascii) (s : string) : bool :=
  str_all (fun x => negb (bool_decide (x = c))) s.

(** stdpp makes [String.append] opaque to [simpl]: its two equations. *)
Lemma str_append_nil_l t : String.append EmptyString t = t.
Proof. reflexivity. Qed.

Lemma str_append_cons x s t : String.append (String x s) t = String x (String.append s t).
Proof. reflexivity. Qed.

Lemma str_append_nil_r s : String.append s EmptyString = s.
Proof. induction s as [|x s IH]; [done | by rewrite str_append_cons, IH]. Qed.

Lemma js_split_cons c s : exists r rs, js_split c s = r :: rs.
Proof.
  induction s as [|x s (r & rs & IH)]; cbn; [by eauto|].
  rewrite IH. case_bool_decide; eauto.
Qed.

Lemma js_split_no_sep c a b :
  no_char c a = true ->
  js_split c (String.append a b) =
  match js_split c b with r :: rs => String.append a r :: rs | [] => [a] end.
Proof.
  induction a as [|x a IH]; intros H.
  - rewrite str_append_nil_l. by destruct (js_split_cons c b) as (r & rs & ->).
  - rewrite str_append_cons. cbn [js_split no_char str_all] in H |- *.
    apply andb_prop in H as [Hx Ha]. rewrite IH by done.
    rewrite bool_decide_false by (intros ->; by rewrite bool_decide_true in Hx).
    destruct (js_split_cons c b) as (r & rs & ->). by rewrite str_append_cons.
Qed.

Lemma js_split_pair c a b :
  no_char c a = true -> no_char c b = true ->
  js_split c (String.append a (String c b)) = [a; b].
Proof.
  intros Ha Hb. rewrite js_split_no_sep by done. cbn [js_split]. rewrite bool_decide_true by done.
  rewrite <- (str_append_nil_r b) at 1. rewrite js_split_no_sep by done. cbn [js_split].
  by rewrite !str_append_nil_r.
Qed.

(** Two-digit numbers print without a colon and read back. *)
Definition pad2_ok (n : Z) : bool :=
  no_char (Ascii.ascii_of_nat 58) (pad 2 n) &&
  match js_Number (pad 2 n) with
  | Some q => (Qnum q =? n) && (Qden q =? 1)%positive
  | None => false
  end.

Lemma pad2_ok_all : forallb (fun k => pad2_ok (Z.of_nat k)) (seq 0 100) = true.
Proof. vm_compute. reflexivity. Qed.

Lemma pad2_sound n :
  0 <= n < 100 ->
  no_char (Ascii.ascii_of_nat 58) (pad 2 n) = true /\ js_Number (pad 2 n) = Some (inject_Z n).
Proof.
  intros Hn. pose proof pad2_ok_all as H. rewrite forallb_forall in H.
  specialize (H (Z.to_nat n)). rewrite Z2Nat.id in H by lia.
  unfold pad2_ok in H. destruct (js_Number (pad 2 n)) as [[qn qd]|].
  - apply andb_prop in H as [H1 H2]; [|apply in_seq; lia].
    apply andb_prop in H2 as [H2 H3]. cbn [Qnum Qden] in H2, H3.
    apply Z.eqb_eq in H2. apply Pos.eqb_eq in H3. subst. by split.
  - rewrite andb_false_r in H. discriminate H. apply in_seq; lia.
Qed.

(** The grouped numeral holds exactly the digits of the plain one. *)
Lemma group_rev_ungroup ds :
  Forall (fun c => c <> group_sep) ds -> filter (fun c => c <> group_sep) (group_rev ds) = ds.
Proof.
  induction ds as [ds IH] using (induction_ltof1 _ (@length _)); unfold ltof in IH.
  intros Hds. destruct ds as [|a [|b [|c [|e rest]]]]; [by apply filter_Forall_id..|].
  change (group_rev (a :: b :: c :: e :: rest)) with (a :: b :: c :: group_sep :: group_rev (e :: rest)).
  apply Forall_cons in Hds as [Ha Hds]. apply Forall_cons in Hds as [Hb Hds].
  apply Forall_cons in Hds as [Hc Hds].
  rewrite !filter_cons_True, filter_cons_False by (done || tauto).
  rewrite IH by (cbn; lia || done). done.
Qed.

Lemma pretty_N_char_digit x : is_digit (pretty_N_char x) = true.
Proof.
  unfold pretty_N_char. destruct x as [|p]; [done|].
  repeat (destruct p as [p|p|]; try done).
Qed.

Lemma pretty_N_go_digits x s :
  str_all is_digit s = true -> str_all is_digit (pretty_N_go x s) = true.
Proof.
  revert s. induction (N.lt_wf_0 x) as [x _ IH]; intros s Hs.
  destruct (decide (x = 0%N)) as [->|Hx]; [by rewrite pretty_N_go_0|].
  rewrite pretty_N_go_step by lia. apply IH; [apply N.div_lt; lia|].
  cbn. by rewrite pretty_N_char_digit, Hs.
Qed.

Lemma pretty_N_digits (n : N) : Forall (fun c => c <> group_sep) (String.list_ascii_of_string (pretty n)).
Proof.
  assert (H : str_all is_digit (pretty n) = true).
  { unfold pretty, pretty_N. case_decide; [done|]. by apply pretty_N_go_digits. }
  induction (pretty n) as [|c t IHt]; cbn in *; constructor.
  - apply andb_prop in H as [Hc _]. intros ->. discriminate.
  - apply IHt. by apply andb_prop in H as [_ Ht].
Qed.

(** [toLocaleString] only inserts separators: without them, a
    non-negative integer reads as its plain decimal numeral. *)
Lemma toLocaleString_digits n :
  0 <= n ->
  filter (fun c => c <> group_sep) (String.list_ascii_of_string (toLocaleString n)) =
    String.list_ascii_of_string (pretty (Z.to_N n)).
Proof.
  intros Hn. unfold toLocaleString. rewrite (proj2 (Z.ltb_ge n 0) Hn), str_append_nil_l.
  rewrite String.list_ascii_of_string_of_list_ascii, filter_reverse, group_rev_ungroup.
  - rewrite reverse_involutive. do 2 f_equal. lia.
  - apply Forall_reverse. apply pretty_N_digits.
Qed.

End JsText.
