(* ===== verification/StatusUpdater.v ===== *)
(** * The delivery status updater ([src/components/delivery/delivery-status-updater.tsx])

    The dialog that advances an ongoing task through the delivery
    milestones.  Its state is the dialog's [isOpen] flag; its only operation
    is [handleUpdate], which reports [(task.id, nextStep.id)] to the
    dashboard through [onStatusUpdate] and closes the dialog on the last
    step.  The file also states the abstract stage machine the spec
    describes (section 4.4) and proves that the string-based code refines
    it. *)

From S2P Require Import Prelude.
Open Scope string_scope.

Module DeliveryStatusUpdater.

(** [{ id, label }] entries of the [deliverySteps] constant. *)
Record DeliveryStep := mkStep { step_id : string; step_label : string }.

Definition deliverySteps : list DeliveryStep :=
  [ mkStep "Arrived at Pickup" "Arrived at Pickup";
    mkStep "Picked Up" "Picked Up";
    mkStep "Arrived at Drop" "Arrived at Drop";
    mkStep "Delivered" "Delivered" ].

(** The [task] prop: only [id] and [status] are read. *)
Record TaskRef := mkTaskRef { ref_id : string; ref_status : string }.

(** [deliverySteps.findIndex(step => step.id === task.status)] *)
Definition currentStepIndex (status : string) : Z :=
  js_findIndex (fun step => bool_decide (step_id step = status)) deliverySteps.

(** [task.status === 'In Transit' ? -1 : currentStepIndex] *)
Definition activeStepIndex (status : string) : Z :=
  if bool_decide (status = "In Transit") then (-1)%Z else currentStepIndex status.

(** The result of a click on the update button: the call made to
    [onStatusUpdate], if any, and the new value of [isOpen]. *)
Record UpdateOutcome := mkOutcome {
  emitted : option (string * string);
  isOpen_after : bool
}.

(** [handleUpdate].  Reading [deliverySteps[nextStepIndex]] inside the
    bounds test never yields [undefined] ([handleUpdate_reads_in_range]);
    the [None] branch is kept only because [js_at] is partial. *)
Definition handleUpdate (task : TaskRef) (isOpen : bool) : UpdateOutcome :=
  let nextStepIndex := (activeStepIndex (ref_status task) + 1)%Z in
  if (nextStepIndex <? Z.of_nat (length deliverySteps))%Z then
    match deliverySteps.[nextStepIndex]%js with
    | Some nextStep =>
        mkOutcome (Some (ref_id task, step_id nextStep))
                  (if bool_decide (step_id nextStep = "Delivered") then false else isOpen)
    | None => mkOutcome None isOpen
    end
  else mkOutcome None isOpen.

(** [nextActionText], the label of the update button. *)
Definition nextActionText (status : string) : string :=
  let a := activeStepIndex status in
  if (a <? Z.of_nat (length deliverySteps) - 1)%Z then
    match deliverySteps.[a + 1]%js with
    | Some s => step_label s
    | None => ""
    end
  else "Completed".

(** [disabled={activeStepIndex >= deliverySteps.length - 1}] *)
Definition updateDisabled (status : string) : bool :=
  (Z.of_nat (length deliverySteps) - 1 <=? activeStepIndex status)%Z.

(** [index <= activeStepIndex ? 'Completed' : 'Pending'] for the step list. *)
Definition stepDone (status : string) (index : nat) : bool :=
  (Z.of_nat index <=? activeStepIndex status)%Z.

(** One [<li>] of the step list: its key, its label and whether it shows
    the check mark and ["Status: Completed"] (otherwise the truck and
    ["Status: Pending"]). *)
Record StepView := mkStepView { sv_key : string; sv_label : string; sv_completed : bool }.

(** [Content]: the step list, then the update button with its label and
    its [disabled] flag. *)
Record ContentView := mkContent {
  cv_steps : list StepView;
  cv_button_text : string;
  cv_button_disabled : bool
}.

Definition Content (status : string) : ContentView :=
  mkContent
    (imap (fun index step => mkStepView (step_id step) (step_label step) (stepDone status index))
          deliverySteps)
    (nextActionText status) (updateDisabled status).

(** The component renders a bottom [Sheet] on mobile and a [Dialog]
    otherwise, both controlled by [isOpen]. *)
Inductive Container := BottomSheet | CenteredDialog.

Record UpdaterView := mkUpdaterView {
  uv_container : Container;
  uv_open : bool;
  uv_title : string;
  uv_description : string;
  uv_content : ContentView
}.

Definition DeliveryStatusUpdaterView (isMobile isOpen : bool) (task : TaskRef) : UpdaterView :=
  mkUpdaterView (if isMobile then BottomSheet else CenteredDialog) isOpen
    "Update Delivery Status" "Mark the next step of your delivery as complete."
    (Content (ref_status task)).

End DeliveryStatusUpdater.

(** ** The abstract stage machine of the spec (section 4.4)

    [Awaiting Pickup -> Arrived at Pickup -> Picked Up -> Arrived at Drop ->
    Delivered], strictly ordered, no skipping, nothing after [Delivered]. *)

Module DeliveryStage.

Inductive stage := AwaitingPickup | ArrivedAtPickup | PickedUp | ArrivedAtDrop | Delivered.

#[export] Instance stage_eq_dec : EqDecision stage.
Proof. solve_decision. Defined.

Definition stage_next (s : stage) : option stage :=
  match s with
  | AwaitingPickup => Some ArrivedAtPickup
  | ArrivedAtPickup => Some PickedUp
  | PickedUp => Some ArrivedAtDrop
  | ArrivedAtDrop => Some Delivered
  | Delivered => None
  end.

Definition stage_rank (s : stage) : nat :=
  match s with
  | AwaitingPickup => 0 | ArrivedAtPickup => 1 | PickedUp => 2
  | ArrivedAtDrop => 3 | Delivered => 4
  end.

(** The status string the code stores for each stage. *)
Definition stage_status (s : stage) : string :=
  match s with
  | AwaitingPickup => "Awaiting Pickup"
  | ArrivedAtPickup => "Arrived at Pickup"
  | PickedUp => "Picked Up"
  | ArrivedAtDrop => "Arrived at Drop"
  | Delivered => "Delivered"
  end.

(** Reading a status string back; ["In Transit"] is the alias of the first
    stage used by the initial ongoing task of the dashboard. *)
Definition stage_of_status (st : string) : option stage :=
  if bool_decide (st = "Awaiting Pickup") then Some AwaitingPickup
  else if bool_decide (st = "In Transit") then Some AwaitingPickup
  else if bool_decide (st = "Arrived at Pickup") then Some ArrivedAtPickup
  else if bool_decide (st = "Picked Up") then Some PickedUp
  else if bool_decide (st = "Arrived at Drop") then Some ArrivedAtDrop
  else if bool_decide (st = "Delivered") then Some Delivered
  else None.

#[export] Program Instance stage_progression : Progression stage := {|
  prog_next := stage_next;
  prog_rank := stage_rank;
  prog_max := 4
|}.
Next Obligation. intros [] [] H; simpl in *; congruence. Qed.
Next Obligation. intros []; simpl; lia. Qed.

End DeliveryStage.

Import DeliveryStatusUpdater DeliveryStage.

(** ** Lemmas on the updater *)

Lemma activeStepIndex_range st : (-1 <= activeStepIndex st <= 3)%Z.
Proof.
  unfold activeStepIndex. case_bool_decide; [lia|].
  pose proof (js_findIndex_range (fun step => bool_decide (step_id step = st)) deliverySteps).
  unfold currentStepIndex. simpl in *. lia.
Qed.

(** A status that is none of the four step ids and not ["In Transit"]
    sits before the first step. *)
Lemma activeStepIndex_unlisted st :
  st ∉ step_id <$> deliverySteps -> activeStepIndex st = (-1)%Z.
Proof.
  intros Hn. unfold activeStepIndex. case_bool_decide; [done|].
  apply js_findIndex_none. intros y Hy.
  apply bool_decide_eq_false_2. intros <-. apply Hn. by apply list_elem_of_fmap_2.
Qed.

Lemma handleUpdate_unfold task o :
  handleUpdate task o =
    match deliverySteps.[activeStepIndex (ref_status task) + 1]%js with
    | Some nextStep =>
        mkOutcome (Some (ref_id task, step_id nextStep))
                  (if bool_decide (step_id nextStep = "Delivered") then false else o)
    | None => mkOutcome None o
    end.
Proof.
  unfold handleUpdate. pose proof (activeStepIndex_range (ref_status task)) as Hr.
  simpl length. change (Z.of_nat 4) with 4%Z. cbv zeta.
  destruct (Z.ltb_spec (activeStepIndex (ref_status task) + 1) 4) as [Hlt|Hge]; [done|].
  rewrite js_at_out_of_range by (simpl in *; lia). done.
Qed.

Lemma stage_of_status_None st :
  stage_of_status st = None -> st ∉ step_id <$> deliverySteps /\ st <> "In Transit".
Proof.
  unfold stage_of_status. repeat case_bool_decide; try done.
  intros _. split; [|done]. simpl. set_solver.
Qed.

Lemma handleUpdate_isOpen task o :
  isOpen_after (handleUpdate task o) =
    match emitted (handleUpdate task o) with
    | Some (_, s) => if bool_decide (s = "Delivered") then false else o
    | None => o
    end.
Proof. rewrite handleUpdate_unfold. by destruct (deliverySteps.[_])%js. Qed.

Lemma handleUpdate_stage_next i st s o :
  stage_of_status st = Some s ->
  emitted (handleUpdate (mkTaskRef i st) o) = ((fun s' => (i, stage_status s')) <$> stage_next s).
Proof.
  unfold stage_of_status. repeat case_bool_decide; intros; simplify_eq; reflexivity.
Qed.

(** C8 [update_refines_stage]: The updater refines the abstract stage machine: on a task whose
    status string denotes stage [s] (["In Transit"] included), a click
    reports exactly the status of the next stage of [s], and nothing once
    [s] is [Delivered]. *)
Theorem handleUpdate_refines_stage_next i st s o :
  stage_of_status st = Some s ->
  emitted (handleUpdate (mkTaskRef i st) o) = ((fun s' => (i, stage_status s')) <$> stage_next s).
Proof. apply handleUpdate_stage_next. Qed.

(** C4 [update_disabled_iff_noop]: for every status string, the update button is disabled exactly
    when a click would report nothing: the [disabled] test and the
    [handleUpdate] bounds test agree. *)
Theorem updateDisabled_iff_noop task o :
  updateDisabled (ref_status task) = true <-> emitted (handleUpdate task o) = None.
Proof.
  rewrite handleUpdate_unfold. unfold updateDisabled.
  pose proof (activeStepIndex_range (ref_status task)) as Hr. simpl length.
  destruct (Z.eqb_spec (activeStepIndex (ref_status task)) 3) as [E|E].
  - rewrite E, js_at_out_of_range by (simpl; lia). simpl. by split.
  - destruct (js_at_in_range deliverySteps (activeStepIndex (ref_status task) + 1))
      as [x Hx]; [simpl; lia|].
    rewrite Hx. simpl. split; [|done]. rewrite Z.leb_le. lia.
Qed.

(** A status string that is none of the known labels is not rejected:
    [findIndex] answers [-1] and a click reports ["Arrived at Pickup"], as
    for a task awaiting pickup. *)
Theorem handleUpdate_unknown_status i st o :
  stage_of_status st = None ->
  emitted (handleUpdate (mkTaskRef i st) o) = Some (i, "Arrived at Pickup").
Proof.
  intros H. apply stage_of_status_None in H as [Hn _].
  rewrite handleUpdate_unfold. simpl ref_status.
  by rewrite (activeStepIndex_unlisted st Hn).
Qed.

(** The button label names the status a click reports, and reads
    ["Completed"] exactly when the button is disabled. *)
Theorem nextActionText_matches_update i st o :
  emitted (handleUpdate (mkTaskRef i st) o) =
    (if updateDisabled st then None else Some (i, nextActionText st))
  /\ (updateDisabled st = true <-> nextActionText st = "Completed").
Proof.
  pose proof (activeStepIndex_range st) as Hr.
  rewrite handleUpdate_unfold. unfold updateDisabled, nextActionText. simpl ref_status.
  simpl length. change (Z.of_nat 4) with 4%Z.
  destruct (Z.eqb_spec (activeStepIndex st) 3) as [E|E].
  - rewrite E. simpl. done.
  - assert (Hc : (activeStepIndex st = -1 \/ activeStepIndex st = 0 \/
                  activeStepIndex st = 1 \/ activeStepIndex st = 2)%Z) by lia.
    destruct Hc as [-> | [-> | [-> | ->]]]; simpl; split; done.
Qed.

(** From every stage, advancing [4 - rank] times reaches [Delivered], which
    has no successor: the abstract progression terminates. *)
Theorem stage_advance_reaches_delivered s :
  prog_advance (4 - stage_rank s) s = Delivered.
Proof.
  pose proof (prog_advance_terminal s) as H. simpl in H.
  destruct (prog_advance (4 - stage_rank s) s); simpl in H; congruence.
Qed.

(** What a click can report: the task's own identifier and one of the four
    step identifiers. *)
Lemma handleUpdate_emitted task o i st :
  emitted (handleUpdate task o) = Some (i, st) ->
  i = ref_id task /\ st ∈ step_id <$> deliverySteps.
Proof.
  rewrite handleUpdate_unfold. unfold js_at.
  destruct (_ <? 0)%Z; [intros [=]|].
  destruct (deliverySteps !! _) as [x|] eqn:E; [|intros [=]].
  intros [= <- <-]. split; [done|].
  apply list_elem_of_fmap_2. by eapply list_elem_of_lookup_2.
Qed.

(** Whatever the container, the dialog's step list shows as
    [Completed] exactly the milestones already reached: for a task at stage
    [s], the first [rank s] of the four steps, and the others as
    [Pending]. *)
Theorem step_list_shows_progress isMobile isOpen i s :
  sv_completed <$> cv_steps (uv_content (DeliveryStatusUpdaterView isMobile isOpen (mkTaskRef i (stage_status s))))
  = (replicate (stage_rank s) true ++ replicate (4 - stage_rank s) false)%list.
Proof. destruct s; reflexivity. Qed.

(** ** Witnesses at concrete inputs *)

Lemma handleUpdate_refines_stage_next_witness :
  stage_of_status "In Transit" = Some AwaitingPickup /\
  emitted (handleUpdate (mkTaskRef "ongoing-1" "In Transit") true)
    = Some ("ongoing-1", "Arrived at Pickup").
Proof.
  split; [reflexivity|].
  apply (handleUpdate_refines_stage_next "ongoing-1" "In Transit" AwaitingPickup true).
  reflexivity.
Defined.

Lemma handleUpdate_unknown_status_witness :
  stage_of_status "Lost" = None /\
  emitted (handleUpdate (mkTaskRef "task-1" "Lost") false) = Some ("task-1", "Arrived at Pickup").
Proof. split; [reflexivity|apply handleUpdate_unknown_status; reflexivity]. Defined.
