(* ===== verification/Dashboard.v ===== *)
(** * The delivery dashboard ([src/app/delivery/page.tsx])

    The page owns the task ledger: [ongoingTasks], [completedTasks],
    [cancelledTasksCount] and the single [currentTask] offer.  Its operations
    are the offer interval's callback (lines 56-78), [handleStatusUpdate],
    [handleAcceptTask], [handleDeclineTask] (also wired as the
    notification's [onTimeout]) and the derived statistics.  React state
    setters are modelled as functions from the old ledger to the new one;
    the functional [prev => ...] updates and the closure reads see the same
    ledger because every handler runs to completion on the UI thread. *)

From S2P Require Import Prelude.
From Stdlib Require Import QArith.
Local Close Scope Q_scope.
Open Scope string_scope.

Module Dashboard.

(** The task objects of [taskPool] and of the initial lists. *)
Record Task := mkTask {
  task_id : string;
  food : string;
  task_from : string;
  task_to : string;
  status : string;
  earnings : Z;
  coins : Z;
  distance : string
}.

#[export] Instance task_eq_dec : EqDecision Task.
Proof. solve_decision. Defined.

(** [{...task, status: s}] *)
Definition with_status (t : Task) (s : string) : Task :=
  mkTask (task_id t) (food t) (task_from t) (task_to t) s (earnings t) (coins t) (distance t).

(** [{...task, status: "Delivered", id: `completed-${task.id}`}] *)
Definition as_completed (t : Task) : Task :=
  mkTask ("completed-" +:+ task_id t) (food t) (task_from t) (task_to t) "Delivered"
         (earnings t) (coins t) (distance t).

Definition taskPool : list Task := [
  mkTask "task-1" "Leftover Wedding Feast" "Royal Palace Events" "City Shelter" "Awaiting Pickup" 150 75 "12 km";
  mkTask "task-2" "Daily Bakery Surplus" "Bread & Co." "Community Fridge" "Awaiting Pickup" 45 20 "3.5 km";
  mkTask "task-3" "Home-cooked Pulao" "Priya S." "Jayanagar Orphanage" "Awaiting Pickup" 35 15 "2 km";
  mkTask "task-4" "Corporate Lunch Extras" "TechCorp Inc." "Whitefield Night Shelter" "Awaiting Pickup" 90 45 "15 km";
  mkTask "task-5" "Idli & Sambar" "South Kitchen" "Malleshwaram Home" "Awaiting Pickup" 60 30 "5 km";
  mkTask "task-6" "Excess Birthday Cake" "Rohan K." "HSR Layout Community" "Awaiting Pickup" 40 20 "4 km" ].

Definition initialOngoingTasks : list Task :=
  [ mkTask "ongoing-1" "Event Leftovers" "Royal Palace" "Hope Shelter" "In Transit" 120 60 "8 km" ].

Definition initialCompletedTasks : list Task :=
  [ mkTask "completed-1" "Bakery Surplus" "Bread & Co." "Community Center" "Delivered" 50 25 "2.5 km" ].

(** The first ongoing task and the first pool task, by name. *)
Definition ongoing1 : Task :=
  mkTask "ongoing-1" "Event Leftovers" "Royal Palace" "Hope Shelter" "In Transit" 120 60 "8 km".

Definition task1 : Task :=
  mkTask "task-1" "Leftover Wedding Feast" "Royal Palace Events" "City Shelter" "Awaiting Pickup" 150 75 "12 km".

(** The page's [useState] hooks. *)
Record DashState := mkDash {
  ongoingTasks : list Task;
  completedTasks : list Task;
  cancelledTasksCount : nat;
  currentTask : option Task
}.

Definition initialDash : DashState :=
  mkDash initialOngoingTasks initialCompletedTasks 0 None.

Definition set_currentTask (d : DashState) (c : option Task) : DashState :=
  mkDash (ongoingTasks d) (completedTasks d) (cancelledTasksCount d) c.

Definition set_ongoingTasks (d : DashState) (l : list Task) : DashState :=
  mkDash l (completedTasks d) (cancelledTasksCount d) (currentTask d).

(** [[...ongoingTasks.map(t => t.id), ...completedTasks.map(t => t.id),
    currentTask?.id].filter(Boolean)]: [undefined] and [""] are dropped. *)
Definition acceptedTaskIds (d : DashState) : list string :=
  filter (fun s => s <> "")
    ((task_id <$> ongoingTasks d) ++ (task_id <$> completedTasks d)
       ++ option_list (task_id <$> currentTask d))%list.

(** [taskPool.filter(p => !acceptedTaskIds.includes(p.id))] *)
Definition availableTasks (d : DashState) : list Task :=
  filter (fun p => js_includes (acceptedTaskIds d) (task_id p) = false) taskPool.

(** One firing of the offer interval.  The interval exists only while
    [isDutyOn && !currentTask] (the effect's guard; the effect is re-run on
    every change of its dependencies), so a firing outside that condition is
    a no-op.  [r] is the value of [Math.random()]; indexing outside the
    array would set [currentTask] to [undefined], which the model keeps as
    [None]. *)
Definition offerTick (isDutyOn : bool) (r : Q) (d : DashState) : DashState :=
  if isDutyOn && bool_decide (currentTask d = None) then
    let avail := availableTasks d in
    if (0 <? length avail)%nat then
      set_currentTask d (avail !! random_index r (length avail))
    else d
  else d.

(** [handleStatusUpdate(taskId, newStatus)] *)
Definition handleStatusUpdate (taskId newStatus : string) (d : DashState) : DashState :=
  if bool_decide (newStatus = "Delivered") then
    match js_find (fun t => bool_decide (task_id t = taskId)) (ongoingTasks d) with
    | Some taskToComplete =>
        mkDash (filter (fun t => task_id t <> taskId) (ongoingTasks d))
               (as_completed taskToComplete :: completedTasks d)
               (cancelledTasksCount d) (currentTask d)
    | None => d
    end
  else
    set_ongoingTasks d
      ((fun t => if bool_decide (task_id t = taskId) then with_status t newStatus else t)
         <$> ongoingTasks d).

(** [handleAcceptTask] *)
Definition handleAcceptTask (d : DashState) : DashState :=
  match currentTask d with
  | Some t => mkDash (with_status t "Awaiting Pickup" :: ongoingTasks d)
                     (completedTasks d) (cancelledTasksCount d) None
  | None => d
  end.

(** [handleDeclineTask], also passed as [onTimeout]. *)
Definition handleDeclineTask (d : DashState) : DashState :=
  mkDash (ongoingTasks d) (completedTasks d) (S (cancelledTasksCount d)) None.

(** ["Today's Earnings"]: [completedTasks.reduce((sum, task) => sum + task.earnings, 0)] *)
Definition todaysEarnings (d : DashState) : Z :=
  fold_left (fun sum t => (sum + earnings t)%Z) (completedTasks d) 0%Z.

(** ["Completed Today"]: [completedTasks.length] *)
Definition completedToday (d : DashState) : nat := length (completedTasks d).

(** [getStatusBadge]: the badge class of a status, [bg-muted] by default. *)
Definition getStatusBadge (s : string) : string :=
  if bool_decide (s = "Delivered") then "bg-green-500/20 text-green-700"
  else if bool_decide (s = "In Transit") then "bg-blue-500/20 text-blue-700"
  else if bool_decide (s = "Arrived at Pickup") then "bg-cyan-500/20 text-cyan-700"
  else if bool_decide (s = "Picked Up") then "bg-indigo-500/20 text-indigo-700"
  else if bool_decide (s = "Arrived at Drop") then "bg-purple-500/20 text-purple-700"
  else if bool_decide (s = "Awaiting Pickup") then "bg-yellow-500/20 text-yellow-700"
  else "bg-muted".

(** A row of [TaskTable] (the desktop table row and the mobile card show
    the same fields): key, item, from, to, status with its badge class,
    earnings, coins, and whether the [Update] button is rendered. *)
Record RowView := mkRow {
  row_key : string;
  row_item : string;
  row_from : string;
  row_to : string;
  row_status : string;
  row_badge : string;
  row_earnings : Z;
  row_coins : Z;
  row_action : bool
}.

Inductive TableView :=
  | EmptyTable (msg : string)
  | RowsTable (rows : list RowView).

(** [TaskTable({ tasks, getStatusBadge, onStatusUpdate, showAction })];
    [hasUpdate] says whether [onStatusUpdate] was passed. *)
Definition TaskTable (tasks : list Task) (showAction hasUpdate : bool) : TableView :=
  match tasks with
  | [] => EmptyTable "No tasks in this category right now."
  | _ => RowsTable ((fun delivery =>
            mkRow (task_id delivery) (food delivery) (task_from delivery) (task_to delivery)
                  (status delivery) (getStatusBadge (status delivery))
                  (earnings delivery) (coins delivery) (showAction && hasUpdate)) <$> tasks)
  end.

(** The dashboard page: the offer sheet when [currentTask] is set, the
    ongoing table with actions, the four stat cards (star rating 4.8,
    declined count, completed count, earnings) and the completed table. *)
Record DashView := mkDashView {
  dv_offer : option Task;
  dv_ongoing : TableView;
  dv_rating : Q;
  dv_cancelled : nat;
  dv_completed_today : nat;
  dv_earnings : Z;
  dv_completed : TableView
}.

Definition DeliveryDashboardView (d : DashState) : DashView :=
  mkDashView (currentTask d) (TaskTable (ongoingTasks d) true true) (48 # 10)
    (cancelledTasksCount d) (completedToday d) (todaysEarnings d)
    (TaskTable (completedTasks d) false false).

(** The row keys of a table. *)
Definition table_keys (tv : TableView) : list string :=
  match tv with EmptyTable _ => [] | RowsTable rows => row_key <$> rows end.

End Dashboard.

Import Dashboard.

(** ** Lemmas on the ledger *)

Lemma earnings_fold_acc (l : list Task) (a : Z) :
  fold_left (fun sum t => (sum + earnings t)%Z) l a =
  (a + fold_left (fun sum t => (sum + earnings t)%Z) l 0)%Z.
Proof.
  revert a. induction l as [|t l IH]; intros a; simpl; [lia|].
  rewrite (IH (a + earnings t)%Z), (IH (0 + earnings t)%Z). lia.
Qed.

Lemma todaysEarnings_cons o t c k x :
  todaysEarnings (mkDash o (t :: c) k x) = (earnings t + todaysEarnings (mkDash o c k x))%Z.
Proof. unfold todaysEarnings. simpl. rewrite earnings_fold_acc. lia. Qed.

Lemma elem_of_acceptedTaskIds d x :
  x ∈ acceptedTaskIds d <->
    x <> "" /\ (x ∈ task_id <$> ongoingTasks d \/ x ∈ task_id <$> completedTasks d
                \/ option_map task_id (currentTask d) = Some x).
Proof.
  unfold acceptedTaskIds. rewrite list_elem_of_filter, !elem_of_app.
  destruct (currentTask d); simpl; set_solver.
Qed.

Lemma elem_of_availableTasks d t :
  t ∈ availableTasks d <-> t ∈ taskPool /\ task_id t ∉ acceptedTaskIds d.
Proof.
  unfold availableTasks. rewrite list_elem_of_filter.
  destruct (js_includes _ _) eqn:E.
  - apply js_includes_spec in E. naive_solver.
  - assert (task_id t ∉ acceptedTaskIds d) by (by rewrite <- js_includes_spec, E).
    naive_solver.
Qed.

(** With unique identifiers, [find] by identifier returns the task itself. *)
Lemma js_find_by_id (l : list Task) t :
  NoDup (task_id <$> l) -> t ∈ l ->
  js_find (fun x => bool_decide (task_id x = task_id t)) l = Some t.
Proof.
  induction l as [|y l IH]; intros Hnd Hin; [set_solver|].
  simpl in Hnd. apply NoDup_cons in Hnd as [Hy Hnd]. simpl.
  case_bool_decide as E.
  - apply elem_of_cons in Hin as [->|Hin]; [done|].
    exfalso. apply Hy. rewrite E. by apply list_elem_of_fmap_2.
  - apply elem_of_cons in Hin as [->|Hin]; [done|]. by apply IH.
Qed.

Lemma pool_id_not_completed t s :
  t ∈ taskPool -> task_id t <> "completed-" +:+ s.
Proof.
  unfold taskPool. intros Ht. repeat (apply elem_of_cons in Ht as [->|Ht]); [..|set_solver];
    simpl; discriminate.
Qed.

Lemma pool_id_nonempty t : t ∈ taskPool -> task_id t <> "".
Proof.
  unfold taskPool. intros Ht. repeat (apply elem_of_cons in Ht as [->|Ht]); [..|set_solver];
    discriminate.
Qed.

Lemma pool_earnings_nonneg t : t ∈ taskPool -> (0 <= earnings t)%Z.
Proof.
  unfold taskPool. intros Ht. repeat (apply elem_of_cons in Ht as [->|Ht]); [..|set_solver];
    simpl; lia.
Qed.

#[export] Hint Resolve pool_id_not_completed pool_id_nonempty pool_earnings_nonneg : h4h.

Lemma with_status_twice t a b : with_status (with_status t a) b = with_status t b.
Proof. by destruct t. Qed.

Lemma as_completed_with_status t a : as_completed (with_status t a) = as_completed t.
Proof. by destruct t. Qed.

(** One firing of the offer interval either changes nothing or publishes an
    available task in the empty offer slot. *)
Lemma offerTick_cases b r d :
  offerTick b r d = d \/
  (b = true /\ currentTask d = None /\
   exists t, offerTick b r d = set_currentTask d (Some t) /\ t ∈ availableTasks d).
Proof.
  unfold offerTick. destruct b; simpl; [|by left].
  case_bool_decide as Hc; [|by left].
  destruct (Nat.ltb _ _); [|by left].
  destruct (availableTasks d !! _) as [t|] eqn:E.
  - right. split_and!; [done..|]. exists t. split; [done|]. by eapply list_elem_of_lookup_2.
  - left. destruct d; simpl in *. by subst.
Qed.

(** The tasks after a non-terminal status update: each is an old task,
    possibly with the new status. *)
Lemma elem_of_map_update (l : list Task) i s t :
  t ∈ (fun t => if bool_decide (task_id t = i) then with_status t s else t) <$> l ->
  exists y, y ∈ l /\ task_id t = task_id y /\ earnings t = earnings y /\
            (status t = status y \/ status t = s).
Proof.
  intros (y & -> & Hy)%list_elem_of_fmap_1. exists y. case_bool_decide; simpl; eauto 10.
Qed.

Lemma map_update_absent (l : list Task) i f :
  i ∉ task_id <$> l ->
  (fun t => if bool_decide (task_id t = i) then f t else t) <$> l = l.
Proof.
  induction l as [|t l IH]; intros Hn; [done|]. rewrite fmap_cons in Hn. rewrite fmap_cons.
  rewrite bool_decide_eq_false_2 by set_solver. f_equal. apply IH. set_solver.
Qed.

Lemma map_update_ids (l : list Task) i s :
  task_id <$> ((fun t => if bool_decide (task_id t = i) then with_status t s else t) <$> l)
  = task_id <$> l.
Proof.
  induction l as [|t l IH]; [done|]. rewrite !fmap_cons, IH. f_equal. by case_bool_decide.
Qed.

(** ** Properties of the dashboard handlers *)

(** The effect of delivering an ongoing task, field by field. *)
Lemma handleStatusUpdate_delivered_eq d t :
  NoDup (task_id <$> ongoingTasks d) -> t ∈ ongoingTasks d ->
  let d' := handleStatusUpdate (task_id t) "Delivered" d in
  task_id t ∉ task_id <$> ongoingTasks d' /\
  ongoingTasks d' = filter (fun x => task_id x <> task_id t) (ongoingTasks d) /\
  completedTasks d' = as_completed t :: completedTasks d /\
  todaysEarnings d' = (todaysEarnings d + earnings t)%Z /\
  cancelledTasksCount d' = cancelledTasksCount d /\ currentTask d' = currentTask d.
Proof.
  intros Hnd Ht. unfold handleStatusUpdate.
  rewrite bool_decide_eq_true_2 by done. rewrite (js_find_by_id _ _ Hnd Ht).
  destruct d as [o c k x]; simpl. rewrite todaysEarnings_cons.
  split; [|repeat split; try done; unfold todaysEarnings; simpl; lia].
  intros (y & Hy & Hin)%list_elem_of_fmap_1. apply list_elem_of_filter in Hin. naive_solver.
Qed.

(** C9 [deliver_moves_task]: Delivering an ongoing task (identifiers unique) removes it from
    the ongoing list, prepends its [completed-] copy to the completed list
    and raises today's earnings by exactly its payout; the offer and the
    declined counter are untouched. *)
Theorem handleStatusUpdate_delivered d t :
  NoDup (task_id <$> ongoingTasks d) -> t ∈ ongoingTasks d ->
  let d' := handleStatusUpdate (task_id t) "Delivered" d in
  task_id t ∉ task_id <$> ongoingTasks d' /\
  ongoingTasks d' = filter (fun x => task_id x <> task_id t) (ongoingTasks d) /\
  completedTasks d' = as_completed t :: completedTasks d /\
  todaysEarnings d' = (todaysEarnings d + earnings t)%Z /\
  cancelledTasksCount d' = cancelledTasksCount d /\ currentTask d' = currentTask d.
Proof. apply handleStatusUpdate_delivered_eq. Qed.

(** A status update naming no ongoing task changes nothing,
    whatever the new status. *)
Theorem handleStatusUpdate_unknown_id taskId s d :
  taskId ∉ task_id <$> ongoingTasks d -> handleStatusUpdate taskId s d = d.
Proof.
  intros Hn. unfold handleStatusUpdate. case_bool_decide.
  - destruct (js_find _ _) as [t|] eqn:E; [|done].
    apply js_find_Some in E as [Hin Hp]. apply bool_decide_eq_true in Hp.
    subst. exfalso. by apply Hn, list_elem_of_fmap_2.
  - destruct d. unfold set_ongoingTasks. simpl.
    by rewrite (map_update_absent _ taskId (fun t => with_status t s)).
Qed.

(** A non-terminal status update rewrites the status of the named
    task in place: the ongoing identifiers, in order, and the completed list
    are unchanged. *)
Theorem handleStatusUpdate_in_place taskId s d :
  s <> "Delivered" ->
  let d' := handleStatusUpdate taskId s d in
  task_id <$> ongoingTasks d' = task_id <$> ongoingTasks d /\
  completedTasks d' = completedTasks d /\
  (forall t, t ∈ ongoingTasks d' -> task_id t = taskId -> status t = s).
Proof.
  intros Hs. unfold handleStatusUpdate. rewrite bool_decide_eq_false_2 by done.
  simpl. split; [apply map_update_ids|split; [done|]].
  intros t (y & -> & _)%list_elem_of_fmap_1. by case_bool_decide.
Qed.

(** C10 [offer_tick_draws_available]: When duty is on, no offer is pending and some pool task is not
    yet taken, one firing of the offer interval publishes a task drawn from
    the available ones: [Math.floor(Math.random() * n)] is in range. *)
Theorem offerTick_offers_available r d :
  is_math_random r = true -> currentTask d = None -> availableTasks d <> [] ->
  exists t, offerTick true r d = set_currentTask d (Some t) /\ t ∈ availableTasks d.
Proof.
  intros Hr Hc Ha. unfold offerTick. rewrite Hc. simpl.
  assert (Hlen : (0 < length (availableTasks d))%nat)
    by (destruct (availableTasks d); simpl in *; [done|lia]).
  destruct (Nat.ltb_spec 0 (length (availableTasks d))) as [_|]; [|lia].
  destruct (lookup_lt_is_Some_2 (availableTasks d) (random_index r (length (availableTasks d))))
    as [t Ht]; [by apply random_index_lt|].
  exists t. rewrite Ht. split; [done|]. by eapply list_elem_of_lookup_2.
Qed.

(** The offer interval does nothing when duty is off, when an offer is
    pending, or when every pool task is taken. *)
Theorem offerTick_idle b r d :
  b = false \/ currentTask d <> None \/ availableTasks d = [] -> offerTick b r d = d.
Proof.
  unfold offerTick. intros [->|[Hc|Ha]]; [done| |].
  - by rewrite bool_decide_eq_false_2, andb_false_r.
  - rewrite Ha. by destruct (_ && _).
Qed.

(** C12 [declined_task_reoffered]: A declined (or timed-out) pool task becomes available again: the
    exclusion list holds only ongoing, completed and offered identifiers, so
    the declined task is not discarded for the session. *)
Theorem declined_task_available_again d t :
  currentTask d = Some t -> t ∈ taskPool ->
  task_id t ∉ task_id <$> ongoingTasks d -> task_id t ∉ task_id <$> completedTasks d ->
  t ∈ availableTasks (handleDeclineTask d).
Proof.
  intros Hc Hp Ho Hk. apply elem_of_availableTasks. split; [done|].
  rewrite elem_of_acceptedTaskIds. simpl. naive_solver.
Qed.

(** C11 [delivered_task_reoffered]: A delivered pool task becomes available again: its completed
    copy is stored under [completed-<id>] while the exclusion test compares
    raw identifiers, so the same pool entry can be offered and delivered a
    second time. *)
Theorem delivered_task_available_again d t p :
  NoDup (task_id <$> ongoingTasks d) -> t ∈ ongoingTasks d -> p ∈ taskPool ->
  task_id t = task_id p -> currentTask d = None ->
  task_id p ∉ task_id <$> completedTasks d ->
  p ∈ availableTasks (handleStatusUpdate (task_id t) "Delivered" d).
Proof.
  intros Hnd Ht Hp Hid Hc Hk.
  destruct (handleStatusUpdate_delivered_eq d t Hnd Ht) as (Ho & _ & Hcomp & _ & _ & Hcur).
  apply elem_of_availableTasks. split; [done|].
  rewrite elem_of_acceptedTaskIds, Hcomp, Hcur, Hc, <- Hid. simpl.
  intros [_ [Hin|[Hin|Hin]]]; [done| |done].
  apply elem_of_cons in Hin as [Hin|Hin]; [|by rewrite Hid in Hin].
  by apply (pool_id_not_completed p (task_id t)); [|rewrite Hid in Hin |- *].
Qed.

(** ** Witnesses at concrete inputs *)

Lemma handleStatusUpdate_delivered_witness :
  NoDup (task_id <$> ongoingTasks initialDash) /\ ongoing1 ∈ ongoingTasks initialDash /\
  todaysEarnings (handleStatusUpdate "ongoing-1" "Delivered" initialDash) = 170%Z.
Proof.
  assert (H1 : NoDup (task_id <$> ongoingTasks initialDash)) by (repeat constructor; set_solver).
  assert (H2 : ongoing1 ∈ ongoingTasks initialDash) by (apply list_elem_of_here).
  split_and!; [exact H1|exact H2|].
  destruct (handleStatusUpdate_delivered initialDash ongoing1 H1 H2) as (_ & _ & _ & He & _).
  exact He.
Defined.

Lemma handleStatusUpdate_unknown_id_witness :
  "task-9" ∉ task_id <$> ongoingTasks initialDash /\
  handleStatusUpdate "task-9" "Delivered" initialDash = initialDash.
Proof.
  assert (H : "task-9" ∉ task_id <$> ongoingTasks initialDash) by (simpl; set_solver).
  split; [exact H|exact (handleStatusUpdate_unknown_id "task-9" "Delivered" initialDash H)].
Defined.

Lemma handleStatusUpdate_in_place_witness :
  "Picked Up" <> "Delivered" /\
  task_id <$> ongoingTasks (handleStatusUpdate "ongoing-1" "Picked Up" initialDash) = ["ongoing-1"].
Proof.
  assert (H : "Picked Up" <> "Delivered") by discriminate.
  split; [exact H|].
  destruct (handleStatusUpdate_in_place "ongoing-1" "Picked Up" initialDash H) as [E _].
  exact E.
Defined.

Lemma offerTick_offers_available_witness :
  is_math_random (1 # 2) = true /\ currentTask initialDash = None /\ availableTasks initialDash <> [] /\
  exists t, offerTick true (1 # 2) initialDash = set_currentTask initialDash (Some t).
Proof.
  assert (H1 : is_math_random (1 # 2) = true) by reflexivity.
  assert (H2 : currentTask initialDash = None) by reflexivity.
  assert (H3 : availableTasks initialDash <> []) by discriminate.
  split_and!; [exact H1|exact H2|exact H3|].
  destruct (offerTick_offers_available (1 # 2) initialDash H1 H2 H3) as (t & E & _).
  exists t. exact E.
Defined.

Lemma offerTick_idle_witness :
  (false = false \/ currentTask initialDash <> None \/ availableTasks initialDash = []) /\
  offerTick false 0 initialDash = initialDash.
Proof.
  assert (H : false = false \/ currentTask initialDash <> None \/ availableTasks initialDash = [])
    by (left; reflexivity).
  split; [exact H|exact (offerTick_idle false 0 initialDash H)].
Defined.

Lemma declined_task_available_again_witness :
  let d := set_currentTask initialDash (Some task1) in
  currentTask d = Some task1 /\ task1 ∈ taskPool /\
  task1 ∈ availableTasks (handleDeclineTask d).
Proof.
  assert (H1 : currentTask (set_currentTask initialDash (Some task1)) = Some task1) by reflexivity.
  assert (H2 : task1 ∈ taskPool) by (apply list_elem_of_here).
  assert (H3 : task_id task1 ∉ task_id <$> ongoingTasks (set_currentTask initialDash (Some task1)))
    by (simpl; set_solver).
  assert (H4 : task_id task1 ∉ task_id <$> completedTasks (set_currentTask initialDash (Some task1)))
    by (simpl; set_solver).
  split_and!; [exact H1|exact H2|exact (declined_task_available_again _ task1 H1 H2 H3 H4)].
Defined.

Lemma delivered_task_available_again_witness :
  let d := set_ongoingTasks initialDash (with_status task1 "Arrived at Drop" :: initialOngoingTasks) in
  NoDup (task_id <$> ongoingTasks d) /\
  task1 ∈ availableTasks (handleStatusUpdate "task-1" "Delivered" d).
Proof.
  set (d := set_ongoingTasks initialDash (with_status task1 "Arrived at Drop" :: initialOngoingTasks)).
  assert (H1 : NoDup (task_id <$> ongoingTasks d)) by (simpl; repeat constructor; set_solver).
  assert (H2 : with_status task1 "Arrived at Drop" ∈ ongoingTasks d) by (apply list_elem_of_here).
  assert (H3 : task1 ∈ taskPool) by (apply list_elem_of_here).
  assert (H4 : task_id (with_status task1 "Arrived at Drop") = task_id task1) by reflexivity.
  assert (H5 : currentTask d = None) by reflexivity.
  assert (H6 : task_id task1 ∉ task_id <$> completedTasks d) by (simpl; set_solver).
  split; [exact H1|].
  exact (delivered_task_available_again d _ task1 H1 H2 H3 H4 H5 H6).
Defined.
