(* ===== verification/Countdown.v ===== *)
(** * The offer countdown ([src/components/delivery/task-notification.tsx])

    The notification sheet shown while a task is offered.  Its state is the
    [progress] bar value, the sheet's [isOpen] flag and whether its 100 ms
    interval is live.  The effect (lines 36-53) resets the bar to 100 and
    starts the interval; each tick either lowers the bar by
    [100 / (NOTIFICATION_TIMEOUT / 100)] or, once the bar is at or below 0,
    clears the interval, closes the sheet and calls [onTimeout].  The
    buttons and the sheet's close gesture call [onAccept] / [onDecline].
    Calls to the parent are returned as a [Signal]. *)

From S2P Require Import Prelude.

Module TaskNotification.

Definition NOTIFICATION_TIMEOUT : Z := 5000.

(** The decrement per tick, [100 / (NOTIFICATION_TIMEOUT / 100)]: both
    divisions are exact on these constants, so the JavaScript float
    division and [Z.div] agree ([tickDecrement_exact]). *)
Definition tickDecrement : Z := 100 / (NOTIFICATION_TIMEOUT / 100).

Record Notif := mkNotif { progress : Z; isOpen : bool; intervalLive : bool }.

(** The callbacks the sheet invokes on its parent. *)
Inductive Signal := OnAccept | OnDecline | OnTimeout.

#[export] Instance signal_eq_dec : EqDecision Signal.
Proof. solve_decision. Defined.

(** The effect body: [setIsOpen(true); setProgress(100); setInterval(...)].
    It runs on mount and again whenever [task] or [onTimeout] changes
    identity; the cleanup of the previous run clears the old interval. *)
Definition mountEffect (n : Notif) : Notif := mkNotif 100 true true.

(** The state right after mounting: [useState(100)], [useState(true)], then
    the effect. *)
Definition mounted : Notif := mountEffect (mkNotif 100 true false).

(** One firing of the 100 ms interval (the [setProgress] updater). *)
Definition intervalTick (n : Notif) : Notif * option Signal :=
  if negb (intervalLive n) then (n, None)
  else if (progress n <=? 0)%Z then (mkNotif 0 false false, Some OnTimeout)
  else (mkNotif (progress n - tickDecrement) (isOpen n) true, None).

(** [handleDecline] and [handleAccept]: close the sheet, call the parent. *)
Definition handleDecline (n : Notif) : Notif * option Signal :=
  (mkNotif (progress n) false (intervalLive n), Some OnDecline).

Definition handleAccept (n : Notif) : Notif * option Signal :=
  (mkNotif (progress n) false (intervalLive n), Some OnAccept).

(** [handleOpenChange(open)]: closing the sheet by any other gesture is a
    decline; then [setIsOpen(open)]. *)
Definition handleOpenChange (open : bool) (n : Notif) : Notif * option Signal :=
  let '(n', sig) := if negb open then handleDecline n else (n, None) in
  (mkNotif (progress n') open (intervalLive n'), sig).

(** [k] interval firings with no other event; the first signal stops the
    run (the interval clears itself when it fires [onTimeout]). *)
Fixpoint run_ticks (k : nat) (n : Notif) : Notif * option Signal :=
  match k with
  | O => (n, None)
  | S k' =>
      match intervalTick n with
      | (n', Some s) => (n', Some s)
      | (n', None) => run_ticks k' n'
      end
  end.

(** The [task] prop of the sheet: the fields it displays. *)
Record OfferedTask := mkOffered {
  offer_from : string;
  offer_to : string;
  offer_distance : string;
  offer_earnings : Z;
  offer_coins : Z
}.

(** What the sheet renders (lines 72-123): the [open] flag, the title, the
    announced number of seconds ([NOTIFICATION_TIMEOUT/1000]), pickup,
    dropoff, distance, payout and coins, the bar's value and the two
    buttons. *)
Record NotifView := mkNotifView {
  nv_open : bool;
  nv_title : string;
  nv_seconds : Z;
  nv_pickup : string;
  nv_dropoff : string;
  nv_distance : string;
  nv_earnings : Z;
  nv_coins : Z;
  nv_progress : Z;
  nv_buttons : list string
}.

Definition TaskNotificationView (task : OfferedTask) (n : Notif) : NotifView :=
  mkNotifView (isOpen n) "New Delivery Task!" (NOTIFICATION_TIMEOUT / 1000)
    (offer_from task) (offer_to task) (offer_distance task)
    (offer_earnings task) (offer_coins task) (progress n) ["Decline"; "Accept Job"].

(** The bar stays a non-negative even value at most 100. *)
Definition progress_ok (n : Notif) : Prop :=
  (0 <= progress n <= 100)%Z /\ Z.Even (progress n).

End TaskNotification.

Import TaskNotification.

Lemma tickDecrement_exact :
  tickDecrement = 2%Z /\ (NOTIFICATION_TIMEOUT mod 100 = 0)%Z /\
  (100 mod (NOTIFICATION_TIMEOUT / 100) = 0)%Z.
Proof. vm_compute. auto. Qed.

(** While the bar is above 0, each firing lowers it by 2 and signals nothing. *)
Lemma run_ticks_live k m o :
  (0 <= m)%Z -> (k <= Z.to_nat m)%nat ->
  run_ticks k (mkNotif (2 * m) o true) = (mkNotif (2 * m - 2 * Z.of_nat k) o true, None).
Proof.
  revert m. induction k as [|k IH]; intros m Hm Hk; simpl.
  - by rewrite Z.sub_0_r.
  - unfold intervalTick. simpl. rewrite (proj1 tickDecrement_exact).
    destruct (Z.leb_spec (2 * m) 0) as [Hle|Hgt]; [lia|].
    replace (2 * m - 2)%Z with (2 * (m - 1))%Z by lia.
    rewrite IH by lia. do 2 f_equal. lia.
Qed.

(** At 0 the next firing times out and clears the interval. *)
Lemma intervalTick_zero o :
  intervalTick (mkNotif 0 o true) = (mkNotif 0 false false, Some OnTimeout).
Proof. reflexivity. Qed.

Lemma run_ticks_add a b n :
  run_ticks (a + b) n =
    match run_ticks a n with
    | (n', Some s) => (n', Some s)
    | (n', None) => run_ticks b n'
    end.
Proof.
  revert n. induction a as [|a IH]; intros n; simpl; [done|].
  destruct (intervalTick n) as [n' [s|]]; [done|]. apply IH.
Qed.

Lemma intervalTick_progress_ok n :
  progress_ok n -> progress_ok (fst (intervalTick n)).
Proof.
  unfold intervalTick, progress_ok. rewrite (proj1 tickDecrement_exact).
  intros [Hb [m Hm]].
  destruct (intervalLive n); simpl; [|split; [done|by exists m]].
  destruct (Z.leb_spec (progress n) 0); simpl.
  - split; [lia|by exists 0%Z].
  - split; [lia|]. exists (m - 1)%Z. lia.
Qed.

Lemma intervalTick_quiet n n' :
  intervalLive n = true -> intervalTick n = (n', None) ->
  intervalLive n' = true /\ isOpen n' = isOpen n.
Proof.
  unfold intervalTick. intros ->. simpl.
  destruct (progress n <=? 0)%Z; intros [= <-]; done.
Qed.

Lemma mountEffect_ok n : progress_ok (mountEffect n) /\ intervalLive (mountEffect n) = true
  /\ isOpen (mountEffect n) = true.
Proof. split_and!; [split; [simpl; lia|by exists 50%Z]|done|done]. Qed.

(** C15 [countdown_5100ms]: Left alone, a freshly mounted notification stays open for 50
    firings of the 100 ms interval, its bar going down by 2 each time, and
    times out on the 51st: the offer is withdrawn after 5.1 s, not the
    5 s that [NOTIFICATION_TIMEOUT] and the sheet's text announce. *)
Theorem countdown_times_out_on_tick_51 task k :
  (nv_seconds (TaskNotificationView task mounted) * 1000 < 51 * 100)%Z /\
  ((k <= 50)%nat -> run_ticks k mounted = (mkNotif (100 - 2 * Z.of_nat k) true true, None)) /\
  ((51 <= k)%nat -> run_ticks k mounted = (mkNotif 0 false false, Some OnTimeout)).
Proof.
  split; [reflexivity|].
  split; intros Hk.
  - apply (run_ticks_live k 50); lia.
  - replace k with (50 + S (k - 51))%nat by lia.
    rewrite run_ticks_add. unfold mounted, mountEffect.
    rewrite (run_ticks_live 50 50) by lia. reflexivity.
Qed.

(** C16 [countdown_terminates]: From any live countdown whose bar is in range, the interval
    times out after [progress / 2 + 1] firings, at most 51: an unanswered
    offer is always withdrawn. *)
Theorem countdown_terminates n :
  progress_ok n -> intervalLive n = true ->
  (Z.to_nat (progress n / 2) + 1 <= 51)%nat /\
  run_ticks (Z.to_nat (progress n / 2) + 1) n = (mkNotif 0 false false, Some OnTimeout).
Proof.
  destruct n as [p o l]. unfold progress_ok. simpl. intros [Hb [m ->]] ->.
  replace (2 * m / 2)%Z with m by (rewrite Z.mul_comm, Z.div_mul; lia).
  split; [lia|].
  rewrite run_ticks_add, (run_ticks_live (Z.to_nat m) m) by lia.
  replace (2 * m - 2 * Z.of_nat (Z.to_nat m))%Z with 0%Z by lia. reflexivity.
Qed.

(** ** Witnesses at concrete inputs *)

Lemma countdown_times_out_on_tick_51_witness :
  (51 <= 51)%nat /\ run_ticks 51 mounted = (mkNotif 0 false false, Some OnTimeout).
Proof.
  assert (H : (51 <= 51)%nat) by lia.
  split; [exact H|].
  exact (proj2 (proj2 (countdown_times_out_on_tick_51 (mkOffered "" "" "" 0 0) 51)) H).
Defined.

Lemma countdown_terminates_witness :
  progress_ok (mkNotif 40 true true) /\
  run_ticks 21 (mkNotif 40 true true) = (mkNotif 0 false false, Some OnTimeout).
Proof.
  assert (H1 : progress_ok (mkNotif 40 true true)) by (split; [simpl; lia|exists 20%Z; reflexivity]).
  split; [exact H1|].
  exact (proj2 (countdown_terminates (mkNotif 40 true true) H1 eq_refl)).
Defined.
