(* ===== verification/Session.v ===== *)
(** * The delivery session: the dashboard, its offer sheet, its status
    dialogs and the duty switch composed
    ([src/contexts/delivery-context.tsx], [src/app/delivery/page.tsx] lines
    56-78 and 130-137, [src/components/layout/delivery-header.tsx] line 45)

    One UI thread runs every handler to completion, so a session is a
    sequence of events applied one at a time to the whole state: the duty
    flag of [DeliveryProvider], the dashboard ledger and the mounted offer
    sheet, if any.  The sheet is mounted exactly while [currentTask] is
    set.  Whenever the dashboard re-renders while the sheet is mounted, the
    sheet's effect runs again because its [onTimeout] prop
    ([handleDeclineTask], a fresh closure on every render) changed
    identity; the model applies [mountEffect] in that case.

    [sys_step] lets every event of the page occur in every state where its
    button, row or timer exists, also while the offer sheet is open.  The
    sheet is a modal dialog, so in the browser the duty switch and the
    status buttons behind it do not receive clicks while it is open: the
    model admits more runs than the page, which makes its invariants and
    the refinement of [Ledger] hold a fortiori, while a run that clicks
    behind the open sheet need not be one the page can perform. *)

From S2P Require Import Prelude StatusUpdater Dashboard Countdown.
From Stdlib Require Import QArith.
Local Close Scope Q_scope.
Open Scope string_scope.

Import DeliveryStatusUpdater DeliveryStage Dashboard TaskNotification.

(** [DeliveryProvider]: [useState(true)] for [isDutyOn]; the header's switch
    calls [setIsDutyOn]. *)
Module DeliveryContext.
Record DeliveryContextState := mkCtx { isDutyOn : bool }.
Definition initialContext : DeliveryContextState := mkCtx true.
Definition setIsDutyOn (b : bool) (c : DeliveryContextState) : DeliveryContextState := mkCtx b.
End DeliveryContext.

Module Session.
Import DeliveryContext.

Record Sys := mkSys {
  ctx : DeliveryContextState;
  dash : DashState;
  notif : option Notif
}.

Definition initialSys : Sys := mkSys initialContext initialDash None.

(** The events of a session. *)
Inductive Event :=
  | OfferTick (r : Q)           (** the page's 5 s interval fires; [Math.random()] is [r] *)
  | CountdownTick               (** the sheet's 100 ms interval fires *)
  | ClickAccept                 (** "Accept Job" *)
  | ClickDecline                (** "Decline" *)
  | DismissSheet                (** the sheet is closed by another gesture *)
  | ClickUpdate (taskId : string) (** the status dialog's button on the row [taskId] *)
  | ToggleDuty (b : bool).      (** the header's switch calls [setIsDutyOn(b)] *)

(** The page's wiring of the sheet's callbacks (lines 131-136). *)
Definition onSignal (sg : Signal) (d : DashState) : DashState :=
  match sg with
  | OnAccept => handleAcceptTask d
  | OnDecline | OnTimeout => handleDeclineTask d
  end.

(** The dashboard re-rendered: a mounted sheet re-runs its effect. *)
Definition rerender (s : Sys) : Sys :=
  mkSys (ctx s) (dash s) (mountEffect <$> notif s).

(** A sheet callback reached the page: the ledger is updated and, the offer
    being cleared, the sheet is unmounted (its cleanup clears its interval). *)
Definition signalled (s : Sys) (sg : Signal) : Sys :=
  mkSys (ctx s) (onSignal sg (dash s)) None.

(** A click inside the open sheet. *)
Definition sheetAction (act : Notif -> Notif * option Signal) (s : Sys) : option Sys :=
  match notif s with
  | Some n =>
      if isOpen n then
        match act n with
        | (_, Some sg) => Some (signalled s sg)
        | (n', None) => Some (mkSys (ctx s) (dash s) (Some n'))
        end
      else None
  | None => None
  end.

(** One event; [None] when the event cannot occur in that state (no such
    interval, button or row, or [r] outside [0, 1)). *)
Definition sys_step (e : Event) (s : Sys) : option Sys :=
  match e with
  | OfferTick r =>
      if is_math_random r then
        let d' := offerTick (isDutyOn (ctx s)) r (dash s) in
        Some (mkSys (ctx s) d'
                (match currentTask (dash s), currentTask d' with
                 | None, Some _ => Some mounted
                 | _, _ => notif s
                 end))
      else None
  | CountdownTick =>
      match notif s with
      | Some n =>
          match intervalTick n with
          | (_, Some sg) => Some (signalled s sg)
          | (n', None) => Some (mkSys (ctx s) (dash s) (Some n'))
          end
      | None => None
      end
  | ClickAccept => sheetAction handleAccept s
  | ClickDecline => sheetAction handleDecline s
  | DismissSheet => sheetAction (handleOpenChange false) s
  | ClickUpdate taskId =>
      match js_find (fun t => bool_decide (task_id t = taskId)) (ongoingTasks (dash s)) with
      | Some t =>
          match emitted (handleUpdate (mkTaskRef (task_id t) (status t)) true) with
          | Some (i, newStatus) =>
              Some (rerender (mkSys (ctx s) (handleStatusUpdate i newStatus (dash s)) (notif s)))
          | None => None
          end
      | None => None
      end
  | ToggleDuty b =>
      if bool_decide (b = isDutyOn (ctx s)) then Some s
      else Some (rerender (mkSys (setIsDutyOn b (ctx s)) (dash s) (notif s)))
  end.

(** A sequence of events, stopping at the first one that cannot occur. *)
Fixpoint run (es : list Event) (s : Sys) : option Sys :=
  match es with
  | [] => Some s
  | e :: es' => match sys_step e s with Some s' => run es' s' | None => None end
  end.

(** The states a session can reach from the page's first render. *)
Inductive reachable : Sys -> Prop :=
  | reachable_init : reachable initialSys
  | reachable_step s e s' : reachable s -> sys_step e s = Some s' -> reachable s'.

(** The state right after the first offer of [task-1]. *)
Definition offeredSys : Sys :=
  mkSys initialContext (set_currentTask initialDash (Some task1)) (Some mounted).

(** Statuses an ongoing task can carry. *)
Definition ongoingStatuses : list string :=
  ["Awaiting Pickup"; "In Transit"; "Arrived at Pickup"; "Picked Up"; "Arrived at Drop"].

(** The session invariant. *)
Record Inv (s : Sys) : Prop := {
  inv_sheet : is_Some (notif s) <-> is_Some (currentTask (dash s));
  inv_notif : forall n, notif s = Some n ->
      progress_ok n /\ intervalLive n = true /\ isOpen n = true;
  inv_nodup : NoDup (task_id <$> ongoingTasks (dash s));
  inv_offer : forall t, currentTask (dash s) = Some t ->
      t ∈ taskPool /\ task_id t ∉ task_id <$> ongoingTasks (dash s);
  inv_ongoing_ids : forall t, t ∈ ongoingTasks (dash s) ->
      task_id t ∈ task_id <$> (taskPool ++ initialOngoingTasks)%list;
  inv_completed_ids : forall t, t ∈ completedTasks (dash s) ->
      exists x, task_id t = "completed-" +:+ x;
  inv_ongoing_status : forall t, t ∈ ongoingTasks (dash s) -> status t ∈ ongoingStatuses;
  inv_completed_status : forall t, t ∈ completedTasks (dash s) -> status t = "Delivered";
  inv_earnings : forall t, t ∈ (ongoingTasks (dash s) ++ completedTasks (dash s))%list ->
      (0 <= earnings t)%Z
}.

End Session.

Import DeliveryContext Session.

(** Reduce the record projections of a destructed session state, leaving
    the constant task lists folded. *)
Ltac sys_simpl :=
  cbn [ctx dash notif ongoingTasks completedTasks cancelledTasksCount currentTask
       set_currentTask set_ongoingTasks isDutyOn] in *.

(** ** The session invariant holds initially and is preserved by every event *)

Lemma Inv_initial : Inv initialSys.
Proof.
  constructor; simpl.
  - by split; intros [? ?].
  - by intros n.
  - repeat constructor; set_solver.
  - by intros t.
  - intros t ->%list_elem_of_singleton. apply list_elem_of_In. simpl. tauto.
  - intros t ->%list_elem_of_singleton. by exists "1".
  - intros t ->%list_elem_of_singleton. apply list_elem_of_In. simpl. tauto.
  - by intros t ->%list_elem_of_singleton.
  - intros t Ht. apply list_elem_of_In in Ht. simpl in Ht.
    destruct Ht as [<-|[<-|[]]]; simpl; lia.
Qed.

Lemma Inv_rerender s : Inv s -> Inv (rerender s).
Proof.
  intros []. unfold rerender. constructor; sys_simpl; try done.
  - by rewrite fmap_is_Some.
  - intros n' (n & _ & ->)%fmap_Some. apply mountEffect_ok.
Qed.

Lemma Inv_offerTick s r : Inv s ->
  Inv (mkSys (ctx s) (offerTick (isDutyOn (ctx s)) r (dash s))
         (match currentTask (dash s), currentTask (offerTick (isDutyOn (ctx s)) r (dash s)) with
          | None, Some _ => Some mounted
          | _, _ => notif s
          end)).
Proof.
  intros HI. destruct (offerTick_cases (isDutyOn (ctx s)) r (dash s))
    as [E | (_ & Hc & t & E & Ht)]; rewrite E.
  - destruct s as [c d o]; simpl. by destruct (currentTask d).
  - rewrite Hc. destruct HI as [Hs Hn Hnd Ho Hoi Hci Hos Hcs He].
    apply elem_of_availableTasks in Ht as [Hp Hacc].
    destruct s as [c [o k n x] no]; sys_simpl. subst x.
    constructor; sys_simpl; [by split; intros _; eexists
      |intros n' [= <-]; apply mountEffect_ok|done| |done..].
    intros t' [= <-]. split; [done|]. intros Hin. apply Hacc.
    apply elem_of_acceptedTaskIds. simpl. split; [by apply pool_id_nonempty|by left].
Qed.

Lemma Inv_signalled s sg n : Inv s -> notif s = Some n -> Inv (signalled s sg).
Proof.
  intros [Hs Hn Hnd Ho Hoi Hci Hos Hcs He] Hno.
  destruct (currentTask (dash s)) as [t|] eqn:Ec;
    [|exfalso; destruct (proj1 Hs (ltac:(by eexists))) as [? ?]; congruence].
  destruct (Ho t eq_refl) as [Hp Hfresh].
  unfold signalled. destruct s as [c [o k m x] no]; sys_simpl. subst x.
  destruct sg; cbn [onSignal handleAcceptTask handleDeclineTask]; sys_simpl;
    [| constructor; sys_simpl; [by split; intros [? ?]|by intros|done|by intros|done..]
     | constructor; sys_simpl; [by split; intros [? ?]|by intros|done|by intros|done..]].
  constructor; sys_simpl; [by split; intros [? ?]|by intros|by constructor|by intros| |done| |done|].
  - intros t' [->|Ht']%elem_of_cons; [|by apply Hoi]. cbn [task_id with_status].
    apply list_elem_of_fmap_2, elem_of_app. by left.
  - intros t' [->|Ht']%elem_of_cons; [apply list_elem_of_In; simpl; tauto|by apply Hos].
  - intros t' [[->|Ht']%elem_of_cons|Ht']%elem_of_app;
      [cbn [earnings with_status]; by apply pool_earnings_nonneg|apply He; set_solver..].
Qed.

Lemma Inv_countdown s n n' : Inv s -> notif s = Some n -> intervalTick n = (n', None) ->
  Inv (mkSys (ctx s) (dash s) (Some n')).
Proof.
  intros [Hs Hn Hnd Ho Hoi Hci Hos Hcs He] Hno Ht.
  destruct (Hn n Hno) as (Hok & Hlive & Hopen).
  destruct (intervalTick_quiet n n' Hlive Ht) as [Hl' Ho'].
  constructor; sys_simpl; try done.
  - rewrite <- Hs, Hno. by split; intros _; eexists.
  - intros m [= <-]. split_and!; [|done|by rewrite Ho'].
    pose proof (intervalTick_progress_ok n Hok) as P. by rewrite Ht in P.
Qed.

Lemma step_status_ongoing st :
  st ∈ step_id <$> deliverySteps -> st <> "Delivered" -> st ∈ ongoingStatuses.
Proof.
  intros Hst Hne. apply list_elem_of_In in Hst. apply list_elem_of_In.
  simpl in *. naive_solver.
Qed.

Lemma Inv_statusUpdate s t i st :
  Inv s -> t ∈ ongoingTasks (dash s) ->
  emitted (handleUpdate (mkTaskRef (task_id t) (status t)) true) = Some (i, st) ->
  Inv (mkSys (ctx s) (handleStatusUpdate i st (dash s)) (notif s)).
Proof.
  intros HI Ht Hem. pose proof HI as [Hs Hn Hnd Ho Hoi Hci Hos Hcs He].
  apply handleUpdate_emitted in Hem as [-> Hst]. cbn [ref_id] in *.
  destruct (decide (st = "Delivered")) as [->|Hnot].
  - destruct (handleStatusUpdate_delivered_eq (dash s) t Hnd Ht)
      as (Hgone & Ho' & Hc' & _ & _ & Hcur).
    constructor; sys_simpl; rewrite ?Ho', ?Hc', ?Hcur; [done|done| | | | | | |].
    + by apply NoDup_fmap_filter.
    + intros t' Ht'. destruct (Ho t' Ht') as [Hp Hf]. split; [done|].
      by intros ?%elem_of_fmap_filter.
    + intros t' [_ Ht']%list_elem_of_filter. by apply Hoi.
    + intros t' [->|Ht']%elem_of_cons; [by eexists|by apply Hci].
    + intros t' [_ Ht']%list_elem_of_filter. by apply Hos.
    + intros t' [->|Ht']%elem_of_cons; [done|by apply Hcs].
    + intros t' [[_ Ht']%list_elem_of_filter|[->|Ht']%elem_of_cons]%elem_of_app;
        [apply He; set_solver|apply (He t); set_solver|apply He; set_solver].
  - unfold handleStatusUpdate. rewrite bool_decide_eq_false_2 by done.
    constructor; sys_simpl; rewrite ?map_update_ids; [done|done|done|done| | | | |].
    + intros t' (y & Hy & -> & _)%elem_of_map_update. by apply Hoi.
    + done.
    + intros t' (y & Hy & _ & _ & [->| ->])%elem_of_map_update;
        [by apply Hos|by apply step_status_ongoing].
    + done.
    + intros t' [(y & Hy & _ & -> & _)%elem_of_map_update|Ht']%elem_of_app;
        apply He; set_solver.
Qed.

Lemma Inv_ctx s c : Inv s -> Inv (mkSys c (dash s) (notif s)).
Proof. intros []. by constructor. Qed.

Lemma Inv_sheetAction act s s' :
  (forall n, is_Some (snd (act n))) -> Inv s -> sheetAction act s = Some s' -> Inv s'.
Proof.
  intros Hact HI. unfold sheetAction.
  destruct (notif s) as [n|] eqn:En; [|done]. destruct (isOpen n); [|done].
  destruct (act n) as [n' [sg|]] eqn:Ea.
  - intros [= <-]. by eapply Inv_signalled.
  - specialize (Hact n). rewrite Ea in Hact. by destruct Hact.
Qed.

Lemma Inv_step e s s' : Inv s -> sys_step e s = Some s' -> Inv s'.
Proof.
  intros HI. destruct e as [r| | | | |taskId|b]; cbn [sys_step].
  - destruct (is_math_random r); [|done]. intros [= <-]. by apply Inv_offerTick.
  - destruct (notif s) as [n|] eqn:En; [|done].
    destruct (intervalTick n) as [n' [sg|]] eqn:Et; intros [= <-];
      [by eapply Inv_signalled|by eapply Inv_countdown].
  - apply Inv_sheetAction; [by eexists|done].
  - apply Inv_sheetAction; [by eexists|done].
  - apply Inv_sheetAction; [by eexists|done].
  - destruct (js_find _ _) as [t|] eqn:Ef; [|done].
    destruct (emitted _) as [[i st]|] eqn:Em; [|done]. intros [= <-].
    apply Inv_rerender. eapply Inv_statusUpdate; [done| |exact Em].
    by apply js_find_Some in Ef as [Ht _].
  - case_bool_decide; intros [= <-]; [done|].
    apply Inv_rerender. by apply Inv_ctx.
Qed.

Lemma reachable_inv_holds s : reachable s -> Inv s.
Proof.
  induction 1 as [|s e s' _ IH Hstep]; [apply Inv_initial|].
  by eapply Inv_step.
Qed.

(** C1 [session_invariant]: Every reachable state of a session satisfies the ledger
    invariant: the sheet is mounted exactly while a task is offered and its
    bar is in range; ongoing identifiers are unique and come from the pool
    or the initial list; the offer is a pool task not ongoing; completed
    tasks carry [completed-] identifiers and the [Delivered] status; ongoing
    statuses are the five in-progress labels; payouts are non-negative. *)
Theorem reachable_Inv s : reachable s -> Inv s.
Proof. apply reachable_inv_holds. Qed.

Lemma origin_id_not_completed x y :
  x ∈ task_id <$> (taskPool ++ initialOngoingTasks)%list -> x <> "completed-" +:+ y.
Proof.
  intros (t & -> & [Hp|Hi]%elem_of_app)%list_elem_of_fmap_1.
  - by apply pool_id_not_completed.
  - apply list_elem_of_singleton in Hi as ->. discriminate.
Qed.

(** C2 [buckets_disjoint]: In every reachable state an identifier is in at most one of the
    offer slot, the ongoing list and the completed list, and the ongoing
    identifiers are pairwise distinct. *)
Theorem reachable_buckets_disjoint s :
  reachable s ->
  NoDup (task_id <$> ongoingTasks (dash s)) /\
  (forall t, currentTask (dash s) = Some t ->
     task_id t ∉ task_id <$> ongoingTasks (dash s) /\
     task_id t ∉ task_id <$> completedTasks (dash s)) /\
  (forall x, x ∈ task_id <$> ongoingTasks (dash s) -> x ∉ task_id <$> completedTasks (dash s)).
Proof.
  intros [Hs Hn Hnd Ho Hoi Hci Hos Hcs He]%reachable_inv_holds.
  split_and!; [done| |].
  - intros t Ht. destruct (Ho t Ht) as [Hp Hf]. split; [done|].
    intros (c & Hc & Hin)%list_elem_of_fmap_1. destruct (Hci c Hin) as [y Hy].
    apply (pool_id_not_completed t y Hp). congruence.
  - intros x (o & -> & Hin)%list_elem_of_fmap_1 (c & Hc & Hin')%list_elem_of_fmap_1.
    destruct (Hci c Hin') as [y Hy]. apply (origin_id_not_completed (task_id o) y);
      [by apply Hoi|congruence].
Qed.

(** C6 [declined_counter]: Each event changes the declined counter as the spec says: a
    decline or a dismissal adds exactly one and clears the offer without
    touching the ongoing list; an acceptance adds nothing and moves the
    offered task to the front of the ongoing list as [Awaiting Pickup]; a
    countdown tick either times the offer out (adding one) or changes no
    ledger field; every other event leaves the counter unchanged. *)
Theorem step_declined_counter e s s' :
  reachable s -> sys_step e s = Some s' ->
  let k := cancelledTasksCount (dash s) in
  let k' := cancelledTasksCount (dash s') in
  match e with
  | ClickDecline | DismissSheet =>
      k' = S k /\ currentTask (dash s') = None /\ ongoingTasks (dash s') = ongoingTasks (dash s)
  | ClickAccept =>
      k' = k /\ currentTask (dash s') = None /\
      exists t, currentTask (dash s) = Some t /\
        ongoingTasks (dash s') = with_status t "Awaiting Pickup" :: ongoingTasks (dash s)
  | CountdownTick =>
      (k' = S k /\ currentTask (dash s') = None /\ ongoingTasks (dash s') = ongoingTasks (dash s))
      \/ dash s' = dash s
  | _ => k' = k
  end.
Proof.
  intros [Hsh _ _ _ _ _ _ _ _]%reachable_inv_holds.
  destruct e as [r| | | | |taskId|b]; cbn [sys_step]; intros Hs.
  - destruct (is_math_random r); [|done]. injection Hs as <-. simpl.
    destruct (offerTick_cases (isDutyOn (ctx s)) r (dash s)) as [->|(_ & _ & t & -> & _)];
      by destruct (dash s).
  - destruct (notif s) as [n|]; [|done].
    destruct (intervalTick n) as [n' [sg|]] eqn:Et; injection Hs as <-; [left|by right].
    unfold intervalTick in Et. destruct (intervalLive n), (progress n <=? 0)%Z; try done.
    injection Et as <- <-. done.
  - unfold sheetAction in Hs. destruct (notif s) as [n|] eqn:En; [|done].
    destruct (isOpen n); [|done]. injection Hs as <-. simpl. unfold handleAcceptTask.
    destruct (currentTask (dash s)) as [t|]; [by split_and!; eauto|].
    exfalso. destruct (proj1 Hsh (ltac:(by eexists))) as [? ?]. done.
  - unfold sheetAction in Hs. destruct (notif s) as [n|]; [|done].
    destruct (isOpen n); [|done]. by injection Hs as <-.
  - unfold sheetAction in Hs. destruct (notif s) as [n|]; [|done].
    destruct (isOpen n); [|done]. by injection Hs as <-.
  - destruct (js_find _ _) as [t|]; [|done].
    destruct (emitted _) as [[i st]|]; [|done]. injection Hs as <-. simpl.
    unfold handleStatusUpdate. case_bool_decide; [|done].
    by destruct (js_find _ _).
  - case_bool_decide; injection Hs as <-; done.
Qed.

Lemma handleStatusUpdate_currentTask i st d :
  currentTask (handleStatusUpdate i st d) = currentTask d.
Proof.
  unfold handleStatusUpdate. case_bool_decide; [|done]. by destruct (js_find _ _).
Qed.

Lemma run_app es1 es2 s :
  run (es1 ++ es2) s = match run es1 s with Some s' => run es2 s' | None => None end.
Proof.
  revert s. induction es1 as [|e es1 IH]; intros s; simpl; [done|].
  destruct (sys_step e s); [apply IH|done].
Qed.

(** Countdown ticks that signal nothing only move the bar. *)
Lemma run_countdown_quiet k s n n' :
  notif s = Some n -> run_ticks k n = (n', None) ->
  run (repeat CountdownTick k) s = Some (mkSys (ctx s) (dash s) (Some n')).
Proof.
  revert s n. induction k as [|k IH]; intros s n Hn Hr; simpl in *.
  - injection Hr as ->. destruct s; simpl in *. by subst.
  - rewrite Hn. destruct (intervalTick n) as [n1 [sg|]]; [done|].
    by apply (IH (mkSys (ctx s) (dash s) (Some n1)) n1).
Qed.

(** With duty off the offer interval changes nothing; toggling the
    switch never cancels or creates an offer and leaves the ledger as it
    is. *)
Theorem duty_switch s s1 s2 r b :
  (isDutyOn (ctx s) = false -> sys_step (OfferTick r) s = Some s1 ->
     dash s1 = dash s /\ notif s1 = notif s) /\
  (sys_step (ToggleDuty b) s = Some s2 ->
     dash s2 = dash s /\ isDutyOn (ctx s2) = b /\
     (is_Some (notif s2) <-> is_Some (notif s))).
Proof.
  split.
  - intros Hoff. cbn [sys_step]. rewrite Hoff. destruct (is_math_random r); [|done].
    intros [= <-]. unfold offerTick. simpl. by destruct (currentTask (dash s)).
  - cbn [sys_step]. case_bool_decide as E; intros [= <-]; [done|].
    unfold rerender. simpl. by rewrite fmap_is_Some.
Qed.

(** While an offer is pending, a status update on any
    ongoing task or a change of the duty switch re-renders the dashboard;
    [handleDeclineTask] is a new closure, the sheet's effect depends on it,
    and the countdown restarts from 100 with the same offer pending. *)
Theorem rerender_restarts_countdown e s s' n :
  notif s = Some n -> sys_step e s = Some s' ->
  (exists i, e = ClickUpdate i) \/ (exists b, e = ToggleDuty b /\ b <> isDutyOn (ctx s)) ->
  notif s' = Some (mkNotif 100 true true) /\ currentTask (dash s') = currentTask (dash s).
Proof.
  intros Hn Hs [[i ->]|[b [-> Hb]]]; cbn [sys_step] in Hs.
  - destruct (js_find _ _) as [t|]; [|done].
    destruct (emitted _) as [[i' st]|]; [|done]. injection Hs as <-.
    unfold rerender. simpl. rewrite Hn. split; [done|].
    apply handleStatusUpdate_currentTask.
  - rewrite bool_decide_eq_false_2 in Hs by done. injection Hs as <-.
    unfold rerender. simpl. by rewrite Hn.
Qed.

(** C7 [offer_times_out]: Left alone, a pending offer in any reachable state is withdrawn
    by the countdown within 51 ticks: the offer slot empties, the declined
    counter goes up by one and the ongoing list is unchanged. *)
Theorem offer_times_out s t :
  reachable s -> currentTask (dash s) = Some t ->
  exists k s', (k <= 51)%nat /\ run (repeat CountdownTick k) s = Some s' /\
    currentTask (dash s') = None /\
    cancelledTasksCount (dash s') = S (cancelledTasksCount (dash s)) /\
    ongoingTasks (dash s') = ongoingTasks (dash s).
Proof.
  intros [Hs Hn _ _ _ _ _ _ _]%reachable_inv_holds Hc.
  destruct (notif s) as [n|] eqn:En;
    [|exfalso; rewrite Hc in Hs; destruct (proj2 Hs (ltac:(by eexists))) as [? ?]; done].
  destruct (Hn n eq_refl) as ([Hb [j Hj]] & Hlive & _).
  destruct n as [p o l]; simpl in *. subst p l.
  exists (Z.to_nat j + 1)%nat.
  rewrite repeat_app, run_app, (run_countdown_quiet _ s _ (mkNotif 0 o true) En).
  - eexists. split_and!; [lia|reflexivity|done..].
  - rewrite (run_ticks_live (Z.to_nat j) j) by lia. do 3 f_equal. lia.
Qed.

Lemma run_reachable es s s' : reachable s -> run es s = Some s' -> reachable s'.
Proof.
  revert s. induction es as [|e es IH]; intros s Hr; simpl; [by intros [= <-]|].
  destruct (sys_step e s) as [s1|] eqn:E; [|done]. apply IH. by econstructor.
Qed.

(** A click on a row whose status denotes a stage with a successor. *)
Lemma click_update_step s t st st' :
  Inv s -> t ∈ ongoingTasks (dash s) -> stage_of_status (status t) = Some st ->
  stage_next st = Some st' ->
  sys_step (ClickUpdate (task_id t)) s =
    Some (rerender (mkSys (ctx s) (handleStatusUpdate (task_id t) (stage_status st') (dash s))
                          (notif s))).
Proof.
  intros HI Ht Hst Hn. cbn [sys_step].
  rewrite (js_find_by_id _ t (inv_nodup _ HI) Ht).
  rewrite (handleUpdate_stage_next (task_id t) (status t) st true Hst), Hn. done.
Qed.

Lemma click_update_advance s t st st' :
  Inv s -> t ∈ ongoingTasks (dash s) -> stage_of_status (status t) = Some st ->
  stage_next st = Some st' -> st' <> Delivered ->
  exists s1, sys_step (ClickUpdate (task_id t)) s = Some s1 /\ Inv s1 /\
    with_status t (stage_status st') ∈ ongoingTasks (dash s1) /\
    completedTasks (dash s1) = completedTasks (dash s) /\
    currentTask (dash s1) = currentTask (dash s) /\
    cancelledTasksCount (dash s1) = cancelledTasksCount (dash s).
Proof.
  intros HI Ht Hst Hn Hd. eexists. split; [by eapply click_update_step|].
  split; [eapply Inv_step; [done|by eapply click_update_step]|].
  unfold rerender, handleStatusUpdate. cbn [dash].
  rewrite bool_decide_eq_false_2 by (destruct st'; done). cbn.
  split_and!; [|done..].
  apply (list_elem_of_fmap_2' _ _ t); [done|]. by rewrite bool_decide_eq_true_2.
Qed.

Lemma click_update_deliver s t st :
  Inv s -> t ∈ ongoingTasks (dash s) -> stage_of_status (status t) = Some st ->
  stage_next st = Some Delivered ->
  exists s1, sys_step (ClickUpdate (task_id t)) s = Some s1 /\
    completedTasks (dash s1) = as_completed t :: completedTasks (dash s) /\
    task_id t ∉ task_id <$> ongoingTasks (dash s1) /\
    todaysEarnings (dash s1) = (todaysEarnings (dash s) + earnings t)%Z /\
    currentTask (dash s1) = currentTask (dash s) /\
    cancelledTasksCount (dash s1) = cancelledTasksCount (dash s).
Proof.
  intros HI Ht Hst Hn. eexists. split; [by eapply click_update_step|].
  destruct (handleStatusUpdate_delivered_eq (dash s) t (inv_nodup _ HI) Ht)
    as (Hgone & _ & Hc & He & Hk & Hcur).
  unfold rerender. cbn [dash]. done.
Qed.

Lemma todaysEarnings_same d1 d2 :
  completedTasks d1 = completedTasks d2 -> todaysEarnings d1 = todaysEarnings d2.
Proof. unfold todaysEarnings. by intros ->. Qed.

Lemma click_update_gone s i :
  i ∉ task_id <$> ongoingTasks (dash s) -> sys_step (ClickUpdate i) s = None.
Proof.
  intros Hi. cbn [sys_step]. rewrite js_find_None_intro; [done|].
  intros y Hy. apply bool_decide_eq_false_2. intros <-. by apply Hi, list_elem_of_fmap_2.
Qed.

(** C5 [deliver_in_four_clicks]: In a reachable state, a task awaiting pickup (or in transit)
    is delivered by exactly four clicks of its update button, visiting
    [Arrived at Pickup], [Picked Up] and [Arrived at Drop] in order; the
    fourth moves its [completed-] copy to the completed list and adds its
    payout to today's earnings, and the button of that row is gone. *)
Theorem deliver_in_four_clicks s t :
  reachable s -> t ∈ ongoingTasks (dash s) -> stage_of_status (status t) = Some AwaitingPickup ->
  exists s1 s2 s3 s4,
    sys_step (ClickUpdate (task_id t)) s = Some s1 /\
    with_status t "Arrived at Pickup" ∈ ongoingTasks (dash s1) /\
    sys_step (ClickUpdate (task_id t)) s1 = Some s2 /\
    with_status t "Picked Up" ∈ ongoingTasks (dash s2) /\
    sys_step (ClickUpdate (task_id t)) s2 = Some s3 /\
    with_status t "Arrived at Drop" ∈ ongoingTasks (dash s3) /\
    sys_step (ClickUpdate (task_id t)) s3 = Some s4 /\
    completedTasks (dash s4) = as_completed t :: completedTasks (dash s) /\
    task_id t ∉ task_id <$> ongoingTasks (dash s4) /\
    todaysEarnings (dash s4) = (todaysEarnings (dash s) + earnings t)%Z /\
    currentTask (dash s4) = currentTask (dash s) /\
    sys_step (ClickUpdate (task_id t)) s4 = None.
Proof.
  intros Hr Ht Hst. pose proof (reachable_inv_holds s Hr) as HI.
  destruct (click_update_advance s t AwaitingPickup ArrivedAtPickup HI Ht Hst eq_refl ltac:(done))
    as (s1 & E1 & HI1 & Ht1 & Hc1 & Hx1 & _).
  destruct (click_update_advance s1 _ ArrivedAtPickup PickedUp HI1 Ht1 eq_refl eq_refl ltac:(done))
    as (s2 & E2 & HI2 & Ht2 & Hc2 & Hx2 & _).
  rewrite with_status_twice in Ht2.
  destruct (click_update_advance s2 _ PickedUp ArrivedAtDrop HI2 Ht2 eq_refl eq_refl ltac:(done))
    as (s3 & E3 & HI3 & Ht3 & Hc3 & Hx3 & _).
  rewrite with_status_twice in Ht3.
  destruct (click_update_deliver s3 _ ArrivedAtDrop HI3 Ht3 eq_refl eq_refl)
    as (s4 & E4 & Hc4 & Hg4 & He4 & Hx4 & _).
  cbn [task_id with_status earnings] in *. rewrite as_completed_with_status in Hc4.
  exists s1, s2, s3, s4. split_and!; try done.
  - by rewrite Hc4, Hc3, Hc2, Hc1.
  - rewrite He4. erewrite (todaysEarnings_same (dash s3) (dash s)); [done|congruence].
  - congruence.
  - by apply click_update_gone.
Qed.

Lemma TaskTable_rows tasks a h r :
  (exists rows, TaskTable tasks a h = RowsTable rows /\ r ∈ rows) ->
  exists t, t ∈ tasks /\ row_key r = task_id t /\ row_status r = status t /\
            row_badge r = getStatusBadge (status t) /\ row_action r = a && h.
Proof.
  intros (rows & E & Hr). unfold TaskTable in E.
  destruct tasks as [|t0 l] eqn:Et; [done|]. rewrite <- Et in E. injection E as <-.
  apply list_elem_of_fmap_1 in Hr as (t & -> & Ht). exists t. rewrite <- Et. by split_and!.
Qed.

Lemma TaskTable_keys tasks a h : table_keys (TaskTable tasks a h) = task_id <$> tasks.
Proof. destruct tasks as [|t l]; [done|]. simpl. by rewrite <- list_fmap_compose. Qed.

Lemma ongoing_badge_known st : st ∈ ongoingStatuses -> getStatusBadge st <> "bg-muted".
Proof. intros Hst. apply list_elem_of_In in Hst. simpl in Hst. naive_solver. Qed.

(** C17 [dashboard_tables_well_formed]: In every reachable state the rendered dashboard is
    well formed: the ongoing table's row keys are distinct, each ongoing
    row carries the [Update] button and a known status badge, and each
    completed row shows [Delivered] without a button. *)
Theorem dashboard_tables_well_formed s :
  reachable s ->
  let v := DeliveryDashboardView (dash s) in
  NoDup (table_keys (dv_ongoing v)) /\
  (forall rows r, dv_ongoing v = RowsTable rows -> r ∈ rows ->
     row_action r = true /\ row_badge r <> "bg-muted") /\
  (forall rows r, dv_completed v = RowsTable rows -> r ∈ rows ->
     row_action r = false /\ row_status r = "Delivered").
Proof.
  intros [_ _ Hnd _ _ _ Hos Hcs _]%reachable_inv_holds. simpl.
  split_and!.
  - by rewrite TaskTable_keys.
  - intros rows r E Hr. destruct (TaskTable_rows _ _ _ r (ltac:(eauto)))
      as (t & Ht & _ & _ & -> & ->). split; [done|]. by apply ongoing_badge_known, Hos.
  - intros rows r E Hr. destruct (TaskTable_rows _ _ _ r (ltac:(eauto)))
      as (t & Ht & _ & -> & _ & ->). split; [done|]. by apply Hcs.
Qed.

(** The completed table can render two rows with the same React
    key: the same pool task can be offered, accepted and delivered twice,
    and both completed copies are keyed [completed-task-1]. *)
Theorem completed_keys_collide :
  exists s, run ([OfferTick 0; ClickAccept] ++ repeat (ClickUpdate "task-1") 4 ++
                 [OfferTick 0; ClickAccept] ++ repeat (ClickUpdate "task-1") 4)%list initialSys = Some s /\
    ~ NoDup (table_keys (dv_completed (DeliveryDashboardView (dash s)))).
Proof.
  eexists. split; [vm_compute; reflexivity|].
  vm_compute. intros Hnd. apply NoDup_cons in Hnd as [Hn _]. apply Hn. left.
Qed.

(** ** Witnesses at concrete inputs *)

Lemma offeredSys_reachable : reachable offeredSys.
Proof. apply (run_reachable [OfferTick 0] initialSys); [constructor|reflexivity]. Qed.

Lemma dashboard_tables_well_formed_witness :
  reachable initialSys /\ NoDup (table_keys (dv_ongoing (DeliveryDashboardView (dash initialSys)))).
Proof.
  assert (H : reachable initialSys) by constructor.
  split; [exact H|exact (proj1 (dashboard_tables_well_formed initialSys H))].
Defined.

Lemma reachable_Inv_witness : reachable initialSys /\ Inv initialSys.
Proof. split; [constructor|apply reachable_Inv; constructor]. Defined.

Lemma reachable_buckets_disjoint_witness :
  reachable offeredSys /\ NoDup (task_id <$> ongoingTasks (dash offeredSys)).
Proof.
  split; [exact offeredSys_reachable|].
  exact (proj1 (reachable_buckets_disjoint offeredSys offeredSys_reachable)).
Defined.

Lemma step_declined_counter_witness :
  reachable offeredSys /\ sys_step ClickDecline offeredSys = Some (signalled offeredSys OnDecline) /\
  cancelledTasksCount (dash (signalled offeredSys OnDecline)) = 1%nat.
Proof.
  assert (H : sys_step ClickDecline offeredSys = Some (signalled offeredSys OnDecline))
    by reflexivity.
  split_and!; [exact offeredSys_reachable|exact H|].
  exact (proj1 (step_declined_counter ClickDecline offeredSys _ offeredSys_reachable H)).
Defined.

Lemma duty_switch_witness :
  sys_step (ToggleDuty false) offeredSys = Some (rerender (mkSys (mkCtx false) (dash offeredSys)
                                                               (notif offeredSys))) /\
  currentTask (dash (rerender (mkSys (mkCtx false) (dash offeredSys) (notif offeredSys))))
    = Some task1.
Proof.
  assert (H : sys_step (ToggleDuty false) offeredSys =
              Some (rerender (mkSys (mkCtx false) (dash offeredSys) (notif offeredSys))))
    by reflexivity.
  split; [exact H|].
  destruct (proj2 (duty_switch offeredSys offeredSys _ 0 false) H) as [Hd _].
  rewrite Hd. reflexivity.
Defined.

Lemma rerender_restarts_countdown_witness :
  notif offeredSys = Some mounted /\
  notif (rerender (mkSys (mkCtx false) (dash offeredSys) (notif offeredSys)))
    = Some (mkNotif 100 true true).
Proof.
  assert (H1 : notif offeredSys = Some mounted) by reflexivity.
  assert (H2 : sys_step (ToggleDuty false) offeredSys =
               Some (rerender (mkSys (mkCtx false) (dash offeredSys) (notif offeredSys))))
    by reflexivity.
  split; [exact H1|].
  refine (proj1 (rerender_restarts_countdown _ _ _ _ H1 H2 _)).
  right. exists false. split; [reflexivity|discriminate].
Defined.

Lemma offer_times_out_witness :
  reachable offeredSys /\ currentTask (dash offeredSys) = Some task1 /\
  exists k s', (k <= 51)%nat /\ run (repeat CountdownTick k) offeredSys = Some s' /\
    cancelledTasksCount (dash s') = 1%nat.
Proof.
  assert (H : currentTask (dash offeredSys) = Some task1) by reflexivity.
  split_and!; [exact offeredSys_reachable|exact H|].
  destruct (offer_times_out offeredSys task1 offeredSys_reachable H)
    as (k & s' & Hk & Hrun & _ & Hc & _).
  exists k, s'. split_and!; [exact Hk|exact Hrun|exact Hc].
Defined.

Lemma deliver_in_four_clicks_witness :
  reachable initialSys /\ ongoing1 ∈ ongoingTasks (dash initialSys) /\
  stage_of_status (status ongoing1) = Some AwaitingPickup /\
  exists s4, sys_step (ClickUpdate "ongoing-1") s4 = None /\ todaysEarnings (dash s4) = 170%Z.
Proof.
  assert (H1 : reachable initialSys) by constructor.
  assert (H2 : ongoing1 ∈ ongoingTasks (dash initialSys)) by (apply list_elem_of_here).
  assert (H3 : stage_of_status (status ongoing1) = Some AwaitingPickup) by reflexivity.
  split_and!; [exact H1|exact H2|exact H3|].
  destruct (deliver_in_four_clicks initialSys ongoing1 H1 H2 H3)
    as (s1 & s2 & s3 & s4 & _ & _ & _ & _ & _ & _ & _ & _ & _ & He & _ & Hn).
  exists s4. split; [exact Hn|rewrite He; reflexivity].
Defined.

