(* ===== verification/Ledger.v ===== *)
(** * The task ledger of the design and the session's refinement of it

    The design (sections 3 and 4.5 of the specification) describes the
    delivery subsystem as a ledger: a duty flag, at most one offered task,
    the ongoing tasks, the completed tasks and a declined counter, changed
    only by six operations: [setDutyOn], drawing an offer, [acceptOffer],
    [recordDecline] (a decline, a dismissal or a timeout), and
    [advanceStatus], which either moves a task one stage forward in place
    or, at the last stage, moves it to [completed].  [Ledger] writes that
    machine as the step relation [lstep] on [Ledger].  The function [abs]
    reads a ledger out of a session state of [Session].

    The refinement theorem says that every event of the session either
    leaves the ledger unchanged or is one step of [lstep].  So every run
    of the page is a run of the ledger machine.  The machine is as weak as
    the code: it lets a task be offered again after it was declined or
    delivered, which the design forbids (findings of [Dashboard]). *)

From S2P Require Import Prelude StatusUpdater Dashboard Countdown Session.
From Stdlib Require Import QArith.
From stdpp Require Import relations.
Local Close Scope Q_scope.
Open Scope string_scope.

Module Ledger.
Import DeliveryStatusUpdater DeliveryStage Dashboard TaskNotification DeliveryContext Session.

Record Ledger := mkLedger {
  duty : bool;
  offered : option Task;
  ongoing : list Task;
  completed : list Task;
  declinedCount : nat
}.

(** The ledger operations of the design. *)
Inductive lstep : Ledger -> Ledger -> Prop :=
  | L_setDuty b L :
      lstep L (mkLedger b (offered L) (ongoing L) (completed L) (declinedCount L))
  | L_offer t L :
      duty L = true -> offered L = None -> t ∈ taskPool -> task_id t ∉ task_id <$> ongoing L ->
      lstep L (mkLedger (duty L) (Some t) (ongoing L) (completed L) (declinedCount L))
  | L_accept t L :
      offered L = Some t ->
      lstep L (mkLedger (duty L) None (with_status t "Awaiting Pickup" :: ongoing L)
                 (completed L) (declinedCount L))
  | L_decline t L :
      offered L = Some t ->
      lstep L (mkLedger (duty L) None (ongoing L) (completed L) (S (declinedCount L)))
  | L_advance (l1 : list Task) t l2 st st' L :
      ongoing L = (l1 ++ t :: l2)%list -> stage_of_status (status t) = Some st ->
      stage_next st = Some st' -> st' <> Delivered ->
      lstep L (mkLedger (duty L) (offered L) (l1 ++ with_status t (stage_status st') :: l2)%list
                 (completed L) (declinedCount L))
  | L_deliver (l1 : list Task) t l2 L :
      ongoing L = (l1 ++ t :: l2)%list -> stage_of_status (status t) = Some ArrivedAtDrop ->
      lstep L (mkLedger (duty L) (offered L) (l1 ++ l2)%list (as_completed t :: completed L)
                 (declinedCount L)).

(** The ledger of a session state. *)
Definition abs (s : Sys) : Ledger :=
  mkLedger (isDutyOn (ctx s)) (currentTask (dash s)) (ongoingTasks (dash s))
    (completedTasks (dash s)) (cancelledTasksCount (dash s)).

(** The events of the witness: an offer accepted and delivered, a second
    offer dismissed. *)
Definition witnessEvents : list Event :=
  [OfferTick 0; ClickAccept; ClickUpdate "task-1"; OfferTick (1 # 2); CountdownTick; DismissSheet;
   ClickUpdate "task-1"; ClickUpdate "task-1"; ClickUpdate "task-1"].

(** ** Lemmas *)

Lemma lstep_to L L1 L2 : lstep L L1 -> L2 = L1 -> lstep L L2.
Proof. by intros ? ->. Qed.

Lemma stage_status_delivered sg : stage_status sg = "Delivered" <-> sg = Delivered.
Proof. by destruct sg. Qed.

(** The statuses an ongoing task carries all denote a stage with a successor. *)
Lemma ongoing_status_stage st :
  st ∈ ongoingStatuses -> exists sg sg', stage_of_status st = Some sg /\ stage_next sg = Some sg'.
Proof.
  intros Hst. apply list_elem_of_In in Hst. simpl in Hst.
  destruct Hst as [<-|[<-|[<-|[<-|[<-|[]]]]]]; eexists _, _; split; reflexivity.
Qed.

(** A sheet callback that reaches the page while a task is offered. *)
Lemma signalled_lstep s sg :
  is_Some (currentTask (dash s)) -> lstep (abs s) (abs (signalled s sg)).
Proof.
  intros [t Ht]. destruct s as [c [o k m x] n]; cbn in Ht; subst x.
  destruct sg; [apply (L_accept t)|apply (L_decline t)..]; done.
Qed.

Lemma sheetAction_refines act s s' :
  Inv s -> sheetAction act s = Some s' -> abs s' = abs s \/ lstep (abs s) (abs s').
Proof.
  intros HI. unfold sheetAction.
  destruct (notif s) as [n|] eqn:En; [|done]. destruct (isOpen n); [|done].
  destruct (act n) as [n' [sg|]]; intros [= <-]; [right|by left].
  apply signalled_lstep, (inv_sheet _ HI). rewrite En. by eexists.
Qed.

(** A click on the update button of an ongoing row. *)
Lemma statusUpdate_lstep s t sg sg' :
  Inv s -> t ∈ ongoingTasks (dash s) -> stage_of_status (status t) = Some sg ->
  stage_next sg = Some sg' ->
  lstep (abs s) (abs (rerender (mkSys (ctx s) (handleStatusUpdate (task_id t) (stage_status sg')
                                                 (dash s)) (notif s)))).
Proof.
  intros HI Ht Hsg Hn. pose proof (inv_nodup _ HI) as Hnd.
  destruct (list_elem_of_split _ _ Ht) as (l1 & l2 & Hl).
  destruct (decide (sg' = Delivered)) as [->|Hne].
  - destruct (handleStatusUpdate_delivered_eq (dash s) t Hnd Ht)
      as (_ & Ho' & Hc' & _ & Hk' & Hcur).
    eapply lstep_to.
    + apply (L_deliver l1 t l2 (abs s) Hl). destruct sg; simplify_eq/=; done.
    + unfold abs; cbn [rerender ctx dash duty offered ongoing completed declinedCount stage_status]. rewrite Ho', Hc', Hk', Hcur, Hl.
      rewrite Hl in Hnd. by rewrite (filter_key_split task_id l1 l2 t Hnd).
  - eapply lstep_to.
    + by apply (L_advance l1 t l2 sg sg' (abs s) Hl).
    + unfold abs, handleStatusUpdate; cbn [rerender ctx dash].
      rewrite bool_decide_eq_false_2 by (by rewrite stage_status_delivered).
      destruct s as [c [o k m x] n]; cbn in Hl, Hnd |- *. rewrite Hl in Hnd |- *.
      by rewrite (map_key_split task_id (fun y => with_status y (stage_status sg')) l1 l2 t Hnd).
Qed.

(** Every event of an invariant state leaves the ledger unchanged or is one
    ledger operation. *)
Lemma sys_step_refines s e s' :
  Inv s -> sys_step e s = Some s' -> abs s' = abs s \/ lstep (abs s) (abs s').
Proof.
  intros HI. destruct e as [r| | | | |taskId|b]; cbn [sys_step].
  - destruct (is_math_random r); [|done]. intros [= <-].
    destruct (offerTick_cases (isDutyOn (ctx s)) r (dash s))
      as [E | (Hd & Hc & t & E & Ht)]; rewrite E; [by left|right].
    apply elem_of_availableTasks in Ht as [Hp Hacc].
    destruct s as [cx [o k m x] n]; cbn in Hd, Hc |- *. subst x.
    apply (L_offer t); [done..|]. intros Hin. apply Hacc, elem_of_acceptedTaskIds.
    split; [by apply pool_id_nonempty|by left].
  - destruct (notif s) as [n|] eqn:En; [|done].
    destruct (intervalTick n) as [n' [sg|]]; intros [= <-]; [right|by left].
    apply signalled_lstep, (inv_sheet _ HI). rewrite En. by eexists.
  - by apply sheetAction_refines.
  - by apply sheetAction_refines.
  - by apply sheetAction_refines.
  - destruct (js_find _ _) as [t|] eqn:Ef; [|done]. apply js_find_Some in Ef as [Ht _].
    destruct (ongoing_status_stage _ (inv_ongoing_status _ HI t Ht)) as (sg & sg' & Hsg & Hn).
    rewrite (handleUpdate_stage_next (task_id t) (status t) sg true Hsg), Hn.
    intros [= <-]. right. by apply (statusUpdate_lstep s t sg sg').
  - case_bool_decide; intros [= <-]; [by left|right]. apply (L_setDuty b).
Qed.

Lemma run_refines es s s' :
  reachable s -> run es s = Some s' -> rtc lstep (abs s) (abs s').
Proof.
  revert s. induction es as [|e es IH]; intros s Hr; cbn [run]; [by intros [= <-]|].
  destruct (sys_step e s) as [s1|] eqn:E; [|done]. intros Hrun.
  destruct (sys_step_refines s e s1 (reachable_inv_holds s Hr) E) as [Eq|Hst].
  - rewrite <- Eq. apply (IH s1); [by econstructor|done].
  - eapply rtc_l; [exact Hst|]. apply (IH s1); [by econstructor|done].
Qed.

(** C3 [session_refines_ledger]: the delivery session implements the
    design's ledger: along every run of the page from its first render,
    each event either leaves the ledger (duty flag, offer, ongoing and
    completed lists, declined counter) unchanged or performs one of the
    design's operations, so the ledger of the final state is reached from
    the initial ledger by ledger operations alone. *)
Theorem session_refines_ledger es s :
  run es initialSys = Some s -> rtc lstep (abs initialSys) (abs s).
Proof. apply run_refines, reachable_init. Qed.

Lemma session_refines_ledger_witness :
  let s := default initialSys (run witnessEvents initialSys) in
  run witnessEvents initialSys = Some s /\ rtc lstep (abs initialSys) (abs s).
Proof.
  assert (H : run witnessEvents initialSys = Some (default initialSys (run witnessEvents initialSys)))
    by (vm_compute; reflexivity).
  exact (conj H (session_refines_ledger _ _ H)).
Defined.

End Ledger.
