(* ===== verification/StarRating.v ===== *)
(** * Star rating ([src/components/delivery/star-rating.tsx])

    [StarRating({ rating, totalStars = 5 })] draws [Math.floor(rating)]
    full stars, a half star when [rating % 1 !== 0], and
    [totalStars - fullStars - (hasHalfStar ? 1 : 0)] empty stars, each
    group through [[...Array(n)]].  [Array(n)] throws a [RangeError] for a
    negative [n], so the rendering is partial: the model returns [None]
    when one of the two arrays cannot be built.  Ratings are rationals
    ([Q]); the dashboard passes [4.8]. *)

From S2P Require Import Prelude.
From Stdlib Require Import QArith Qround.

Module StarRating.

(** [Math.floor(rating)] *)
Definition fullStars (rating : Q) : Z := Qfloor rating.

(** [rating % 1 !== 0]: the remainder has the sign of [rating] in
    JavaScript, but it is zero exactly when [rating] is an integer, which
    is what this test reads. *)
Definition hasHalfStar (rating : Q) : bool :=
  negb (Qeq_bool rating (inject_Z (Qfloor rating))).

(** [totalStars - fullStars - (hasHalfStar ? 1 : 0)] *)
Definition emptyStars (rating : Q) (totalStars : Z) : Z :=
  totalStars - fullStars rating - (if hasHalfStar rating then 1 else 0).

(** [[...Array(n)]]: defined for [0 <= n]. *)
Definition js_array_length (n : Z) : option nat :=
  if (0 <=? n)%Z then Some (Z.to_nat n) else None.

(** What is drawn: the number of full stars, the half star, the number of
    empty stars. *)
Record StarView := mkStars { sv_full : nat; sv_half : bool; sv_empty : nat }.

Definition StarRatingView (rating : Q) (totalStars : Z) : option StarView :=
  match js_array_length (fullStars rating), js_array_length (emptyStars rating totalStars) with
  | Some f, Some e => Some (mkStars f (hasHalfStar rating) e)
  | _, _ => None
  end.

End StarRating.

Import StarRating.

Lemma hasHalfStar_spec r :
  hasHalfStar r = false <-> (r == inject_Z (Qfloor r))%Q.
Proof.
  unfold hasHalfStar. rewrite negb_false_iff. split; [apply Qeq_bool_eq|apply Qeq_bool_iff].
Qed.

Lemma fullStars_le r : (inject_Z (fullStars r) <= r)%Q.
Proof. apply Qfloor_le. Qed.

Lemma fullStars_bounds r (T : Z) :
  (0 <= r)%Q -> (r <= inject_Z T)%Q -> (0 <= fullStars r <= T)%Z.
Proof.
  intros H0 HT. unfold fullStars. split.
  - change 0%Z with (Qfloor 0). by apply Qfloor_resp_le.
  - rewrite <- (Qfloor_Z T). by apply Qfloor_resp_le.
Qed.

(** An integer rating has no half star; a fractional one has [floor r < r]. *)
Lemma hasHalfStar_lt r :
  hasHalfStar r = true -> (inject_Z (fullStars r) < r)%Q.
Proof.
  intros H. destruct (Qle_lt_or_eq _ _ (fullStars_le r)) as [Hlt|Heq]; [done|].
  exfalso. assert (hasHalfStar r = false) as Hf; [|congruence].
  apply hasHalfStar_spec. unfold fullStars in Heq. by symmetry.
Qed.


Lemma js_array_length_ok n : (0 <= n)%Z -> js_array_length n = Some (Z.to_nat n).
Proof. unfold js_array_length. by destruct (Z.leb_spec 0 n); [|lia]. Qed.

Lemma js_array_length_neg n : (n < 0)%Z -> js_array_length n = None.
Proof. unfold js_array_length. by destruct (Z.leb_spec 0 n); [lia|]. Qed.

(** For a rating between 0 and [totalStars], the component draws
    [floor rating] full stars, a half star exactly for a fractional rating,
    and empty stars filling up to [totalStars]. *)
Theorem star_counts_sum r (T : Z) :
  (0 <= r)%Q -> (r <= inject_Z T)%Q ->
  exists v, StarRatingView r T = Some v /\
    sv_full v = Z.to_nat (Qfloor r) /\ sv_half v = hasHalfStar r /\
    (sv_full v + (if sv_half v then 1 else 0) + sv_empty v = Z.to_nat T)%nat.
Proof.
  intros H0 HT. pose proof (fullStars_bounds r T H0 HT) as Hb.
  assert (He : (0 <= emptyStars r T)%Z).
  { unfold emptyStars. destruct (hasHalfStar r) eqn:Eh; [|lia].
    apply hasHalfStar_lt in Eh.
    assert (fullStars r < T)%Z; [|lia].
    rewrite Zlt_Qlt. eapply Qlt_le_trans; [exact Eh|exact HT]. }
  unfold StarRatingView. rewrite (js_array_length_ok _ (proj1 Hb)), (js_array_length_ok _ He).
  eexists. split_and!; [reflexivity..|]. simpl. unfold emptyStars, fullStars in *.
  destruct (hasHalfStar r); lia.
Qed.

(** A rating above [totalStars] makes the empty-star count
    negative, and [Array] throws: the component cannot render. *)
Theorem star_rating_throws_above r (T : Z) :
  (inject_Z T < r)%Q -> StarRatingView r T = None.
Proof.
  intros HT. assert (Hf : (T <= fullStars r)%Z).
  { unfold fullStars. rewrite <- (Qfloor_Z T). apply Qfloor_resp_le. by apply Qlt_le_weak. }
  assert (He : (emptyStars r T < 0)%Z).
  { unfold emptyStars. destruct (hasHalfStar r) eqn:Eh; [lia|].
    apply hasHalfStar_spec in Eh.
    assert (T < fullStars r)%Z; [|lia].
    rewrite Zlt_Qlt. unfold fullStars. by rewrite <- Eh. }
  unfold StarRatingView. rewrite (js_array_length_neg _ He).
  by destruct (js_array_length (fullStars r)).
Qed.

(** A negative rating makes the full-star count negative,
    and [Array] throws. *)
Theorem star_rating_throws_negative r (T : Z) :
  (r < 0)%Q -> StarRatingView r T = None.
Proof.
  intros Hr. assert (Hf : (fullStars r < 0)%Z).
  { rewrite Zlt_Qlt. eapply Qle_lt_trans; [apply fullStars_le|exact Hr]. }
  unfold StarRatingView. by rewrite (js_array_length_neg _ Hf).
Qed.

(** ** Witnesses at concrete inputs *)

Lemma star_counts_sum_witness :
  (0 <= 48 # 10)%Q /\ (48 # 10 <= inject_Z 5)%Q /\
  StarRatingView (48 # 10) 5 = Some (mkStars 4 true 0).
Proof.
  assert (H0 : (0 <= 48 # 10)%Q) by (vm_compute; discriminate).
  assert (H1 : (48 # 10 <= inject_Z 5)%Q) by (vm_compute; discriminate).
  split_and!; [exact H0|exact H1|].
  destruct (star_counts_sum (48 # 10) 5 H0 H1) as (v & E & _). rewrite E.
  vm_compute in E. congruence.
Defined.

Lemma star_rating_throws_above_witness :
  (inject_Z 5 < 55 # 10)%Q /\ StarRatingView (55 # 10) 5 = None.
Proof.
  assert (H : (inject_Z 5 < 55 # 10)%Q) by reflexivity.
  split; [exact H|exact (star_rating_throws_above _ 5 H)].
Defined.

Lemma star_rating_throws_negative_witness :
  (-1 # 2 < 0)%Q /\ StarRatingView (-1 # 2) 5 = None.
Proof.
  assert (H : (-1 # 2 < 0)%Q) by reflexivity.
  split; [exact H|exact (star_rating_throws_negative _ 5 H)].
Defined.
