(* ===== verification/AnimatedCounter.v ===== *)
(** * Animated counter ([src/components/animated-counter.tsx])

    [AnimatedCounter({ value })] first shows [value]; once an
    [IntersectionObserver] reports it visible, its effect resets the count
    to 0 and runs an interval that, on frame [f] of
    [totalFrames = Math.round(1500 / (1000 / 60))], shows
    [Math.round(value * (f / totalFrames))], and on the last frame clears
    the interval and shows [value].  JavaScript numbers are IEEE doubles:
    the model computes [frame++], [frame / totalFrames], [value * progress]
    and [frame === totalFrames] on Rocq's primitive binary64 floats
    ([PrimFloat]), reads a double's exact value through [Prim2SF], and
    takes [Math.round] exactly on that value.  The integer prop [value] is
    turned into a number by [Number(value)] rounded to nearest, [js_num]. *)

From S2P Require Import Prelude JsText.
From Stdlib Require Import QArith Qround Floats.

Module AnimatedCounter.

(** [Number(z)] for an integer [z]: the nearest double, ties to even. *)
Definition js_num (z : Z) : float :=
  SF2Prim (SpecFloat.binary_normalize prec emax z 0 false).

(** The exact rational value of a finite double [(-1)^s * m * 2^e]. *)
Definition sf_to_Q (f : spec_float) : option Q :=
  match f with
  | S754_zero _ => Some 0%Q
  | S754_finite s m e =>
      let n := if s then Z.neg m else Z.pos m in
      Some (match e with
            | Z0 => inject_Z n
            | Zpos p => inject_Z (n * 2 ^ Zpos p)
            | Zneg p => Qmake n (Pos.pow 2 p)
            end)
  | _ => None
  end.

(** [Math.round(x)]: the integer nearest to [x], halves up, computed on the
    exact value of the double.  A NaN or an infinity (which [Math.round]
    returns unchanged) is read as 0; the counter only rounds finite
    products. *)
Definition js_round (x : float) : Z :=
  match sf_to_Q (Prim2SF x) with Some q => Qfloor (q + (1 # 2)) | None => 0%Z end.

Definition animationDuration : float := 1500%float.
Definition frameDuration : float := (1000 / 60)%float.
Definition totalFrames : float := js_num (js_round (animationDuration / frameDuration)%float).

(** The component's state: [count], [isInView], and the animation's
    [frame] (a number) with whether its interval is live. *)
Record Counter := mkCounter { count : Z; isInView : bool; frame : float; live : bool }.

(** [useState(value)], [useState(false)]. *)
Definition initialCounter (value : Z) : Counter := mkCounter value false 0%float false.

(** The observer callback on an intersecting entry ([setIsInView(true)],
    then disconnect), followed by the effect it triggers: [setCount(0)],
    [frame = 0], a new interval. *)
Definition onIntersect (c : Counter) : Counter :=
  if isInView c then c else mkCounter 0 true 0%float true.

(** One firing of the animation interval: [frame++], the rounded count,
    and on [frame === totalFrames] the [clearInterval] and [setCount(value)]. *)
Definition tick (value : Z) (c : Counter) : Counter :=
  if live c then
    let f := (frame c + 1)%float in
    let progress := (f / totalFrames)%float in
    let currentCount := js_round (js_num value * progress)%float in
    if PrimFloat.eqb f totalFrames then mkCounter value (isInView c) f false
    else mkCounter currentCount (isInView c) f true
  else c.

Fixpoint run_frames (k : nat) (value : Z) (c : Counter) : Counter :=
  match k with O => c | S k' => run_frames k' value (tick value c) end.

(** The effect's dependency [value] changed to [value'] (the caller
    re-rendered with another number): while visible, the cleanup clears
    the running interval and the effect starts over from 0 with a fresh
    [frame]; the new [tick value'] frames then count up to [value']. *)
Definition valueChanged (c : Counter) : Counter :=
  if isInView c then mkCounter 0 true 0%float true else c.

(** The rendered text, [count.toLocaleString()]. *)
Definition counterText (c : Counter) : string := JsText.toLocaleString (count c).

(** The count shown after [k] frames, in closed form: 0 before the first
    frame, [value] on the last, and in between the rounded double
    [Number(value) * (Number(k) / 90)]. *)
Definition count_at (value : Z) (k : nat) : Z :=
  if (k =? 0)%nat then 0%Z
  else if (k =? 90)%nat then value
  else js_round (js_num value * (js_num (Z.of_nat k) / totalFrames))%float.

End AnimatedCounter.

Import AnimatedCounter.

(** The frame counter of the interval stays exact on its 90 frames:
    [frame + 1] is the next integer and [frame === totalFrames] holds on the
    90th frame only. *)
Lemma frame_step_exact j : (j < 90)%nat ->
  (js_num (Z.of_nat j) + 1)%float = js_num (Z.of_nat (S j)) /\
  PrimFloat.eqb (js_num (Z.of_nat (S j))) totalFrames = Nat.eqb (S j) 90.
Proof.
  intros Hj. do 90 (destruct j as [|j]; [split; vm_compute; reflexivity|]). lia.
Qed.

Lemma run_frames_S_r k value c : run_frames (S k) value c = tick value (run_frames k value c).
Proof. revert c. induction k as [|k IH]; intros c; [done|]. apply IH. Qed.

Lemma run_frames_add a b value c :
  run_frames (a + b) value c = run_frames b value (run_frames a value c).
Proof. revert c. induction a as [|a IH]; intros c; [done|]. apply IH. Qed.

Lemma tick_stopped value c : live c = false -> tick value c = c.
Proof. unfold tick. by intros ->. Qed.

Lemma run_frames_stopped k value c : live c = false -> run_frames k value c = c.
Proof.
  revert c. induction k as [|k IH]; intros c Hc; [done|]. simpl. rewrite tick_stopped by done.
  by apply IH.
Qed.

(** The frames of a started animation, up to the 90th. *)
Lemma run_frames_upto value j : (j <= 90)%nat ->
  run_frames j value (mkCounter 0 true 0%float true) =
    mkCounter (count_at value j) true (js_num (Z.of_nat j)) (j <? 90)%nat.
Proof.
  induction j as [|j IH]; intros Hj; [vm_compute; reflexivity|].
  rewrite run_frames_S_r, IH by lia. unfold tick. cbn [live frame isInView].
  destruct (Nat.ltb_spec j 90) as [_|]; [|lia].
  destruct (frame_step_exact j ltac:(lia)) as [-> ->].
  unfold count_at. destruct (Nat.eqb_spec (S j) 90) as [E|E].
  - injection E as ->. reflexivity.
  - by replace (S j <? 90)%nat with true by (symmetry; apply Nat.ltb_lt; lia).
Qed.

Lemma run_frames_closed_form value k :
  let c0 := onIntersect (initialCounter value) in
  ((k <= 90)%nat ->
     run_frames k value c0 = mkCounter (count_at value k) true (js_num (Z.of_nat k)) (k <? 90)%nat) /\
  ((90 <= k)%nat -> count (run_frames k value c0) = value /\ live (run_frames k value c0) = false).
Proof.
  split; [apply run_frames_upto|]. intros Hk. replace k with (90 + (k - 90))%nat by lia.
  cbn [onIntersect initialCounter isInView].
  by rewrite run_frames_add, run_frames_upto, run_frames_stopped.
Qed.

(** C13 [counter_closed_form]: the interval-driven animation agrees with
    its closed form in the doubles the code computes with: once visible,
    after [k <= 90] firings of the interval the counter's state is exactly
    [count_at value k] (0 at first, [Math.round(value * (k / 90))] in
    between, [value] at frame 90) with the frame number [k], its interval
    live until frame 90; after 90 or more firings it shows [value] and the
    interval is cleared for good. *)
Theorem counter_animation value k :
  let c0 := onIntersect (initialCounter value) in
  ((k <= 90)%nat ->
     run_frames k value c0 = mkCounter (count_at value k) true (js_num (Z.of_nat k)) (k <? 90)%nat) /\
  ((90 <= k)%nat -> count (run_frames k value c0) = value /\ live (run_frames k value c0) = false).
Proof. apply run_frames_closed_form. Qed.

(** A new [value] while visible throws the shown count back to 0, and
    the restarted animation reaches the new value after 90 frames. *)
Lemma value_change_restarts c value' k :
  isInView c = true -> (90 <= k)%nat ->
  count (valueChanged c) = 0%Z /\ count (run_frames k value' (valueChanged c)) = value'.
Proof.
  intros Hv Hk. unfold valueChanged. rewrite Hv. split; [done|].
  exact (proj1 (proj2 (run_frames_closed_form value' k) Hk)).
Qed.

(** ** Witnesses at concrete inputs *)

(** At value 45 the 13th frame shows 6: the double [45 * (13 / 90)] is
    [6.499999999999999], which [Math.round] takes down, where the exact
    [6.5] would give 7. *)
Lemma counter_animation_witness :
  (13 <= 90)%nat /\ count (run_frames 13 45 (onIntersect (initialCounter 45))) = 6%Z /\
  (90 <= 95)%nat /\ count (run_frames 95 170 (onIntersect (initialCounter 170))) = 170%Z.
Proof.
  assert (H1 : (13 <= 90)%nat) by lia. assert (H2 : (90 <= 95)%nat) by lia.
  refine (conj H1 (conj _ (conj H2 (proj1 (proj2 (counter_animation 170 95) H2))))).
  rewrite (proj1 (counter_animation 45 13) H1). vm_compute. reflexivity.
Defined.
