(* ===== verification/TypingAnimation.v ===== *)
(** * Typing animation ([src/components/typing-animation.tsx])

    [TypingAnimation({ words })] types the current word one character per
    100 ms, waits 1200 ms once it is complete, deletes it one character per
    50 ms, and moves to the next word.  Its state is [wordIndex], [text] and
    [isDeleting]; an effect keyed on them schedules [handleTyping], and
    [handleTyping] may schedule the delayed [setIsDeleting(true)].  The
    model keeps which of the two timers are pending: the effect re-arms the
    typing timer whenever the state changed, and a [handleTyping] run that
    changes nothing leaves no typing timer behind. *)

From S2P Require Import Prelude.
Open Scope string_scope.

Module TypingAnimation.

Record TState := mkT {
  wordIndex : nat;
  text : string;
  isDeleting : bool;
  typingArmed : bool;   (** a [setTimeout(handleTyping, ...)] is pending *)
  flipPending : bool    (** a [setTimeout(() => setIsDeleting(true), delay)] is pending *)
}.

(** [useState(0)], [useState('')], [useState(false)], then the effect. *)
Definition initialT : TState := mkT 0 "" false true false.

(** [str.substring(0, k)] for an integer [k]: negative ends count as 0,
    ends past the length stop at the end. *)
Definition js_substring0 (s : string) (k : Z) : string :=
  String.substring 0 (Z.to_nat k) s.

Definition changed (a b : TState) : bool :=
  negb (bool_decide (wordIndex a = wordIndex b /\ text a = text b /\ isDeleting a = isDeleting b)).

(** [handleTyping]: [None] when [words[wordIndex]] is [undefined] (then
    [currentWord.substring] throws a [TypeError]). *)
Definition handleTyping (words : list string) (st : TState) : option TState :=
  match words !! wordIndex st with
  | None => None
  | Some currentWord =>
      let len := Z.of_nat (String.length (text st)) in
      let text' := if isDeleting st then js_substring0 currentWord (len - 1)
                   else js_substring0 currentWord (len + 1) in
      let '(del', idx', flip') :=
        if negb (isDeleting st) && bool_decide (text st = currentWord) then
          (isDeleting st, wordIndex st, true)
        else if isDeleting st && bool_decide (text st = "") then
          (false, Nat.modulo (S (wordIndex st)) (length words), flipPending st)
        else (isDeleting st, wordIndex st, flipPending st) in
      let st' := mkT idx' text' del' false flip' in
      Some (mkT idx' text' del' (changed st st') flip')
  end.

(** The delayed [setIsDeleting(true)]. *)
Definition delayFires (st : TState) : TState :=
  let st' := mkT (wordIndex st) (text st) true (typingArmed st) false in
  mkT (wordIndex st') (text st') true (typingArmed st || changed st st') false.

(** The words the landing page passes ([app/page.tsx]). *)
Definition heroWords : list string := ["Growth"; "Earnings"; "Respect"; "Sustenance"].

Inductive TEvent := TypingTimer | DelayTimer.

Definition t_step (words : list string) (e : TEvent) (st : TState) : option TState :=
  match e with
  | TypingTimer => if typingArmed st then handleTyping words st else None
  | DelayTimer => if flipPending st then Some (delayFires st) else None
  end.

Fixpoint t_run (words : list string) (es : list TEvent) (st : TState) : option TState :=
  match es with
  | [] => Some st
  | e :: es' => match t_step words e st with Some st' => t_run words es' st' | None => None end
  end.

(** The first [k] characters of [w]. *)
Definition pfx (w : string) (k : nat) : string := String.substring 0 k w.

(** Where the animation stands: the index names a word, the text is a
    prefix of it, a pending flip only exists while the complete word is
    shown with no typing timer, and some timer is always pending. *)
Definition TInv (words : list string) (st : TState) : Prop :=
  exists w, words !! wordIndex st = Some w /\
    (exists k, k <= String.length w /\ text st = pfx w k) /\
    (flipPending st = true -> text st = w /\ isDeleting st = false /\ typingArmed st = false) /\
    typingArmed st || flipPending st = true.

(** * Prefixes of a string *)

Lemma pfx_length w k : k <= String.length w -> String.length (pfx w k) = k.
Proof.
  unfold pfx; revert k; induction w as [|c w IH]; intros [|k] Hk; cbn in *; try lia.
  rewrite IH; lia.
Qed.

Lemma pfx_full w k : String.length w <= k -> pfx w k = w.
Proof.
  unfold pfx; revert k; induction w as [|c w IH]; intros [|k] Hk; cbn in *; try lia; try done.
  rewrite IH; [done | lia].
Qed.

Lemma pfx_zero w : pfx w 0 = "".
Proof. by destruct w. Qed.

Lemma pfx_eq_full w k : k <= String.length w -> pfx w k = w -> k = String.length w.
Proof. intros Hk E. rewrite <- (pfx_length w k Hk), E. done. Qed.

Lemma pfx_eq_empty w k : k <= String.length w -> pfx w k = "" -> k = 0.
Proof. intros Hk E. rewrite <- (pfx_length w k Hk), E. done. Qed.

Lemma js_substring0_pfx w z : js_substring0 w z = pfx w (Z.to_nat z).
Proof. done. Qed.

Lemma changed_text a b : text a <> text b -> changed a b = true.
Proof. intros H. unfold changed. rewrite bool_decide_false; [done | intros (?&?&?); congruence]. Qed.

Lemma changed_deleting a b : isDeleting a <> isDeleting b -> changed a b = true.
Proof. intros H. unfold changed. rewrite bool_decide_false; [done | intros (?&?&?); congruence]. Qed.

Lemma changed_same a b :
  wordIndex a = wordIndex b -> text a = text b -> isDeleting a = isDeleting b -> changed a b = false.
Proof. intros. unfold changed. rewrite bool_decide_true; done. Qed.

(** * The four branches of [handleTyping] on a prefix *)

Section Branches.
Context (words : list string) (i : nat) (w : string) (Hw : words !! i = Some w).

Lemma tick_type k a : k < String.length w ->
  handleTyping words (mkT i (pfx w k) false a false) = Some (mkT i (pfx w (S k)) false true false).
Proof.
  intros Hk. unfold handleTyping; cbn [wordIndex text isDeleting flipPending]. rewrite Hw.
  rewrite pfx_length by lia. rewrite bool_decide_false.
  2:{ intros E. apply pfx_eq_full in E; lia. }
  rewrite js_substring0_pfx, Z2Nat.inj_add, Nat2Z.id by lia. cbn - [pfx].
  rewrite Nat.add_1_r, changed_text; [done|]. cbn.
  intros E. apply (f_equal String.length) in E. rewrite !pfx_length in E; lia.
Qed.

Lemma tick_pause a :
  handleTyping words (mkT i w false a false) = Some (mkT i w false false true).
Proof.
  unfold handleTyping; cbn [wordIndex text isDeleting flipPending]. rewrite Hw.
  rewrite bool_decide_true by done. cbn - [js_substring0].
  rewrite js_substring0_pfx, pfx_full by lia. rewrite changed_same; done.
Qed.

Lemma tick_delete k a : 0 < k <= String.length w ->
  handleTyping words (mkT i (pfx w k) true a false) = Some (mkT i (pfx w (k - 1)) true true false).
Proof.
  intros Hk. unfold handleTyping; cbn [wordIndex text isDeleting flipPending]. rewrite Hw.
  rewrite pfx_length by lia. rewrite (bool_decide_false (pfx w k = "")).
  2:{ intros E. apply pfx_eq_empty in E; lia. }
  rewrite js_substring0_pfx, Z2Nat.inj_sub, Nat2Z.id by lia. cbn - [pfx].
  rewrite changed_text; [done|]. cbn.
  intros E. apply (f_equal String.length) in E. rewrite !pfx_length in E; lia.
Qed.

Lemma tick_next a :
  handleTyping words (mkT i "" true a false) =
  Some (mkT (S i mod length words) "" false true false).
Proof.
  unfold handleTyping; cbn [wordIndex text isDeleting flipPending]. rewrite Hw.
  cbn - [changed js_substring0]. rewrite js_substring0_pfx. cbn - [changed pfx].
  rewrite pfx_zero, (bool_decide_true ("" = "")) by done. cbn - [changed]. rewrite changed_deleting; done.
Qed.

(** Typing [m] characters from a prefix of length [k]. *)
Lemma type_run m k : k + m <= String.length w ->
  t_run words (repeat TypingTimer m) (mkT i (pfx w k) false true false) =
  Some (mkT i (pfx w (k + m)) false true false).
Proof.
  revert k; induction m as [|m IH]; intros k Hk; cbn [repeat t_run].
  - by rewrite Nat.add_0_r.
  - cbn [t_step typingArmed]. rewrite tick_type by lia.
    rewrite IH by lia. by rewrite Nat.add_succ_r.
Qed.

(** Deleting [m] characters from a prefix of length [k]. *)
Lemma delete_run m k : m <= k <= String.length w ->
  t_run words (repeat TypingTimer m) (mkT i (pfx w k) true true false) =
  Some (mkT i (pfx w (k - m)) true true false).
Proof.
  revert k; induction m as [|m IH]; intros k Hk; cbn [repeat t_run].
  - by rewrite Nat.sub_0_r.
  - cbn [t_step typingArmed]. rewrite tick_delete by lia.
    rewrite IH by lia. do 2 f_equal. f_equal. lia.
Qed.

End Branches.

Lemma t_run_app words es1 es2 st :
  t_run words (es1 ++ es2)%list st = t_run words es1 st ≫= t_run words es2.
Proof.
  revert st; induction es1 as [|e es1 IH]; intros st; cbn; [done|].
  destruct (t_step words e st); [apply IH | done].
Qed.

Lemma repeat_S_r {A} (x : A) n : repeat x (S n) = (repeat x n ++ [x])%list.
Proof. induction n as [|n IH]; cbn in *; [done | by rewrite IH]. Qed.

Lemma handleTyping_Some words st w :
  words !! wordIndex st = Some w -> is_Some (handleTyping words st).
Proof.
  intros Hw. unfold handleTyping. rewrite Hw.
  repeat case_match; eauto.
Qed.

Lemma mod_lookup (words : list string) i w :
  words !! i = Some w -> exists w', words !! (S i mod length words) = Some w'.
Proof.
  intros Hw. apply lookup_lt_Some in Hw.
  apply lookup_lt_is_Some_2, Nat.mod_upper_bound. lia.
Qed.

Lemma TInv_initial words : words <> [] -> TInv words initialT.
Proof.
  intros Hne. destruct words as [|w ws]; [done|].
  exists w. split_and!; [done | exists 0; split; [lia | by rewrite pfx_zero] | done | done].
Qed.

Lemma TInv_step words e st st' :
  TInv words st -> t_step words e st = Some st' -> TInv words st'.
Proof.
  destruct st as [i t d a f].
  intros HI Hs; destruct HI as (w & Hw & (k & Hk & Ht) & Hf & Hlive); cbn in Hw, Hf, Hlive, Ht; subst t.
  destruct e; cbn [t_step typingArmed flipPending] in Hs.
  - destruct a; [|done].
    destruct f; [by destruct (Hf eq_refl) as (_ & _ & ?)|].
    destruct d.
    + destruct (decide (k = 0)) as [->|Hk0].
      * rewrite pfx_zero, (tick_next words i w Hw) in Hs. injection Hs as <-.
        destruct (mod_lookup words i w Hw) as [w' Hw'].
        exists w'. split_and!; [done | exists 0; split; [lia | by rewrite pfx_zero] | done | done].
      * rewrite (tick_delete words i w Hw) in Hs by lia. injection Hs as <-.
        exists w. split_and!; [done | exists (k - 1); split; [lia | done] | done | done].
    + destruct (decide (k < String.length w)) as [Hlt|Hge].
      * rewrite (tick_type words i w Hw) in Hs by done. injection Hs as <-.
        exists w. split_and!; [done | exists (S k); split; [lia | done] | done | done].
      * rewrite pfx_full, (tick_pause words i w Hw) in Hs by lia. injection Hs as <-.
        exists w. split_and!; [done | exists (String.length w); split; [lia | by rewrite pfx_full] | done | done].
  - destruct f; [|done]. injection Hs as <-.
    destruct (Hf eq_refl) as (-> & -> & ->).
    exists w. split_and!; [done | exists (String.length w); split; [lia | by rewrite pfx_full] | done |].
    unfold delayFires; cbn - [changed]. by rewrite changed_deleting.
Qed.

Lemma TInv_run words es st st' :
  TInv words st -> t_run words es st = Some st' -> TInv words st'.
Proof.
  revert st; induction es as [|e es IH]; intros st HI Hr; cbn in Hr.
  - by injection Hr as <-.
  - destruct (t_step words e st) as [s1|] eqn:E; [|done].
    eapply IH; [eapply TInv_step|]; eauto.
Qed.

Lemma delayFires_pause i w :
  delayFires (mkT i w false false true) = mkT i w true true false.
Proof. unfold delayFires; cbn - [changed]. by rewrite changed_deleting. Qed.

(** C33 [typing_invariant]: in every state the animation reaches from its
    initial state on a non-empty word list, [wordIndex] names a word, the
    displayed text is a prefix of that word, a pending
    [setIsDeleting(true)] exists only while the whole word is shown and no
    typing timer is pending, and at least one timer is pending. *)
Theorem typing_invariant words es st :
  words <> [] -> t_run words es initialT = Some st -> TInv words st.
Proof. intros Hne Hr. eapply TInv_run; [apply TInv_initial|]; eauto. Qed.

(** the animation never stops on a non-empty word
    list: in every reachable state one of its timers can fire without
    [handleTyping] throwing. *)
Theorem typing_never_halts words es st :
  words <> [] -> t_run words es initialT = Some st ->
  exists e st', t_step words e st = Some st'.
Proof.
  intros Hne Hr. destruct (TInv_run words es _ _ (TInv_initial words Hne) Hr)
    as (w & Hw & _ & Hf & Hlive).
  destruct (typingArmed st) eqn:Ha.
  - destruct (handleTyping_Some words st w Hw) as [st' E].
    exists TypingTimer, st'. cbn. by rewrite Ha.
  - exists DelayTimer, (delayFires st). cbn in Hlive |- *. by rewrite Hlive.
Qed.

(** C14 [typing_word_cycle]: starting on word [w] with empty text, [|w|+1]
    typing ticks (the last one schedules the pause), the 1200 ms pause and
    [|w|+1] deleting ticks (the last one moves on) bring the animation to
    the next word, [(wordIndex + 1) % words.length], with empty text and
    a typing timer armed. *)
Theorem typing_word_cycle words i w :
  words !! i = Some w ->
  t_run words (repeat TypingTimer (S (String.length w)) ++
               DelayTimer :: repeat TypingTimer (S (String.length w)))%list
        (mkT i "" false true false) =
  Some (mkT (S i mod length words) "" false true false).
Proof.
  intros Hw. set (L := String.length w).
  assert (Et : t_run words (repeat TypingTimer (S L)) (mkT i "" false true false) =
               Some (mkT i w false false true)).
  { rewrite repeat_S_r, t_run_app, <- (pfx_zero w), (type_run words i w Hw) by lia.
    cbn [mbind option_bind t_run t_step typingArmed Nat.add].
    by rewrite (pfx_full w L), (tick_pause words i w Hw) by lia. }
  assert (Ed : t_run words (repeat TypingTimer (S L)) (mkT i w true true false) =
               Some (mkT (S i mod length words) "" false true false)).
  { rewrite repeat_S_r, t_run_app, <- (pfx_full w L) at 1 by lia.
    rewrite (delete_run words i w Hw) by lia.
    cbn [mbind option_bind t_run t_step typingArmed].
    by rewrite Nat.sub_diag, pfx_zero, (tick_next words i w Hw). }
  rewrite t_run_app, Et. cbn [mbind option_bind t_run t_step flipPending].
  by rewrite delayFires_pause.
Qed.

(** [handleTyping] throws (reading
    [substring] of [undefined]) exactly when [wordIndex] is not an index
    of [words]; on an empty list the first tick throws. *)
Theorem typing_throws_out_of_range words st :
  handleTyping words st = None <-> length words <= wordIndex st.
Proof.
  split.
  - intros E. destruct (words !! wordIndex st) as [w|] eqn:Hw.
    + destruct (handleTyping_Some words st w Hw). congruence.
    + by apply lookup_ge_None_1.
  - intros Hge. unfold handleTyping. by rewrite lookup_ge_None_2.
Qed.

Lemma typing_invariant_witness :
  TInv heroWords (mkT 0 "Gr" false true false).
Proof.
  apply (typing_invariant heroWords [TypingTimer; TypingTimer]); [done | vm_compute; reflexivity].
Defined.

Lemma typing_never_halts_witness :
  exists e st', t_step heroWords e (mkT 0 "Growth" false false true) = Some st'.
Proof.
  apply (typing_never_halts heroWords (repeat TypingTimer 7)); [done | vm_compute; reflexivity].
Defined.

Lemma typing_word_cycle_witness :
  t_run heroWords (repeat TypingTimer 11 ++ DelayTimer :: repeat TypingTimer 11)%list
        (mkT 3 "" false true false) = Some (mkT 0 "" false true false).
Proof. exact (typing_word_cycle heroWords 3 "Sustenance" eq_refl). Defined.

End TypingAnimation.
