(* ===== verification/UploadRoute.v ===== *)
(** * Upload API route ([src/app/api/upload/route.ts])

    [POST(request)] reads the form fields [file] and [bucket], rejects a
    missing file (400), a bucket other than [donations] or [avatars] (400)
    and an anonymous caller (401), then uploads the file to
    [<user.id>/<uuid>-<file.name>] in the chosen bucket and answers with the
    stored path, or 500 with the storage error.  A rejected
    [request.formData()] is caught and answered with 500.

    The storage backend is not part of the repository: the route is
    modelled in a Section over an arbitrary [upload] function on an
    arbitrary storage state, so the theorems hold whatever the backend does
    with the write. *)

From S2P Require Import Prelude.
Open Scope string_scope.

Module UploadRoute.

(** A [File] object of the form data; only its [name] is read. *)
Record FileObj := mkFile { file_name : string }.

(** [FormDataEntryValue]: a [File] or a string. *)
Inductive FormValue := FVFile (f : FileObj) | FVString (s : string).

Definition FormData := list (string * FormValue).

(** [formData.get(k)]: the first value stored under [k], or [null]. *)
Definition form_get (fd : FormData) (k : string) : option FormValue :=
  snd <$> js_find (fun p => bool_decide (p.1 = k)) fd.

(** [!v] for a form value: [null] and the empty string are falsy. *)
Definition fv_truthy (v : option FormValue) : bool :=
  match v with
  | None => false
  | Some (FVString s) => negb (bool_decide (s = ""))
  | Some (FVFile _) => true
  end.

(** [file.name]: a string value has no [name], read as [undefined] and
    printed as ["undefined"] by the template literal. *)
Definition fv_name (v : FormValue) : string :=
  match v with FVFile f => file_name f | FVString _ => "undefined" end.

(** The bucket check of line 15; [Some b] when [bucket] is accepted. *)
Definition check_bucket (v : option FormValue) : option string :=
  match v with
  | Some (FVString b) =>
      if bool_decide (b = "donations") || bool_decide (b = "avatars") then Some b else None
  | _ => None
  end.

Record User := mkUser { user_id : string }.

Inductive UploadResult := UploadData (path : string) | UploadError (message : string).

Inductive RespBody := ErrBody (error : string) | PathBody (path : string).

Record Response := mkResp { status : Z; body : RespBody }.

Definition filePath (u : User) (uuid : string) (v : FormValue) : string :=
  user_id u +:+ "/" +:+ uuid +:+ "-" +:+ fv_name v.

Section Post.
Context {Storage : Type}.
(** [supabase.storage.from(bucket).upload(path, file)] on the storage state. *)
Context (upload : Storage -> string -> string -> FormValue -> Storage * UploadResult).

(** [POST]: [req] is the outcome of [await request.formData()] ([inl] the
    message of the rejection), [user] the result of [auth.getUser()],
    [uuid] the value of [uuidv4()]. *)
Definition POST (req : string + FormData) (user : option User) (uuid : string)
    (s : Storage) : Storage * Response :=
  match req with
  | inl msg =>
      (s, mkResp 500 (ErrBody (if bool_decide (msg = "") then "An unknown error occurred." else msg)))
  | inr fd =>
      match form_get fd "file" with
      | None => (s, mkResp 400 (ErrBody "No file provided."))
      | Some file =>
          if negb (fv_truthy (Some file)) then (s, mkResp 400 (ErrBody "No file provided."))
          else match check_bucket (form_get fd "bucket") with
          | None => (s, mkResp 400 (ErrBody "Invalid bucket specified."))
          | Some bucket =>
              match user with
              | None => (s, mkResp 401 (ErrBody "Unauthorized."))
              | Some u =>
                  let '(s', r) := upload s bucket (filePath u uuid file) file in
                  match r with
                  | UploadError m => (s', mkResp 500 (ErrBody m))
                  | UploadData p => (s', mkResp 200 (PathBody p))
                  end
              end
          end
      end
  end.

End Post.

(** An in-memory storage used by the witnesses: the list of stored
    [(bucket, path)] objects, every upload succeeding. *)
Definition memUpload (s : list (string * string)) (b p : string) (_ : FormValue)
    : list (string * string) * UploadResult :=
  ((b, p) :: s, UploadData p).

Definition avatarForm : FormData :=
  [("file", FVFile (mkFile "me.png")); ("bucket", FVString "avatars")].

Section PostProps.
Context {Storage : Type}.
Context (upload : Storage -> string -> string -> FormValue -> Storage * UploadResult).

(** The route writes storage only through [upload]: every invariant of
    the storage that [upload] preserves, [POST] preserves. *)
Lemma POST_preserves (I : Storage -> Prop) req user uuid s :
  (forall s b p f, I s -> I (fst (upload s b p f))) -> I s -> I (fst (POST upload req user uuid s)).
Proof.
  intros Hup Hs. unfold POST.
  destruct req as [msg|fd]; [done|]. destruct (form_get fd "file") as [file|]; [|done].
  destruct (fv_truthy _); [|done]. destruct (check_bucket _) as [b|]; [|done].
  destruct user as [u|]; [|done].
  specialize (Hup s b (filePath u uuid file) file Hs).
  destruct (upload s b _ file) as [s' [p|m]]; done.
Qed.

Lemma POST_rejects req user uuid s :
  (forall fd u file b, req = inr fd -> user = Some u -> form_get fd "file" = Some file ->
     fv_truthy (Some file) = true -> check_bucket (form_get fd "bucket") = Some b -> False) ->
  fst (POST upload req user uuid s) = s /\
  status (snd (POST upload req user uuid s)) ∈ [400; 401; 500]%Z.
Proof.
  intros Hno. unfold POST.
  destruct req as [msg|fd]; [split; [done | set_solver]|].
  destruct (form_get fd "file") as [file|] eqn:Hf; [|split; [done | set_solver]].
  destruct (fv_truthy (Some file)) eqn:Ht; [|split; [done | set_solver]].
  destruct (check_bucket _) as [b|] eqn:Hb; [|split; [done | set_solver]].
  destruct user as [u|]; [|split; [done | set_solver]].
  exfalso; eapply Hno; eauto.
Qed.

Lemma POST_accepts fd u file b uuid s :
  form_get fd "file" = Some file -> fv_truthy (Some file) = true ->
  check_bucket (form_get fd "bucket") = Some b ->
  POST upload (inr fd) (Some u) uuid s =
  let '(s', r) := upload s b (filePath u uuid file) file in
  match r with
  | UploadError m => (s', mkResp 500 (ErrBody m))
  | UploadData p => (s', mkResp 200 (PathBody p))
  end.
Proof. intros Hf Ht Hb. unfold POST. by rewrite Hf, Ht, Hb. Qed.

Lemma check_bucket_allowed v b :
  check_bucket v = Some b -> b ∈ ["donations"; "avatars"].
Proof.
  destruct v as [[f|b']|]; cbn; try done.
  case_bool_decide; subst; [intros [= <-]; set_solver|].
  case_bool_decide; subst; [intros [= <-]; set_solver | done].
Qed.

(** C34 [upload_only_in_caller_folder]: the only storage write [POST]
    performs is one upload into the [donations] or [avatars] bucket, at a
    path inside the signed-in caller's folder,
    [<user.id>/<uuid>-<file.name>]; every other request leaves the storage
    untouched and is answered with 400, 401 or 500. *)
Theorem upload_only_in_caller_folder req user uuid s :
  (fst (POST upload req user uuid s) = s /\
   status (snd (POST upload req user uuid s)) ∈ [400; 401; 500]%Z) \/
  (exists u file b r, user = Some u /\ b ∈ ["donations"; "avatars"] /\
     upload s b (user_id u +:+ "/" +:+ uuid +:+ "-" +:+ fv_name file) file =
       (fst (POST upload req user uuid s), r)).
Proof.
  destruct req as [msg|fd]; [left; by apply POST_rejects|].
  destruct (form_get fd "file") as [file|] eqn:Hf;
    [|left; apply POST_rejects; intros ???? [= <-]; intros; congruence].
  destruct (fv_truthy (Some file)) eqn:Ht;
    [|left; apply POST_rejects; intros ???? [= <-]; intros; congruence].
  destruct (check_bucket (form_get fd "bucket")) as [b|] eqn:Hb;
    [|left; apply POST_rejects; intros ???? [= <-]; intros; congruence].
  destruct user as [u|]; [|left; apply POST_rejects; intros ???? [= <-]; intros; congruence].
  right. exists u, file, b. rewrite (POST_accepts fd u file b) by done.
  destruct (upload s b _ file) as [s' r] eqn:Hu.
  exists r. split_and!; [done | by eapply check_bucket_allowed |].
  by destruct r.
Qed.

(** without a signed-in user [POST] writes
    nothing, and a well-formed request is answered 401 [Unauthorized.]. *)
Theorem upload_requires_sign_in fd file b uuid s :
  form_get fd "file" = Some file -> fv_truthy (Some file) = true ->
  check_bucket (form_get fd "bucket") = Some b ->
  POST upload (inr fd) None uuid s = (s, mkResp 401 (ErrBody "Unauthorized.")).
Proof. intros Hf Ht Hb. unfold POST. by rewrite Hf, Ht, Hb. Qed.

(** [POST] answers 200 with body [{ path }]
    exactly when the form is accepted, the caller is signed in and the
    storage upload returns [data] with that [path]. *)
Theorem upload_answers_path req user uuid s p :
  snd (POST upload req user uuid s) = mkResp 200 (PathBody p) <->
  exists fd u file b s', req = inr fd /\ user = Some u /\
    form_get fd "file" = Some file /\ fv_truthy (Some file) = true /\
    check_bucket (form_get fd "bucket") = Some b /\
    upload s b (filePath u uuid file) file = (s', UploadData p).
Proof.
  split.
  - unfold POST. destruct req as [msg|fd]; [done|].
    destruct (form_get fd "file") as [file|] eqn:Hf; [|done].
    destruct (fv_truthy (Some file)) eqn:Ht; [|done].
    destruct (check_bucket _) as [b|] eqn:Hb; [|done].
    destruct user as [u|]; [|done].
    destruct (upload s b _ file) as [s' [q|m]] eqn:Hu; cbn; [|done].
    intros [= ->]. exists fd, u, file, b, s'. by split_and!.
  - intros (fd & u & file & b & s' & -> & -> & Hf & Ht & Hb & Hu).
    by rewrite (POST_accepts fd u file b), Hu.
Qed.

(** A form whose [file] field is a
    non-empty string rather than a [File] passes the [!file] check and is
    uploaded under the name [<uuid>-undefined]. *)
Theorem upload_accepts_string_file fd t b u uuid s :
  form_get fd "file" = Some (FVString t) -> t <> "" ->
  check_bucket (form_get fd "bucket") = Some b ->
  fst (POST upload (inr fd) (Some u) uuid s) =
  fst (upload s b (user_id u +:+ "/" +:+ uuid +:+ "-undefined") (FVString t)).
Proof.
  intros Hf Ht Hb. rewrite (POST_accepts fd u (FVString t) b); try done.
  - unfold filePath. cbn [fv_name]. by destruct (upload _ _ _ _) as [? []].
  - cbn. by rewrite bool_decide_false.
Qed.

End PostProps.

Lemma upload_requires_sign_in_witness :
  POST memUpload (inr avatarForm) None "u-1" [] =
  ([], mkResp 401 (ErrBody "Unauthorized.")).
Proof.
  apply (upload_requires_sign_in memUpload avatarForm (FVFile (mkFile "me.png")) "avatars");
    vm_compute; reflexivity.
Defined.

Lemma upload_answers_path_witness :
  snd (POST memUpload (inr avatarForm) (Some (mkUser "42")) "u-1" []) =
  mkResp 200 (PathBody "42/u-1-me.png").
Proof.
  apply (upload_answers_path memUpload).
  exists avatarForm, (mkUser "42"), (FVFile (mkFile "me.png")), "avatars",
    [("avatars", "42/u-1-me.png")].
  split_and!; vm_compute; reflexivity.
Defined.

Lemma upload_accepts_string_file_witness :
  fst (POST memUpload (inr [("file", FVString "x"); ("bucket", FVString "donations")])
         (Some (mkUser "42")) "u-1" []) = [("donations", "42/u-1-undefined")].
Proof.
  apply (upload_accepts_string_file memUpload _ "x" "donations"); vm_compute; try reflexivity.
  discriminate.
Defined.

End UploadRoute.
