(* ===== verification/Backend.v ===== *)
(** * The hosted backend as seen by the client components

    The donation, order and profile pages talk to a hosted database and
    object storage through [supabase-js].  That service is not part of the
    repository; this file gives it a small model so that the client
    handlers can be written as the code writes them: a sequence of awaited
    calls, each of which may fail.

    - the rows of the [donations], [orders] and [profiles] tables the
      client reads and writes, and the stored objects as
      [(bucket, path)] pairs;
    - a [World] holding the database, the list of call outcomes still to
      come ([None] a success, [Some msg] a failure with [error.message]),
      and the log of what the user sees (toasts, navigations);
    - a state monad [St] over [World], used through stdpp's [MBind]
      notations, and [call], which
      performs one backend operation or fails according to the next
      outcome of the list.  A failed call changes nothing in the
      database.  Once the list is exhausted every call succeeds.

    The outcome list makes every interleaving of failures explicit: a
    theorem quantifies over it, or names the one that breaks a handler. *)

From S2P Require Import Prelude.
From stdpp Require Import pretty.
From Stdlib Require Import QArith.
Local Close Scope Q_scope.
Open Scope string_scope.

Module Backend.

(** A row of [donations], with the columns the client reads
    ([type Donation] of the donation pages). *)
Record DonationRow := mkDonation {
  d_id : string;
  lister_id : string;
  title : string;
  description : option string;
  serves : Q;
  location : string;
  pickup_time : string;
  image_url : option string;
  image_hint : string;
  d_status : string
}.

(** A row of [orders] as the reservation inserts it. *)
Record OrderRow := mkOrder {
  o_donation_id : string;
  receiver_id : string;
  o_status : string;
  pickup_method : string;
  delivery_fee : Z
}.

(** A row of [profiles]. *)
Record ProfileRow := mkProfile {
  p_id : string;
  p_name : option string;
  p_email : option string;
  p_avatar_url : option string;
  power_coins : Z;
  role : string;
  phone : option string;
  address : option string
}.

#[export] Instance ProfileRow_eq_dec : EqDecision ProfileRow.
Proof. solve_decision. Defined.

Record DB := mkDB {
  donations : list DonationRow;
  orders : list OrderRow;
  profiles : list ProfileRow;
  objects : list (string * string);
  next_id : Z   (** the next value of the [donations.id] sequence *)
}.

(** The signed-in user of [auth.getUser()] / [auth.getSession()]. *)
Record AuthUser := mkAuthUser { uid : string; user_email : option string }.

(** What the user sees: [toast({ title, description, variant })],
    [router.push(path)], [router.refresh()], and the browser leaving for
    an OAuth provider that will send it back to [redirectTo]. *)
Inductive UiEffect :=
  | Toast (t : string) (desc : string) (destructive : bool)
  | Push (path : string)
  | Refresh
  | OAuthRedirect (provider redirectTo : string).

Record World := mkWorld {
  db : DB;
  faults : list (option string);
  ui : list UiEffect
}.

Definition St (A : Type) : Type := World -> A * World.

Definition ret {A} (a : A) : St A := fun w => (a, w).

Definition bind {A B} (m : St A) (k : A -> St B) : St B :=
  fun w => let '(a, w') := m w in k a w'.

(** [St] is a monad for stdpp's [x ← m; k] and [m ;; k] notations. *)
#[export] Instance St_ret : MRet St := fun A a => ret a.
#[export] Instance St_bind : MBind St := fun A B k m => bind m k.

(** One awaited backend call: the next outcome decides whether [op] is
    applied ([{ error: null }]) or the call reports [Some error.message]. *)
Definition call (op : DB -> DB) : St (option string) :=
  fun w =>
    match faults w with
    | Some msg :: fs => (Some msg, mkWorld (db w) fs (ui w))
    | None :: fs => (None, mkWorld (op (db w)) fs (ui w))
    | [] => (None, mkWorld (op (db w)) [] (ui w))
    end.

(** An awaited call that returns data ([.select().single()] and the
    like): the operation itself may also refuse ([inl]). *)
Definition callv {A} (op : DB -> string + (A * DB)) : St (string + A) :=
  fun w =>
    match faults w with
    | Some msg :: fs => (inl msg, mkWorld (db w) fs (ui w))
    | o :: fs => match op (db w) with
                 | inl e => (inl e, mkWorld (db w) fs (ui w))
                 | inr (a, d') => (inr a, mkWorld d' fs (ui w))
                 end
    | [] => match op (db w) with
            | inl e => (inl e, w)
            | inr (a, d') => (inr a, mkWorld d' [] (ui w))
            end
    end.

Definition emit (e : UiEffect) : St unit :=
  fun w => (tt, mkWorld (db w) (faults w) (ui w ++ [e])%list).

Definition toast (t desc : string) (destructive : bool) : St unit := emit (Toast t desc destructive).

(** ** Table operations *)

Definition insert_order (o : OrderRow) (d : DB) : DB :=
  mkDB (donations d) (orders d ++ [o])%list (profiles d) (objects d) (next_id d).

(** [.from('donations').update({ status: s }).eq('id', id)] *)
Definition set_donation_status (id s : string) (d : DB) : DB :=
  mkDB ((fun r => if bool_decide (d_id r = id)
                  then mkDonation (d_id r) (lister_id r) (title r) (description r) (serves r)
                         (location r) (pickup_time r) (image_url r) (image_hint r) s
                  else r) <$> donations d)
       (orders d) (profiles d) (objects d) (next_id d).

(** [.from('donations').delete().eq('id', id)] when the backend lets it
    succeed.  The orders of the row are kept, and their join then finds no
    donation: what [ON DELETE SET NULL] on [orders.donation_id] gives.
    Under the default [NO ACTION] the database refuses the delete, which
    is the call's failure outcome.  [ON DELETE CASCADE], which would also
    remove the orders, is not modelled.  The schema is not part of the
    repository. *)
Definition delete_donation (id : string) (d : DB) : DB :=
  mkDB (filter (fun r => d_id r <> id) (donations d)) (orders d) (profiles d) (objects d) (next_id d).

(** [storage.from(bucket).remove([path])] *)
Definition remove_object (bucket path : string) (d : DB) : DB :=
  mkDB (donations d) (orders d) (profiles d) (filter (fun o => o <> (bucket, path)) (objects d))
       (next_id d).

(** [.from('donations').insert(r).select().single()]: the row gets the
    next id of the sequence. *)
Definition insert_donation (r : DonationRow) (d : DB) : string + (DonationRow * DB) :=
  let id := pretty (next_id d) in
  let r' := mkDonation id (lister_id r) (title r) (description r) (serves r) (location r)
              (pickup_time r) (image_url r) (image_hint r) (d_status r) in
  inr (r', mkDB (donations d ++ [r'])%list (orders d) (profiles d) (objects d) (next_id d + 1)%Z).

(** [.from('donations').update({ image_url: p }).eq('id', id)] *)
Definition set_donation_image (id : string) (p : option string) (d : DB) : DB :=
  mkDB ((fun r => if bool_decide (d_id r = id)
                  then mkDonation (d_id r) (lister_id r) (title r) (description r) (serves r)
                         (location r) (pickup_time r) p (image_hint r) (d_status r)
                  else r) <$> donations d)
       (orders d) (profiles d) (objects d) (next_id d).

(** The donation rows with a given id. *)
Definition donation_rows (id : string) (d : DB) : list DonationRow :=
  filter (fun r => d_id r = id) (donations d).

(** Runs a handler on a world whose next outcomes are known: unfolds the
    monad and the effects, and leaves the table operations folded. *)
Ltac st_run :=
  unfold mbind, mret, St_bind, St_ret, toast, emit;
  cbn [bind ret call callv db faults ui].

(** ** Equations of the monad and of [call] *)

Lemma St_bind_unfold {A B} (m : St A) (k : A -> St B) w :
  (x ← m; k x) w = let '(a, w') := m w in k a w'.
Proof. done. Qed.

Lemma call_ok op d fs u :
  call op (mkWorld d (None :: fs) u) = (None, mkWorld (op d) fs u).
Proof. done. Qed.

Lemma call_fail op d msg fs u :
  call op (mkWorld d (Some msg :: fs) u) = (Some msg, mkWorld d fs u).
Proof. done. Qed.

Lemma call_nil op d u :
  call op (mkWorld d [] u) = (None, mkWorld (op d) [] u).
Proof. done. Qed.

Lemma bind_step {A B} (m : St A) (k : A -> St B) w a w' :
  m w = (a, w') -> bind m k w = k a w'.
Proof. intros E. unfold bind. by rewrite E. Qed.

Lemma bind_emit {B} e (k : unit -> St B) d fs log :
  bind (emit e) k (mkWorld d fs log) = k tt (mkWorld d fs (log ++ [e])%list).
Proof. done. Qed.

Lemma bind_call_ok {B} op (k : option string -> St B) d fs log :
  bind (call op) k (mkWorld d (None :: fs) log) = k None (mkWorld (op d) fs log).
Proof. done. Qed.

Lemma bind_call_fail {B} op (k : option string -> St B) d m fs log :
  bind (call op) k (mkWorld d (Some m :: fs) log) = k (Some m) (mkWorld d fs log).
Proof. done. Qed.

Lemma bind_callv_ok {A B} (op : DB -> string + (A * DB)) (k : string + A -> St B) d fs log a d' :
  op d = inr (a, d') ->
  bind (callv op) k (mkWorld d (None :: fs) log) = k (inr a) (mkWorld d' fs log).
Proof. intros E. unfold bind, callv; cbn. by rewrite E. Qed.

Lemma bind_callv_fail {A B} (op : DB -> string + (A * DB)) (k : string + A -> St B) d m fs log :
  bind (callv op) k (mkWorld d (Some m :: fs) log) = k (inl m) (mkWorld d fs log).
Proof. done. Qed.

(** Steps through a handler with the equations below: each [bind] whose
    first computation is known on the current world is replaced by its
    continuation. *)
Ltac st_steps :=
  unfold mbind, mret, St_bind, St_ret, toast;
  repeat first [ rewrite bind_emit | rewrite bind_call_ok | rewrite bind_call_fail
               | rewrite bind_callv_fail ]; cbv beta.

End Backend.
