(* ===== verification/Forms.v ===== *)
(** * Form submission ([react-hook-form] with [zodResolver])

    Every form of the application is a [useForm({ resolver:
    zodResolver(formSchema) })] whose [<form onSubmit={form.handleSubmit(h)}>]
    runs the schema on the current input first.  When the schema reports
    issues, [h] is not called, and each field's [<FormMessage />] shows
    the first issue of that field.  Otherwise the errors are cleared and
    [h] runs on the parsed values, with [formState.isSubmitting] set until
    it settles.  The library is not part of the repository.  This file
    models the behaviour the forms rely on, so that each form's render and
    submit can be written against it. *)

From S2P Require Import Prelude Backend.
Open Scope string_scope.

Module Forms.
Import Backend.

(** A schema's issues: field name and message, in the schema's order. *)
Definition Issues := list (string * string).

(** [form.formState.errors[field]?.message], shown by the field's
    [<FormMessage />]: the first issue of the field. *)
Definition fieldMessage (errors : Issues) (field : string) : option string :=
  snd <$> js_find (fun i => bool_decide (i.1 = field)) errors.

Section Submit.
Context {I V : Type} (resolver : I -> Issues + V).

(** [form.handleSubmit(onValid)] on the input [i]: [inl] the new
    [formState.errors] when the schema rejects the input, [inr] the result
    of [onValid] otherwise (the errors are then empty). *)
Definition handleSubmit {R} (onValid : V -> St R) (i : I) : St (Issues + R) :=
  match resolver i with
  | inl issues => mret (inl issues)
  | inr v => r ← onValid v; mret (inr r)
  end.

(** The errors a submission leaves for the render. *)
Definition submitErrors {R} (r : Issues + R) : Issues :=
  match r with inl issues => issues | inr _ => [] end.

Lemma handleSubmit_invalid {R} (onValid : V -> St R) i issues w :
  resolver i = inl issues -> handleSubmit onValid i w = (inl issues, w).
Proof. intros H. unfold handleSubmit. by rewrite H. Qed.

Lemma handleSubmit_valid {R} (onValid : V -> St R) i v w :
  resolver i = inr v -> handleSubmit onValid i w = (inr (fst (onValid v w)), snd (onValid v w)).
Proof.
  intros H. unfold handleSubmit. rewrite H. unfold mbind, St_bind, bind, mret, St_ret, ret.
  by destruct (onValid v w).
Qed.

End Submit.

End Forms.
