(* ===== verification/DonationDetails.v ===== *)
(** * Donation details page
    ([src/app/dashboard/donations/[id]/page.tsx] and
    [src/app/dashboard/donations/[id]/donation-details-client.tsx])

    The server page checks that the id parses as an integer, loads the
    donation with its lister's name and hands it to
    [DonationDetailsClient].  The client shows the listing; a receiver
    reserves it ([handleConfirmReservation]: insert an order, then mark the
    donation [Reserved]), the owner deletes it ([handleDeleteDonation]:
    remove the image, then delete the row).  Both handlers are written in
    the [Backend.St] monad, one [call] per awaited request. *)

From S2P Require Import Prelude JsText Backend.
From Stdlib Require Import QArith.
Local Close Scope Q_scope.
Open Scope string_scope.

Module DonationDetails.
Import JsText Backend.

(** [type Donation]: the row joined with [profiles ( name )]. *)
Record Donation := mkDonationView { row : DonationRow; profile_name : option string }.

Definition deliveryFee : Z := 50.

(** [user && donation.lister_id === user.id] *)
Definition isOwner (donation : Donation) (user : option AuthUser) : bool :=
  match user with
  | Some u => bool_decide (lister_id (row donation) = uid u)
  | None => false
  end.

Definition reservation_order (donation : Donation) (u : AuthUser) (pickupOption : string) : OrderRow :=
  mkOrder (d_id (row donation)) (uid u) "Reserved" pickupOption
    (if bool_decide (pickupOption = "delivery") then deliveryFee else 0).

Definition confirmation_text (donation : Donation) (pickupOption : string) : string :=
  "Your reservation for " +:+ title (row donation) +:+ " is confirmed. " +:+
  (if bool_decide (pickupOption = "delivery") then "A delivery agent will be assigned shortly."
   else "Please proceed to the pickup location.").

(** [handleConfirmReservation] *)
Definition handleConfirmReservation (donation : Donation) (user : option AuthUser)
    (pickupOption : string) : St unit :=
  match user with
  | Some u =>
      if bool_decide (d_id (row donation) = "") then
        toast "Error" "You must be logged in to reserve." true
      else
        orderError ← call (insert_order (reservation_order donation u pickupOption));
        match orderError with
        | Some m => toast "Error" m true
        | None =>
            donationError ← call (set_donation_status (d_id (row donation)) "Reserved");
            match donationError with
            | Some m => toast "Error updating donation" m true
            | None =>
                toast "Reservation Confirmed!" (confirmation_text donation pickupOption) false ;;
                emit (Push "/dashboard") ;;
                emit Refresh
            end
        end
  | None => toast "Error" "You must be logged in to reserve." true
  end.

(** [handleDeleteDonation]: nothing happens unless the caller owns the
    listing and it has a (non-empty) [image_url]. *)
Definition handleDeleteDonation (donation : Donation) (user : option AuthUser) : St unit :=
  if negb (isOwner donation user) then mret tt else
  match image_url (row donation) with
  | None => mret tt
  | Some filePath =>
      if bool_decide (filePath = "") then mret tt else
      storageError ← call (remove_object "donations" filePath);
      match storageError with
      | Some m => toast "Error Deleting Image" m true
      | None =>
          error ← call (delete_donation (d_id (row donation)));
          match error with
          | Some m => toast "Error Deleting Donation" m true
          | None =>
              toast "Donation Deleted" "The donation listing has been successfully removed." false ;;
              emit (Push "/dashboard") ;;
              emit Refresh
          end
      end
  end.

(** [getPublicUrl(supabase, bucket, path)] ([src/lib/utils.ts]): the
    placeholder for a missing or empty path, else the storage's public URL
    of the object. *)
Inductive ImageSrc := Placeholder (url : string) | PublicUrl (bucket path : string).

Definition getPublicUrl (bucket : string) (path : option string) : ImageSrc :=
  match path with
  | Some p => if bool_decide (p = "") then Placeholder "https://placehold.co/600x400.png"
              else PublicUrl bucket p
  | None => Placeholder "https://placehold.co/600x400.png"
  end.

(** The right-hand card: the owner's management card (with the edit
    dialog's [isEditOpen]) or the reservation card. *)
Inductive Panel :=
  | ManagePanel (editOpen : bool)
  | ReservePanel (radioDisabled : bool) (feeShown : option Z) (mapDisabled : bool)
                 (confirmLabel : string) (confirmDisabled : bool).

Record DetailsView := mkDetails {
  dv_image : ImageSrc;
  dv_title : string;
  dv_lister : string;
  dv_description : option string;
  dv_location : string;
  dv_serves : Q;
  dv_panel : Panel
}.

(** The render of [DonationDetailsClient] for its state [pickupOption],
    [isEditOpen]. *)
Definition DonationDetailsView (donation : Donation) (user : option AuthUser)
    (pickupOption : string) (isEditOpen : bool) : DetailsView :=
  let isReserved := bool_decide (d_status (row donation) = "Reserved") in
  let listerName := match profile_name donation with
                    | Some n => if bool_decide (n = "") then "Anonymous Donor" else n
                    | None => "Anonymous Donor" end in
  mkDetails (getPublicUrl "donations" (image_url (row donation))) (title (row donation)) listerName
    (description (row donation)) (location (row donation)) (serves (row donation))
    (if isOwner donation user then ManagePanel isEditOpen
     else ReservePanel isReserved
            (if bool_decide (pickupOption = "delivery") then Some deliveryFee else None)
            isReserved (if isReserved then "Already Reserved" else "Confirm Reservation") isReserved).

(** ** The server page *)

Definition starts_with_digit (s : string) : bool :=
  match s with String c _ => is_digit c | EmptyString => false end.

(** [isNaN(parseInt(s, 10))]: after leading white space (space, tab and
    the line breaks; the other Unicode spaces are not modelled) and an
    optional sign ([+] is 43, [-] is 45), [parseInt] needs at least one decimal digit. *)
Definition parseInt_isNaN (s : string) : bool :=
  match skip_ws s with
  | String c s' => if bool_decide (Ascii.nat_of_ascii c = 43 \/ Ascii.nat_of_ascii c = 45)%nat then negb (starts_with_digit s')
                   else negb (is_digit c)
  | EmptyString => true
  end.

Inductive PageResult := NotFound | RenderDetails (donation : Donation) (user : option AuthUser).

(** The join [profiles ( name )] through [lister_id]. *)
Definition lister_name (d : DB) (r : DonationRow) : option string :=
  js_find (fun p => bool_decide (p_id p = lister_id r)) (profiles d) ≫= p_name.

(** [Page({ params })]: [notFound()] for a non-numeric id and unless
    [.eq('id', params.id).single()] finds exactly one row. *)
Definition DonationPage (params_id : string) (user : option AuthUser) (d : DB) : PageResult :=
  if parseInt_isNaN params_id then NotFound else
  match donation_rows params_id d with
  | [r] => RenderDetails (mkDonationView r (lister_name d r)) user
  | _ => NotFound
  end.

(** A listing used by the witnesses. *)
Definition sampleDonation : Donation :=
  mkDonationView
    (mkDonation "7" "owner-1" "Veg biryani" (Some "Cooked at noon") 20%Q "Hyderabad"
       "2025-01-01T18:00:00Z" (Some "owner-1/abc-food.png") "biryani" "Available")
    (Some "Asha").

Definition sampleDB : DB :=
  mkDB [row sampleDonation] [] [mkProfile "owner-1" (Some "Asha") (Some "asha@example.com") None 0 "Restaurant" None None]
       [("donations", "owner-1/abc-food.png")] 8.

Section Reservation.
Context (donation : Donation) (u : AuthUser) (pickupOption : string).
Context (Hid : d_id (row donation) <> "").

Lemma reservation_unfold w :
  handleConfirmReservation donation (Some u) pickupOption w =
  (orderError ← call (insert_order (reservation_order donation u pickupOption));
   match orderError with
   | Some m => toast "Error" m true
   | None =>
       donationError ← call (set_donation_status (d_id (row donation)) "Reserved");
       match donationError with
       | Some m => toast "Error updating donation" m true
       | None =>
           toast "Reservation Confirmed!" (confirmation_text donation pickupOption) false ;;
           emit (Push "/dashboard") ;; emit Refresh
       end
   end) w.
Proof. unfold handleConfirmReservation. by rewrite bool_decide_false. Qed.

Lemma reservation_success d fs ui :
  handleConfirmReservation donation (Some u) pickupOption (mkWorld d (None :: None :: fs) ui) =
  (tt, mkWorld (set_donation_status (d_id (row donation)) "Reserved"
                  (insert_order (reservation_order donation u pickupOption) d)) fs
         (ui ++ [Toast "Reservation Confirmed!" (confirmation_text donation pickupOption) false;
                 Push "/dashboard"; Refresh])%list).
Proof. rewrite reservation_unfold. st_run. by rewrite <- !app_assoc. Qed.

Lemma reservation_success_nil d ui :
  handleConfirmReservation donation (Some u) pickupOption (mkWorld d [] ui) =
  (tt, mkWorld (set_donation_status (d_id (row donation)) "Reserved"
                  (insert_order (reservation_order donation u pickupOption) d)) []
         (ui ++ [Toast "Reservation Confirmed!" (confirmation_text donation pickupOption) false;
                 Push "/dashboard"; Refresh])%list).
Proof. rewrite reservation_unfold. st_run. by rewrite <- !app_assoc. Qed.

End Reservation.

Lemma set_status_orders id st d : orders (set_donation_status id st d) = orders d.
Proof. done. Qed.

Lemma set_status_rows id st d :
  Forall (fun r => d_status r = st) (donation_rows id (set_donation_status id st d)).
Proof.
  unfold donation_rows, set_donation_status; cbn [donations].
  induction (donations d) as [|r rs IH]; cbn; [constructor|].
  case_bool_decide as E; cbn.
  - rewrite decide_True by done. by constructor.
  - rewrite decide_False by done. done.
Qed.

Section Deletion.
Context (donation : Donation) (u : AuthUser) (path : string).
Context (Howner : isOwner donation (Some u) = true).
Context (Himg : image_url (row donation) = Some path) (Hpath : path <> "").

Lemma deletion_unfold w :
  handleDeleteDonation donation (Some u) w =
  (storageError ← call (remove_object "donations" path);
   match storageError with
   | Some m => toast "Error Deleting Image" m true
   | None =>
       error ← call (delete_donation (d_id (row donation)));
       match error with
       | Some m => toast "Error Deleting Donation" m true
       | None =>
           toast "Donation Deleted" "The donation listing has been successfully removed." false ;;
           emit (Push "/dashboard") ;; emit Refresh
       end
   end) w.
Proof. unfold handleDeleteDonation. rewrite Howner, Himg. cbn. by rewrite bool_decide_false. Qed.

End Deletion.

(** C35 [reservation_branches]: the reservation handler on each outcome of
    its two requests: a failed order insert changes nothing and shows the
    error; a failed status update leaves the inserted order behind with the
    donation unchanged (no rollback); two successes insert the order (fee
    50 exactly for delivery), mark the donation [Reserved], confirm and go
    to [/dashboard]; without a user nothing is sent. *)
Theorem reservation_branches donation u pickupOption d fs ui m :
  d_id (row donation) <> "" ->
  handleConfirmReservation donation (Some u) pickupOption (mkWorld d (Some m :: fs) ui) =
    (tt, mkWorld d fs (ui ++ [Toast "Error" m true])%list) /\
  handleConfirmReservation donation (Some u) pickupOption (mkWorld d (None :: Some m :: fs) ui) =
    (tt, mkWorld (insert_order (reservation_order donation u pickupOption) d) fs
           (ui ++ [Toast "Error updating donation" m true])%list) /\
  handleConfirmReservation donation (Some u) pickupOption (mkWorld d (None :: None :: fs) ui) =
    (tt, mkWorld (set_donation_status (d_id (row donation)) "Reserved"
                    (insert_order (reservation_order donation u pickupOption) d)) fs
           (ui ++ [Toast "Reservation Confirmed!" (confirmation_text donation pickupOption) false;
                   Push "/dashboard"; Refresh])%list) /\
  handleConfirmReservation donation None pickupOption (mkWorld d fs ui) =
    (tt, mkWorld d fs (ui ++ [Toast "Error" "You must be logged in to reserve." true])%list) /\
  delivery_fee (reservation_order donation u pickupOption) =
    (if bool_decide (pickupOption = "delivery") then 50 else 0)%Z.
Proof.
  intros Hid. split_and!; [| | by apply reservation_success | done | done].
  - rewrite reservation_unfold by done. by st_run.
  - rewrite reservation_unfold by done. by st_run.
Qed.

(** C36 [double_reservation]: the handler does not check that the donation
    is still available: two receivers whose pages were loaded before
    either reservation both reserve it, two orders are inserted for the
    same donation, and both are told their reservation is confirmed,
    although the first already marked the donation [Reserved]. *)
Theorem double_reservation donation u1 u2 o1 o2 d log :
  d_id (row donation) <> "" ->
  let w1 := snd (handleConfirmReservation donation (Some u1) o1 (mkWorld d [] log)) in
  let w2 := snd (handleConfirmReservation donation (Some u2) o2 w1) in
  Forall (fun r => d_status r = "Reserved") (donation_rows (d_id (row donation)) (db w1)) /\
  orders (db w2) = (orders d ++ [reservation_order donation u1 o1; reservation_order donation u2 o2])%list /\
  ui w2 = (log ++ [Toast "Reservation Confirmed!" (confirmation_text donation o1) false;
                  Push "/dashboard"; Refresh;
                  Toast "Reservation Confirmed!" (confirmation_text donation o2) false;
                  Push "/dashboard"; Refresh])%list.
Proof.
  intros Hid w1 w2. subst w1 w2.
  rewrite (reservation_success_nil donation u1 o1 Hid). cbn [snd db ui].
  rewrite (reservation_success_nil donation u2 o2 Hid). cbn [snd db ui].
  split_and!; [apply set_status_orders || apply set_status_rows | |].
  - rewrite !set_status_orders. cbn. by rewrite <- app_assoc.
  - by rewrite <- app_assoc.
Qed.

(** C37 [delete_branches]: the owner's deletion of a listing with an image
    on each outcome of its two requests: a failed image removal changes
    nothing; a failed row deletion leaves the listing without its image;
    two successes remove both, confirm and go to [/dashboard]. *)
Theorem delete_branches donation u path d fs ui m :
  isOwner donation (Some u) = true -> image_url (row donation) = Some path -> path <> "" ->
  handleDeleteDonation donation (Some u) (mkWorld d (Some m :: fs) ui) =
    (tt, mkWorld d fs (ui ++ [Toast "Error Deleting Image" m true])%list) /\
  handleDeleteDonation donation (Some u) (mkWorld d (None :: Some m :: fs) ui) =
    (tt, mkWorld (remove_object "donations" path d) fs
           (ui ++ [Toast "Error Deleting Donation" m true])%list) /\
  handleDeleteDonation donation (Some u) (mkWorld d (None :: None :: fs) ui) =
    (tt, mkWorld (delete_donation (d_id (row donation)) (remove_object "donations" path d)) fs
           (ui ++ [Toast "Donation Deleted" "The donation listing has been successfully removed." false;
                   Push "/dashboard"; Refresh])%list).
Proof.
  intros Ho Hi Hp. split_and!; rewrite (deletion_unfold donation u path Ho Hi Hp); st_run;
    by rewrite <- ?app_assoc.
Qed.

Lemma handleDeleteDonation_noop donation user w :
  (isOwner donation user = false \/ image_url (row donation) = None \/
   image_url (row donation) = Some "") ->
  handleDeleteDonation donation user w = (tt, w).
Proof.
  intros H. unfold handleDeleteDonation.
  destruct (isOwner donation user) eqn:Ho; [|done].
  destruct H as [H|[H|H]]; [done | by rewrite H |]. rewrite H. by rewrite bool_decide_true.
Qed.

Lemma reservation_branches_witness :
  handleConfirmReservation sampleDonation (Some (mkAuthUser "r-1" None)) "pickup"
    (mkWorld sampleDB [None; Some "network"] []) =
  (tt, mkWorld (insert_order (mkOrder "7" "r-1" "Reserved" "pickup" 0) sampleDB) []
         [Toast "Error updating donation" "network" true]).
Proof.
  refine (proj1 (proj2 (reservation_branches sampleDonation (mkAuthUser "r-1" None) "pickup"
                          sampleDB [] [] "network" _))).
  discriminate.
Defined.

Lemma double_reservation_witness :
  orders (db (snd (handleConfirmReservation sampleDonation (Some (mkAuthUser "r-2" None)) "pickup"
    (snd (handleConfirmReservation sampleDonation (Some (mkAuthUser "r-1" None)) "delivery"
       (mkWorld sampleDB [] []))))))
  = [mkOrder "7" "r-1" "Reserved" "delivery" 50; mkOrder "7" "r-2" "Reserved" "pickup" 0].
Proof.
  refine (proj1 (proj2 (double_reservation sampleDonation (mkAuthUser "r-1" None)
                          (mkAuthUser "r-2" None) "delivery" "pickup" sampleDB [] _))).
  discriminate.
Defined.

Lemma delete_branches_witness :
  handleDeleteDonation sampleDonation (Some (mkAuthUser "owner-1" None))
    (mkWorld sampleDB [None; Some "permission denied"] []) =
  (tt, mkWorld (mkDB [row sampleDonation] [] (profiles sampleDB) [] 8) []
         [Toast "Error Deleting Donation" "permission denied" true]).
Proof.
  refine (proj1 (proj2 (delete_branches sampleDonation (mkAuthUser "owner-1" None)
                          "owner-1/abc-food.png" sampleDB [] [] "permission denied" _ _ _)));
    [reflexivity | reflexivity | discriminate].
Defined.

End DonationDetails.
