(* ===== verification/NewDonation.v ===== *)
(** * New donation form ([src/components/donations/new-donation-form.tsx])

    [NewDonationForm] validates its fields with a zod schema, keeps the
    chosen image (file input or camera capture) and its preview, can ask
    an AI flow for a title and description, and on submit inserts the
    donation, navigates away at once and uploads the image in the
    background through [POST /api/upload] ([UploadRoute.POST]) before
    writing the returned path into the row.

    The component state is [FormState]; each handler maps it (and, for the
    submit, the backend [World]) to the next state.  The asynchronous
    [FileReader] callbacks of the AI generation are separate events. *)

From S2P Require Import Prelude JsText UploadRoute Backend DonationDetails.
From Stdlib Require Import QArith.
From stdpp Require Import pretty.
Local Close Scope Q_scope.
Open Scope string_scope.

Module NewDonation.
Import JsText UploadRoute Backend DonationDetails.

(** The value of the [quantity] field: the default number [1], or the
    text of the number input. *)
Inductive QuantityField := QNumber (q : Q) | QText (s : string).

(** The form's field values as react-hook-form holds them. *)
Record FormInput := mkInput {
  foodName : string;
  fdescription : option string;
  quantity : QuantityField;
  flocation : string;
  pickupDate : option Z;     (** the calendar's day, local midnight in ms *)
  pickupTime : string;
  image : option FileObj
}.

(** [defaultValues] of [useForm]. *)
Definition defaultValues : FormInput :=
  mkInput "" (Some "") (QNumber 1) "Indiranagar, Bengaluru" None "" None.

(** The output of [formSchema] on valid input. *)
Record Values := mkValues {
  v_foodName : string;
  v_description : option string;
  v_quantity : Q;
  v_location : string;
  v_pickupDate : Z;
  v_pickupTime : string;
  v_image : FileObj
}.

(** [z.preprocess((val) => Number(val), ...)] *)
Definition quantity_number (f : QuantityField) : option Q :=
  match f with QNumber q => Some q | QText s => js_Number s end.

Definition issue_if (b : bool) (field msg : string) : list (string * string) :=
  if b then [(field, msg)] else [].

(** [formSchema.safeParse]: every failing field contributes its issue, in
    the order of the schema. *)
Definition schema_issues (i : FormInput) : list (string * string) :=
  issue_if (String.length (foodName i) <? 3)%nat "foodName" "Food name must be at least 3 characters." ++
  match quantity_number (quantity i) with
  | None => [("quantity", "Expected number, received nan")]
  | Some q => issue_if (negb (Qle_bool 1 q)) "quantity" "Quantity must be at least 1"
  end ++
  issue_if (String.length (flocation i) <? 3)%nat "location" "Location is required" ++
  issue_if (bool_decide (pickupDate i = None)) "pickupDate" "A pickup date is required." ++
  issue_if (String.length (pickupTime i) <? 1)%nat "pickupTime" "Please specify a pickup time." ++
  issue_if (bool_decide (image i = None)) "image" "An image is required.".

Definition formSchema (i : FormInput) : list (string * string) + Values :=
  match schema_issues i, quantity_number (quantity i), pickupDate i, image i with
  | [], Some q, Some d, Some f =>
      inr (mkValues (foodName i) (fdescription i) q (flocation i) d (pickupTime i) f)
  | issues, _, _, _ => inl issues
  end.

(** The component's state. *)
Record FormState := mkForm {
  input : FormInput;
  isGenerating : bool;
  selectedFile : option FileObj;
  previewUrl : option string;
  isCameraOpen : bool;
  hasCameraPermission : option bool;
  pendingReads : nat    (** [FileReader]s started and not yet done *)
}.

Definition initialForm : FormState := mkForm defaultValues false None None false None 0.

Definition set_image (i : FormInput) (f : FileObj) : FormInput :=
  mkInput (foodName i) (fdescription i) (quantity i) (flocation i) (pickupDate i) (pickupTime i) (Some f).

(** [handleFileChange]: the first selected file, with [url] the value of
    [URL.createObjectURL(file)]. *)
Definition handleFileChange (files : list FileObj) (url : string) (s : FormState) : FormState :=
  match files with
  | file :: _ => mkForm (set_image (input s) file) (isGenerating s) (Some file) (Some url)
                   (isCameraOpen s) (hasCameraPermission s) (pendingReads s)
  | [] => s
  end.

(** [handleCapture]: [refs] when the video and canvas elements are
    mounted, [blob] when [canvas.toBlob] produced an image. *)
Definition handleCapture (refs blob : bool) (url : string) (s : FormState) : FormState :=
  if refs && blob then
    let file := mkFile "capture.jpg" in
    mkForm (set_image (input s) file) (isGenerating s) (Some file) (Some url)
      false (hasCameraPermission s) (pendingReads s)
  else s.

(** The camera effect on [isCameraOpen]: the outcome of
    [getUserMedia({ video: true })] while the dialog is open. *)
Definition cameraPermission (granted : bool) (s : FormState) : FormState :=
  if isCameraOpen s then
    mkForm (input s) (isGenerating s) (selectedFile s) (previewUrl s) true (Some granted) (pendingReads s)
  else s.

Definition setIsCameraOpen (b : bool) (s : FormState) : FormState :=
  mkForm (input s) (isGenerating s) (selectedFile s) (previewUrl s) b (hasCameraPermission s) (pendingReads s).

(** [handleGenerateDetails]: without a file a toast; otherwise
    [setIsGenerating(true)], a [FileReader] is started, and the [finally]
    block runs [setIsGenerating(false)] before the reader has loaded. *)
Definition handleGenerateDetails (s : FormState) : FormState * list UiEffect :=
  match selectedFile s with
  | None => (s, [Toast "Please select an image first." "" true])
  | Some _ =>
      let s1 := mkForm (input s) true (selectedFile s) (previewUrl s) (isCameraOpen s)
                  (hasCameraPermission s) (S (pendingReads s)) in
      (mkForm (input s1) false (selectedFile s1) (previewUrl s1) (isCameraOpen s1)
         (hasCameraPermission s1) (pendingReads s1), [])
  end.

(** The result of [suggestDonationDetails]. *)
Record AiResult := mkAi {
  suggestedTitle : string;
  suggestedDescription : string;
  calories : string;
  fat : string;
  energy : string
}.

Definition nl : string := String (Ascii.ascii_of_nat 10) "".

Definition fullDescription (r : AiResult) : string :=
  suggestedDescription r +:+
  nl +:+ nl +:+ "Est. Nutrition (per serving):" +:+ nl +:+ "Calories: " +:+ calories r +:+
  nl +:+ "Fat: " +:+ fat r +:+ nl +:+ "Energy: " +:+ energy r +:+
  nl +:+ nl +:+ "(Description and nutritional info generated by AI)".

(** How a started reader ends: [reader.onload] with the AI flow's result
    ([inl] when the flow rejects: the rejection escapes the [try]), or
    [reader.onerror]. *)
Inductive ReaderOutcome := ReaderLoaded (r : string + AiResult) | ReaderFailed.

Definition readerDone (o : ReaderOutcome) (s : FormState) : FormState * list UiEffect :=
  let s' := mkForm (input s) (isGenerating s) (selectedFile s) (previewUrl s) (isCameraOpen s)
              (hasCameraPermission s) (pred (pendingReads s)) in
  match o with
  | ReaderLoaded (inr r) =>
      let i := input s' in
      (mkForm (mkInput (suggestedTitle r) (Some (fullDescription r)) (quantity i) (flocation i)
                 (pickupDate i) (pickupTime i) (image i))
         (isGenerating s') (selectedFile s') (previewUrl s') (isCameraOpen s')
         (hasCameraPermission s') (pendingReads s'),
       [Toast "Details generated!" "The AI has suggested a title and description for you." false])
  | ReaderLoaded (inl _) => (s', [])
  | ReaderFailed => (s', [Toast "Error reading image file." "" true])
  end.

(** ** The render *)

Record FormView := mkFormView {
  fv_preview : option string;          (** the preview image, or the drop-zone text *)
  fv_cameraDenied : bool;              (** the "Camera Access Denied" alert *)
  fv_captureDisabled : bool;
  fv_generateButton : option (bool * string);  (** shown with a file: disabled, label *)
  fv_dateLabel : option Z;             (** the picked day, or "Pick a date" *)
  fv_submitDisabled : bool;
  fv_submitLabel : string
}.

(** The calendar disables the days before today's local midnight. *)
Definition calendarDisabled (todayMidnight date : Z) : bool := (date <? todayMidnight)%Z.

Definition NewDonationFormView (s : FormState) (isSubmitting : bool) : FormView :=
  mkFormView (previewUrl s)
    (bool_decide (hasCameraPermission s = Some false))
    (negb (default false (hasCameraPermission s)))
    (match selectedFile s with
     | Some _ => Some (isGenerating s, if isGenerating s then "Generating..." else "Generate with AI")
     | None => None
     end)
    (pickupDate (input s))
    isSubmitting
    (if isSubmitting then "Listing..." else "List My Donation").

(** A valid form used by the witnesses: biryani for 20, picked up by
    18:30 on 2025-01-15 in India ([tz] = +330 minutes). *)
Definition sampleValues : Values :=
  mkValues "Veg biryani" (Some "Fresh") 20%Q "Hyderabad" (20103 * 86400000 - 330 * 60000)%Z "18:30"
    (mkFile "food.png").

(** ** Submit *)

(** The storage upload of the route, run against the backend world: the
    next outcome decides a failure; an existing object is refused. *)
Definition storage_upload (w : World) (bucket path : string) (_ : FormValue) : World * UploadResult :=
  match faults w with
  | Some msg :: fs => (mkWorld (db w) fs (ui w), UploadError msg)
  | _ =>
      let fs := tail (faults w) in
      if bool_decide ((bucket, path) ∈ objects (db w)) then
        (mkWorld (db w) fs (ui w), UploadError "The resource already exists")
      else
        let d := db w in
        (mkWorld (mkDB (donations d) (orders d) (profiles d) (objects d ++ [(bucket, path)])%list (next_id d))
           fs (ui w), UploadData path)
  end.

(** [fetch('/api/upload', { method: 'POST', body: formData })] by the
    signed-in user [u]: a network failure ([inl]) or the route's response;
    [uuid] is the value of [uuidv4()] on the server. *)
Definition fetch_upload (u : AuthUser) (uuid : string) (fd : FormData) : St (string + Response) :=
  fun w =>
    match faults w with
    | Some msg :: fs => (inl msg, mkWorld (db w) fs (ui w))
    | _ =>
        let w1 := mkWorld (db w) (tail (faults w)) (ui w) in
        let '(w2, r) := POST storage_upload (inr fd) (Some (mkUser (uid u))) uuid w1 in
        (inr r, w2)
    end.

Definition colon : Ascii.ascii := Ascii.ascii_of_nat 58.

(** [new Date(values.pickupDate)], [setHours(Number(hours),
    Number(minutes))], [toISOString()] in the browser's time zone [tz]. *)
Definition pickupDateTime (tz : Z) (v : Values) : option string :=
  let parts := js_split colon (v_pickupTime v) in
  toISOString (date_setHours tz (Some (v_pickupDate v))
                 (js_Number (default "" (parts !! 0)))
                 (match parts !! 1 with Some m => js_Number m | None => None end)).

(** The row of step 1, before the database assigns its id. *)
Definition newDonationRow (u : AuthUser) (v : Values) (pickup : string) : DonationRow :=
  mkDonation "" (uid u) (v_foodName v) (v_description v) (v_quantity v) (v_location v)
    pickup None "food meal" "Available".

(** [form.reset(); setSelectedFile(null); setPreviewUrl(null)] *)
Definition resetForm (s : FormState) : FormState :=
  mkForm defaultValues (isGenerating s) None None (isCameraOpen s) (hasCameraPermission s) (pendingReads s).

Definition uploadFailed (msg : string) : St unit :=
  toast "Image Upload Failed" ("Your donation is listed, but the image upload failed: " +:+ msg) true.

(** [onSubmit(values)]: [None] as the result when [toISOString] throws
    (the submit promise rejects before any request). *)
Definition onSubmit (tz : Z) (uuid : string) (user : option AuthUser) (v : Values) (s : FormState)
    : St FormState :=
  match user with
  | None => toast "Error" "You must be logged in to create a donation." true ;; mret s
  | Some u =>
      match pickupDateTime tz v with
      | None => mret s
      | Some pickup =>
          inserted ← callv (insert_donation (newDonationRow u v pickup));
          match inserted with
          | inl msg => toast "Error Creating Donation" msg true ;; mret s
          | inr newDonation =>
              toast "Donation Listed!"
                "Your food donation has been successfully listed. Uploading image in the background." false ;;
              emit (Push "/dashboard") ;;
              emit Refresh ;;
              response ← fetch_upload u uuid [("file", FVFile (v_image v)); ("bucket", FVString "donations")];
              match response with
              | inl msg => uploadFailed msg ;; mret (resetForm s)
              | inr r =>
                  if negb ((200 <=? status r) && (status r <? 300))%Z then
                    uploadFailed (match body r with
                                  | ErrBody e => if bool_decide (e = "") then "HTTP error! status: " +:+ pretty (status r) else e
                                  | PathBody _ => "HTTP error! status: " +:+ pretty (status r)
                                  end) ;; mret (resetForm s)
                  else
                    let imagePath := match body r with PathBody p => Some p | ErrBody _ => None end in
                    updateError ← call (set_donation_image (d_id newDonation) imagePath);
                    match updateError with
                    | Some m => uploadFailed m ;; mret (resetForm s)
                    | None => emit Refresh ;; mret (resetForm s)
                    end
              end
          end
      end
  end.

(** The form data of step 3 and the object path the route stores it at. *)
Definition uploadForm (f : FileObj) : FormData :=
  [("file", FVFile f); ("bucket", FVString "donations")].

Definition uploadPath (u : AuthUser) (uuid : string) (f : FileObj) : string :=
  filePath (mkUser (uid u)) uuid (FVFile f).

Definition add_object (o : string * string) (d : DB) : DB :=
  mkDB (donations d) (orders d) (profiles d) (objects d ++ [o])%list (next_id d).

(** The inserted row, with the id the database gave it and an image. *)
Definition listedRow (u : AuthUser) (v : Values) (pickup id : string) (img : option string) : DonationRow :=
  mkDonation id (uid u) (v_foodName v) (v_description v) (v_quantity v) (v_location v)
    pickup img "food meal" "Available".

Definition listedToast : UiEffect :=
  Toast "Donation Listed!"
    "Your food donation has been successfully listed. Uploading image in the background." false.

(** ** The background upload *)

Section Upload.
Context (u : AuthUser) (uuid : string) (f : FileObj) (d : DB) (log : list UiEffect).

Lemma fetch_upload_ok fs :
  ("donations", uploadPath u uuid f) ∉ objects d ->
  fetch_upload u uuid (uploadForm f) (mkWorld d (None :: None :: fs) log) =
  (inr (mkResp 200 (PathBody (uploadPath u uuid f))),
   mkWorld (add_object ("donations", uploadPath u uuid f) d) fs log).
Proof.
  intros Hn. unfold fetch_upload, POST; simpl. unfold storage_upload; simpl.
  unfold uploadPath in Hn. by rewrite bool_decide_false.
Qed.

Lemma fetch_upload_network m fs :
  fetch_upload u uuid (uploadForm f) (mkWorld d (Some m :: fs) log) = (inl m, mkWorld d fs log).
Proof. done. Qed.

Lemma fetch_upload_storage_fail m fs :
  fetch_upload u uuid (uploadForm f) (mkWorld d (None :: Some m :: fs) log) =
  (inr (mkResp 500 (ErrBody m)), mkWorld d fs log).
Proof. done. Qed.

End Upload.

Lemma set_image_last rs r id p :
  Forall (fun x => d_id x <> id) rs -> d_id r = id ->
  (fun x => if bool_decide (d_id x = id)
            then mkDonation (d_id x) (lister_id x) (title x) (description x) (serves x)
                   (location x) (pickup_time x) p (image_hint x) (d_status x)
            else x) <$> (rs ++ [r])%list =
  (rs ++ [mkDonation (d_id r) (lister_id r) (title r) (description r) (serves r)
            (location r) (pickup_time r) p (image_hint r) (d_status r)])%list.
Proof.
  intros Hf Hr. rewrite fmap_app. cbn. rewrite bool_decide_true by done. f_equal.
  induction Hf as [|x rs Hx Hf IH]; cbn; [done|]. rewrite bool_decide_false by done. by f_equal.
Qed.

Section Submit.
Context (tz : Z) (uuid : string) (u : AuthUser) (v : Values) (s : FormState) (pickup : string).
Context (Hpickup : pickupDateTime tz v = Some pickup).

Lemma submit_unfold w :
  onSubmit tz uuid (Some u) v s w =
  (inserted ← callv (insert_donation (newDonationRow u v pickup));
   match inserted with
   | inl msg => toast "Error Creating Donation" msg true ;; mret s
   | inr newDonation =>
       emit listedToast ;; emit (Push "/dashboard") ;; emit Refresh ;;
       response ← fetch_upload u uuid (uploadForm (v_image v));
       match response with
       | inl msg => uploadFailed msg ;; mret (resetForm s)
       | inr r =>
           if negb ((200 <=? status r) && (status r <? 300))%Z then
             uploadFailed (match body r with
                           | ErrBody e => if bool_decide (e = "") then "HTTP error! status: " +:+ pretty (status r) else e
                           | PathBody _ => "HTTP error! status: " +:+ pretty (status r)
                           end) ;; mret (resetForm s)
           else
             let imagePath := match body r with PathBody p => Some p | ErrBody _ => None end in
             updateError ← call (set_donation_image (d_id newDonation) imagePath);
             match updateError with
             | Some m => uploadFailed m ;; mret (resetForm s)
             | None => emit Refresh ;; mret (resetForm s)
             end
       end
   end) w.
Proof. unfold onSubmit. by rewrite Hpickup. Qed.

(** C38 [submit_lists_with_image]: a valid submit whose four requests
    succeed (insert, upload request, storage write, image update) lists
    the donation under the next id with the lister, the form's values and
    status [Available], stores the image at
    [<user.id>/<uuid>-<file.name>] in [donations], points the row's
    [image_url] at it, resets the form, and navigates to [/dashboard]. *)
Theorem submit_lists_with_image d fs log :
  ("donations", uploadPath u uuid (v_image v)) ∉ objects d ->
  Forall (fun r => d_id r <> pretty (next_id d)) (donations d) ->
  onSubmit tz uuid (Some u) v s (mkWorld d (None :: None :: None :: None :: fs) log) =
  (resetForm s,
   mkWorld (mkDB (donations d ++ [listedRow u v pickup (pretty (next_id d))
                                     (Some (uploadPath u uuid (v_image v)))])%list
                 (orders d) (profiles d) (objects d ++ [("donations", uploadPath u uuid (v_image v))])%list
                 (next_id d + 1)%Z)
     fs (log ++ [listedToast; Push "/dashboard"; Refresh; Refresh])%list).
Proof.
  intros Hn Hids. rewrite submit_unfold. st_steps.
  erewrite bind_callv_ok by reflexivity. st_steps.
  erewrite bind_step by (apply fetch_upload_ok; exact Hn). cbn -[uploadPath].
  st_steps. unfold ret, set_donation_image, add_object.
  cbn [donations orders profiles objects next_id d_id].
  rewrite set_image_last by done. by rewrite <- !app_assoc.
Qed.

Lemma submit_network_lost d fs log m :
  onSubmit tz uuid (Some u) v s (mkWorld d (None :: Some m :: fs) log) =
  (resetForm s,
   mkWorld (mkDB (donations d ++ [listedRow u v pickup (pretty (next_id d)) None])%list
                 (orders d) (profiles d) (objects d) (next_id d + 1)%Z)
     fs (log ++ [listedToast; Push "/dashboard"; Refresh;
                 Toast "Image Upload Failed" ("Your donation is listed, but the image upload failed: " +:+ m) true])%list).
Proof.
  rewrite submit_unfold. st_steps. erewrite bind_callv_ok by reflexivity. st_steps.
  erewrite bind_step by apply fetch_upload_network. unfold uploadFailed. st_steps.
  unfold ret. by rewrite <- !app_assoc.
Qed.

Lemma submit_storage_lost d fs log m :
  onSubmit tz uuid (Some u) v s (mkWorld d (None :: None :: Some m :: fs) log) =
  (resetForm s,
   mkWorld (mkDB (donations d ++ [listedRow u v pickup (pretty (next_id d)) None])%list
                 (orders d) (profiles d) (objects d) (next_id d + 1)%Z)
     fs (log ++ [listedToast; Push "/dashboard"; Refresh;
                 Toast "Image Upload Failed" ("Your donation is listed, but the image upload failed: " +:+
                   (if bool_decide (m = "") then "HTTP error! status: 500" else m)) true])%list).
Proof.
  rewrite submit_unfold. st_steps. erewrite bind_callv_ok by reflexivity. st_steps.
  erewrite bind_step by apply fetch_upload_storage_fail. cbn -[uploadFailed]. unfold uploadFailed.
  st_steps. unfold ret. by rewrite <- !app_assoc.
Qed.

End Submit.

(** C39 [upload_failure_orphans_listing]: when the image upload fails
    after the donation was inserted (the request fails, or the storage
    refuses the object), the listing stays without an image, and its owner
    can then not delete it from the details page: the delete handler does
    nothing for a listing without [image_url]. *)
Theorem upload_failure_orphans_listing tz uuid u v s pickup d fs log m outcomes :
  pickupDateTime tz v = Some pickup ->
  outcomes = None :: Some m :: fs \/ outcomes = None :: None :: Some m :: fs ->
  let r := listedRow u v pickup (pretty (next_id d)) None in
  r ∈ donations (db (snd (onSubmit tz uuid (Some u) v s (mkWorld d outcomes log)))) /\
  forall n w, handleDeleteDonation (mkDonationView r n) (Some u) w = (tt, w).
Proof.
  intros Hp Ho r. split.
  - destruct Ho as [->| ->];
      [rewrite (submit_network_lost tz uuid u v s pickup Hp) |
       rewrite (submit_storage_lost tz uuid u v s pickup Hp)]; cbn; set_solver.
  - intros n w. apply handleDeleteDonation_noop. by right; left.
Qed.

(** the zod schema accepts the form exactly when
    the food name and the location have at least 3 characters, the
    quantity reads as a number of at least 1, a date is picked, a time is
    given and an image is chosen; the accepted values are the fields'. *)
Theorem schema_accepts_iff i :
  (exists v, formSchema i = inr v) <->
  (3 <= String.length (foodName i))%nat /\
  (exists q, quantity_number (quantity i) = Some q /\ (1 <= q)%Q) /\
  (3 <= String.length (flocation i))%nat /\ pickupDate i <> None /\
  (1 <= String.length (pickupTime i))%nat /\ image i <> None.
Proof.
  unfold formSchema, schema_issues, issue_if.
  destruct (quantity_number (quantity i)) as [q|] eqn:Hq;
    [|split; [intros [v Hv]; by repeat case_match | intros (_ & (q & ? & _) & _); congruence]].
  destruct (Qle_bool 1 q) eqn:Hle; cbn [negb];
    [|split; [intros [v Hv]; by repeat case_match
             | intros (_ & (q' & [= <-] & Hq') & _); apply Qle_bool_iff in Hq'; congruence]].
  apply Qle_bool_iff in Hle.
  destruct (Nat.ltb_spec (String.length (foodName i)) 3),
           (Nat.ltb_spec (String.length (flocation i)) 3),
           (Nat.ltb_spec (String.length (pickupTime i)) 1),
           (pickupDate i) as [pd|], (image i) as [im|]; cbn;
    (split; [intros [v Hv]; try discriminate | ]);
    try (intros (? & ? & ? & ? & ? & ?); (lia || congruence));
    try (split_and!; eauto; lia || congruence).
  eexists; reflexivity.
Qed.

(** C40 [generate_not_guarded]: [handleGenerateDetails] leaves
    [isGenerating] false as soon as it returns (its [finally] runs before
    the reader loads), so the spinner never shows and a second click
    starts a second reader while the first is pending; and when the AI
    flow rejects, nothing is shown: the failure escapes the [try] whose
    [catch] would have reported it. *)
Theorem generate_not_guarded s f :
  selectedFile s = Some f ->
  let '(s1, e1) := handleGenerateDetails s in
  let '(s2, e2) := handleGenerateDetails s1 in
  isGenerating s1 = false /\ isGenerating s2 = false /\ e1 = [] /\ e2 = [] /\
  pendingReads s2 = S (S (pendingReads s)) /\
  (forall msg, readerDone (ReaderLoaded (inl msg)) s2 =
     (mkForm (input s2) false (selectedFile s2) (previewUrl s2) (isCameraOpen s2)
        (hasCameraPermission s2) (S (pendingReads s)), [])).
Proof. intros Hf. unfold handleGenerateDetails. rewrite Hf. cbn. split_and!; done. Qed.

(** ** Witnesses *)

Lemma submit_lists_with_image_witness :
  onSubmit 330 "u-1" (Some (mkAuthUser "owner-1" None)) sampleValues initialForm
    (mkWorld sampleDB [None; None; None; None] []) =
  (resetForm initialForm,
   mkWorld (mkDB (donations sampleDB ++
                  [listedRow (mkAuthUser "owner-1" None) sampleValues "2025-01-15T13:00:00.000Z" "8"
                     (Some "owner-1/u-1-food.png")])%list
                 [] (profiles sampleDB) (objects sampleDB ++ [("donations", "owner-1/u-1-food.png")])%list 9)
     [] [listedToast; Push "/dashboard"; Refresh; Refresh]).
Proof.
  apply (submit_lists_with_image 330 "u-1" (mkAuthUser "owner-1" None) sampleValues initialForm
           "2025-01-15T13:00:00.000Z"); [vm_compute; reflexivity | vm_compute; set_solver | ].
  repeat constructor; vm_compute; discriminate.
Defined.

Lemma upload_failure_orphans_listing_witness :
  listedRow (mkAuthUser "owner-1" None) sampleValues "2025-01-15T13:00:00.000Z" "8" None ∈
    donations (db (snd (onSubmit 330 "u-1" (Some (mkAuthUser "owner-1" None)) sampleValues initialForm
                          (mkWorld sampleDB [None; Some "Failed to fetch"] [])))).
Proof.
  apply (upload_failure_orphans_listing 330 "u-1" (mkAuthUser "owner-1" None) sampleValues initialForm
           "2025-01-15T13:00:00.000Z" sampleDB [] [] "Failed to fetch"); [vm_compute; reflexivity | by left].
Defined.

Lemma schema_rejects_defaults :
  formSchema defaultValues =
  inl [("foodName", "Food name must be at least 3 characters.");
       ("pickupDate", "A pickup date is required.");
       ("pickupTime", "Please specify a pickup time.");
       ("image", "An image is required.")].
Proof. vm_compute. reflexivity. Qed.

Lemma generate_not_guarded_witness :
  let s := handleFileChange [mkFile "food.png"] "blob:1" initialForm in
  isGenerating (fst (handleGenerateDetails s)) = false.
Proof.
  pose proof (generate_not_guarded (handleFileChange [mkFile "food.png"] "blob:1" initialForm)
                (mkFile "food.png") eq_refl) as H.
  cbn in H |- *. tauto.
Defined.

End NewDonation.
