(* ===== verification/AiFlow.v ===== *)
(** * The AI suggestion flow ([src/ai/flows/suggest-donation-details.ts])

    [suggestDonationDetails(input)] runs the flow [suggestDonationDetailsFlow]:
    it calls the prompt [suggestDonationPrompt] with the photo, a data
    URI, and returns [output!], the prompt's structured output.  The
    prompt sends one message to the model: the template's text, the image
    as a media part, and the template's last line break.  The flow declares
    [SuggestDonationDetailsOutputSchema] as its output schema, so a [null]
    output (the model gave no structured answer) fails the flow's output
    validation and the call rejects, as does a failed model call.

    The model is a parameter: for a message it answers with an error, no
    structured output, or an [AiResult].  Composed with the new-donation
    form ([NewDonation.readerDone]), every failure of the flow leaves the
    form unchanged and shows nothing: the rejection happens in the
    reader's [onload], outside the [try] of [handleGenerateDetails]. *)

From S2P Require Import Prelude Backend NewDonation.
Open Scope string_scope.

Module AiFlow.
Import Backend NewDonation.

(** [SuggestDonationDetailsInput]. *)
Record SuggestInput := mkSuggestInput { photoDataUri : string }.

(** The parts of the message the prompt sends. *)
Inductive Part := TextPart (t : string) | MediaPart (url : string).

(** The template's text before [{{media url=photoDataUri}}], as written. *)
Definition promptIntro : string :=
"You are an expert at creating appealing food donation listings.
  
  Based on the provided image, generate a short, catchy title and a brief, friendly description for the food donation.
  
  Also, provide a rough estimate of the nutritional information per serving for calories, fat, and energy.
  
  Make the title and description sound appealing and appetizing to encourage people to reserve it.
  
  Image: ".

Definition promptOutro : string :=
"
  ".

(** The message of [suggestDonationPrompt(input)]. *)
Definition promptMessage (i : SuggestInput) : list Part :=
  [TextPart promptIntro; MediaPart (photoDataUri i); TextPart promptOutro].

(** What the model returns for a message: an error ([inl]), or its
    structured output, [None] when it produced none. *)
Definition Model := list Part -> string + option AiResult.

(** [suggestDonationDetails(input)]: [inl] the rejection (its message is
    the model's error, or the validation error of the [null] output, whose
    text is not modelled). *)
Definition suggestDonationDetails (model : Model) (i : SuggestInput) : string + AiResult :=
  match model (promptMessage i) with
  | inl e => inl e
  | inr None => inl ""
  | inr (Some r) => inr r
  end.

(** [reader.onload] of [handleGenerateDetails] for the data URI [dataUri]. *)
Definition onReaderLoad (model : Model) (dataUri : string) (s : FormState) : FormState * list UiEffect :=
  readerDone (ReaderLoaded (suggestDonationDetails model (mkSuggestInput dataUri))) s.

(** ** Lemmas *)

(** The reader's [onload] after a structured answer: title and
    description are filled in and a toast confirms. *)
Lemma onReaderLoad_answered model uri s r :
  model (promptMessage (mkSuggestInput uri)) = inr (Some r) ->
  onReaderLoad model uri s = readerDone (ReaderLoaded (inr r)) s /\
  foodName (input (fst (onReaderLoad model uri s))) = suggestedTitle r /\
  fdescription (input (fst (onReaderLoad model uri s))) = Some (fullDescription r) /\
  snd (onReaderLoad model uri s) =
    [Toast "Details generated!" "The AI has suggested a title and description for you." false].
Proof. intros Hm. unfold onReaderLoad, suggestDonationDetails. rewrite Hm. done. Qed.

(** Every failure of the flow, a failed model call or an answer without
    structured output, is silent: the form keeps its input and nothing is
    shown, although [handleGenerateDetails] has a [catch] with the toast
    [AI Generation Failed]. *)
Lemma onReaderLoad_failure_silent model uri s :
  (exists e, model (promptMessage (mkSuggestInput uri)) = inl e) \/
  model (promptMessage (mkSuggestInput uri)) = inr None ->
  input (fst (onReaderLoad model uri s)) = input s /\ snd (onReaderLoad model uri s) = [].
Proof.
  unfold onReaderLoad, suggestDonationDetails. intros [[e ->]| ->]; done.
Qed.

End AiFlow.
