(* ===== verification/ProfileContext.v ===== *)
(** * Profile provider ([src/contexts/profile-context.tsx])

    [ProfileProvider] keeps [user], [profile] and [loading].  On mount it
    reads the current session and fetches the profile; it also subscribes
    to the auth state: every event sets [user], [SIGNED_IN] fetches the
    profile and [SIGNED_OUT] clears it.  [fetchProfile] selects the row
    [profiles.id = user.id] and, when [.single()] reports [PGRST116] (no
    row), inserts one built from the user's metadata.

    Each [fetchProfile] is a job of one or two awaited requests; jobs run
    interleaved with each other and with the auth events, one request at a
    time, in the order a [list PCEvent] gives. *)

From S2P Require Import Prelude JsText Backend.
Open Scope string_scope.

Module ProfileContext.
Import JsText Backend.

(** The session's user: id, email and [user_metadata.name] /
    [user_metadata.avatar_url]. *)
Record SUser := mkSUser {
  su_id : string;
  su_email : option string;
  meta_name : option string;
  meta_avatar : option string
}.

(** The error code of [.single()] when no row matches. *)
Definition PGRST116 : string := "PGRST116".

(** [.from('profiles').select('*').eq('id', id).single()] *)
Definition select_profile (id : string) (d : DB) : string + (ProfileRow * DB) :=
  match filter (fun p => p_id p = id) (profiles d) with
  | [p] => inr (p, d)
  | _ => inl PGRST116
  end.

(** [.from('profiles').insert(r).select().single()]: the primary key
    refuses a second row with the same id (code [23505]). *)
Definition insert_profile (r : ProfileRow) (d : DB) : string + (ProfileRow * DB) :=
  if bool_decide (p_id r ∈ p_id <$> profiles d) then inl "23505"
  else inr (r, mkDB (donations d) (orders d) (profiles d ++ [r])%list (objects d) (next_id d)).

Definition at_sign : Ascii.ascii := Ascii.ascii_of_nat 64.

(** [user.user_metadata?.name || user.email?.split('@')[0]] *)
Definition profileName (u : SUser) : option string :=
  let fallback := (fun e => default "" (js_split at_sign e !! 0)) <$> su_email u in
  match meta_name u with
  | Some n => if bool_decide (n = "") then fallback else Some n
  | None => fallback
  end.

Section Provider.
(** The column defaults of [profiles] for the columns the insert leaves
    out; they are the database's, not the client's. *)
Context (default_coins : Z) (default_role : string).

Definition newProfileRow (u : SUser) : ProfileRow :=
  mkProfile (su_id u) (profileName u) (su_email u) (meta_avatar u) default_coins default_role None None.

Record PCState := mkPC {
  pc_user : option SUser;
  pc_profile : option ProfileRow;
  pc_loading : bool
}.

(** A running [fetchProfile]: before its select, or before its insert. *)
Inductive Job := JSelect (u : SUser) | JInsert (u : SUser).

Record Conf := mkConf { pc : PCState; jobs : list Job; world : World }.

Definition initialConf (w : World) : Conf := mkConf (mkPC None None true) [] w.

Inductive PCEvent :=
  | GetSession (session : option SUser)          (** [getInitialUser] resumes *)
  | AuthChange (event : string) (session : option SUser)
  | RunJob (i : nat).                             (** job [i]'s request resolves *)

Definition setUser (u : option SUser) (s : PCState) : PCState := mkPC u (pc_profile s) (pc_loading s).
Definition setProfile (p : option ProfileRow) (s : PCState) : PCState := mkPC (pc_user s) p (pc_loading s).
Definition setLoading (b : bool) (s : PCState) : PCState := mkPC (pc_user s) (pc_profile s) b.

(** Calling [fetchProfile(u)]: [setLoading(true)] and the select is sent. *)
Definition startFetch (u : SUser) (c : Conf) : Conf :=
  mkConf (setLoading true (pc c)) (jobs c ++ [JSelect u])%list (world c).

(** Job [i] finishes with profile [p]: [setProfile(p)], [setLoading(false)]. *)
Definition finishJob (i : nat) (p : option ProfileRow) (c : Conf) (w : World) : Conf :=
  mkConf (setLoading false (setProfile p (pc c))) (delete i (jobs c)) w.

Definition runJob (i : nat) (c : Conf) : option Conf :=
  match jobs c !! i with
  | None => None
  | Some (JSelect u) =>
      let '(r, w) := callv (select_profile (su_id u)) (world c) in
      match r with
      | inr p => Some (finishJob i (Some p) c w)
      | inl code =>
          if bool_decide (code = PGRST116) then Some (mkConf (pc c) (<[i := JInsert u]> (jobs c)) w)
          else Some (finishJob i None c w)
      end
  | Some (JInsert u) =>
      let '(r, w) := callv (insert_profile (newProfileRow u)) (world c) in
      match r with
      | inr p => Some (finishJob i (Some p) c w)
      | inl _ => Some (finishJob i None c w)
      end
  end.

Definition pc_step (e : PCEvent) (c : Conf) : option Conf :=
  match e with
  | GetSession (Some u) => Some (startFetch u (mkConf (setUser (Some u) (pc c)) (jobs c) (world c)))
  | GetSession None => Some (mkConf (setLoading false (pc c)) (jobs c) (world c))
  | AuthChange ev session =>
      let c1 := mkConf (setUser session (pc c)) (jobs c) (world c) in
      match session with
      | Some u => if bool_decide (ev = "SIGNED_IN") then Some (startFetch u c1)
                  else if bool_decide (ev = "SIGNED_OUT") then Some (mkConf (setProfile None (pc c1)) (jobs c1) (world c1))
                  else Some c1
      | None => if bool_decide (ev = "SIGNED_OUT") then Some (mkConf (setProfile None (pc c1)) (jobs c1) (world c1))
                else Some c1
      end
  | RunJob i => runJob i c
  end.

Fixpoint pc_run (es : list PCEvent) (c : Conf) : option Conf :=
  match es with
  | [] => Some c
  | e :: es' => pc_step e c ≫= pc_run es'
  end.

End Provider.

(** A user with no metadata name, for the witnesses. *)
Definition ravi : SUser := mkSUser "user-9" (Some "ravi@example.com") None None.

Definition emptyDB : DB := mkDB [] [] [] [] 1.

Definition add_profile (r : ProfileRow) (d : DB) : DB :=
  mkDB (donations d) (orders d) (profiles d ++ [r])%list (objects d) (next_id d).

(** ** Requests on a database without, or with exactly one, profile row *)

Section Rows.
Context (d : DB) (id : string).

Lemma select_profile_absent :
  id ∉ p_id <$> profiles d -> select_profile id d = inl PGRST116.
Proof.
  unfold select_profile. induction (profiles d) as [|x xs IH]; intros Hn; [done|].
  rewrite fmap_cons, elem_of_cons in Hn. rewrite filter_cons, decide_False by naive_solver.
  apply IH. naive_solver.
Qed.

Lemma select_profile_one p :
  filter (fun p => p_id p = id) (profiles d) = [p] -> select_profile id d = inr (p, d).
Proof. intros H. unfold select_profile. by rewrite H. Qed.

Lemma insert_profile_fresh r :
  p_id r ∉ p_id <$> profiles d -> insert_profile r d = inr (r, add_profile r d).
Proof. intros Hn. unfold insert_profile. by rewrite bool_decide_false. Qed.

Lemma insert_profile_dup r :
  p_id r ∈ p_id <$> profiles d -> insert_profile r d = inl "23505".
Proof. intros Hn. unfold insert_profile. by rewrite bool_decide_true. Qed.

End Rows.

Lemma add_profile_id r d : p_id r ∈ p_id <$> profiles (add_profile r d).
Proof. cbn. rewrite fmap_app. set_solver. Qed.

(** The provider's first fetch for a user without a row inserts one. *)
Lemma fetch_inserts_missing_profile dc dr u d log :
  su_id u ∉ p_id <$> profiles d ->
  pc_run dc dr [GetSession (Some u); RunJob 0; RunJob 0] (initialConf (mkWorld d [] log)) =
  Some (mkConf (mkPC (Some u) (Some (newProfileRow dc dr u)) false) []
          (mkWorld (add_profile (newProfileRow dc dr u) d) [] log)).
Proof.
  intros Hn. cbn - [select_profile insert_profile].
  rewrite select_profile_absent by done. cbn - [insert_profile].
  rewrite bool_decide_true by done. cbn - [insert_profile].
  by rewrite insert_profile_fresh.
Qed.

(** C18 [fetch_creates_profile]: for a signed-in user without a profile
    row, the provider's fetch selects, gets [PGRST116], inserts a row
    named after the metadata name or the email's local part, and ends
    with that profile, [loading] false and no request pending. *)
Theorem fetch_creates_profile dc dr u d log :
  su_id u ∉ p_id <$> profiles d ->
  pc_run dc dr [GetSession (Some u); RunJob 0; RunJob 0] (initialConf (mkWorld d [] log)) =
  Some (mkConf (mkPC (Some u) (Some (newProfileRow dc dr u)) false) []
          (mkWorld (add_profile (newProfileRow dc dr u) d) [] log)).
Proof. apply fetch_inserts_missing_profile. Qed.

(** C30 [concurrent_fetch_loses_profile]: when a [SIGNED_IN] event
    arrives while the initial fetch is in flight, the two fetches both
    find no row and both insert; the second insert is refused by the
    primary key and its [setProfile(null)] wins: the provider ends with no
    profile although the row now exists. *)
Theorem concurrent_fetch_loses_profile dc dr u d log :
  su_id u ∉ p_id <$> profiles d ->
  pc_run dc dr [GetSession (Some u); AuthChange "SIGNED_IN" (Some u);
                RunJob 0; RunJob 1; RunJob 0; RunJob 0] (initialConf (mkWorld d [] log)) =
  Some (mkConf (mkPC (Some u) None false) []
          (mkWorld (add_profile (newProfileRow dc dr u) d) [] log)).
Proof.
  intros Hn. cbn - [select_profile insert_profile].
  rewrite bool_decide_true by done. cbn - [select_profile insert_profile].
  rewrite select_profile_absent by done. cbn - [select_profile insert_profile].
  rewrite bool_decide_true by done. cbn - [select_profile insert_profile].
  rewrite select_profile_absent by done. cbn - [select_profile insert_profile].
  rewrite bool_decide_true by done. cbn - [select_profile insert_profile].
  rewrite insert_profile_fresh by done. cbn - [insert_profile].
  rewrite insert_profile_dup by apply add_profile_id. done.
Qed.

(** A sign-out while the fetch is in flight, then the fetch's answer. *)
Lemma signout_during_fetch dc dr u p d log :
  filter (fun q => p_id q = su_id u) (profiles d) = [p] ->
  pc_run dc dr [GetSession (Some u); AuthChange "SIGNED_OUT" None; RunJob 0]
    (initialConf (mkWorld d [] log)) =
  Some (mkConf (mkPC None (Some p) false) [] (mkWorld d [] log)).
Proof.
  intros Hp. cbn - [select_profile].
  rewrite bool_decide_true by done. cbn - [select_profile].
  by rewrite (select_profile_one d (su_id u) p Hp).
Qed.

(** A sign-out while the profile fetch
    is in flight clears [user] and [profile], but the fetch then completes
    and sets the signed-out user's profile again. *)
Theorem signout_keeps_stale_profile dc dr u p d log :
  filter (fun q => p_id q = su_id u) (profiles d) = [p] ->
  pc_run dc dr [GetSession (Some u); AuthChange "SIGNED_OUT" None; RunJob 0]
    (initialConf (mkWorld d [] log)) =
  Some (mkConf (mkPC None (Some p) false) [] (mkWorld d [] log)).
Proof. apply signout_during_fetch. Qed.

Lemma fetch_creates_profile_witness :
  pc_run 0 "Individual" [GetSession (Some ravi); RunJob 0; RunJob 0] (initialConf (mkWorld emptyDB [] [])) =
  Some (mkConf (mkPC (Some ravi)
                  (Some (mkProfile "user-9" (Some "ravi") (Some "ravi@example.com") None 0 "Individual" None None))
                  false) []
          (mkWorld (mkDB [] [] [mkProfile "user-9" (Some "ravi") (Some "ravi@example.com") None 0 "Individual" None None] [] 1) [] [])).
Proof. apply (fetch_creates_profile 0 "Individual" ravi emptyDB []). cbn. set_solver. Defined.

Lemma concurrent_fetch_loses_profile_witness :
  option_map (fun c => pc_profile (pc c))
    (pc_run 0 "Individual" [GetSession (Some ravi); AuthChange "SIGNED_IN" (Some ravi);
                           RunJob 0; RunJob 1; RunJob 0; RunJob 0] (initialConf (mkWorld emptyDB [] []))) =
  Some None.
Proof. rewrite (concurrent_fetch_loses_profile 0 "Individual" ravi emptyDB []); [done | cbn; set_solver]. Defined.

Lemma signout_keeps_stale_profile_witness :
  let p := mkProfile "user-9" (Some "Ravi") None None 40 "Individual" None None in
  pc_run 0 "Individual" [GetSession (Some ravi); AuthChange "SIGNED_OUT" None; RunJob 0]
    (initialConf (mkWorld (mkDB [] [] [p] [] 1) [] [])) =
  Some (mkConf (mkPC None (Some p) false) [] (mkWorld (mkDB [] [] [p] [] 1) [] [])).
Proof. intros p. apply signout_keeps_stale_profile. vm_compute. reflexivity. Defined.

End ProfileContext.
