(* ===== verification/ProfileEdit.v ===== *)
(** * Profile edit form ([src/components/profile/edit-profile-form.tsx])

    [EditProfileForm({ profile })] shows the avatar and a form with name,
    email (disabled), phone and address.  Choosing an avatar file uploads
    it through [POST /api/upload] into [avatars] and writes the path into
    the profile; saving updates name, phone and address of the signed-in
    user's profile.  Both handlers run in the [Backend.St] monad; the
    upload request is [NewDonation.fetch_upload], the route of
    [UploadRoute.v].  The form itself is a machine over input events and
    submits ([profileForm_step]): an input the render disables takes no
    input, and [handleSubmit] runs the schema before [onSubmit]. *)

From S2P Require Import Prelude JsText UploadRoute Backend DonationDetails NewDonation.
Open Scope string_scope.

Module ProfileEdit.
Import JsText UploadRoute Backend DonationDetails NewDonation.

(** The form values of [formSchema]. *)
Record ProfileInput := mkPInput {
  pi_name : string;
  pi_email : string;
  pi_phone : option string;
  pi_address : option string
}.

Definition or_empty (o : option string) : string := default "" o.

(** [defaultValues]: [profile.x || ""]. *)
Definition profileDefaults (p : ProfileRow) : ProfileInput :=
  mkPInput (or_empty (p_name p)) (or_empty (p_email p)) (Some (or_empty (phone p)))
    (Some (or_empty (address p))).

(** [formSchema]: the issues of the failing fields, in schema order. *)
Definition profileSchema (i : ProfileInput) : list (string * string) + ProfileInput :=
  match (issue_if (String.length (pi_name i) <? 2)%nat "name" "Name must be at least 2 characters." ++
        issue_if (negb (zod_email (pi_email i))) "email" "Please enter a valid email address.")%list with
  | [] => inr i
  | issues => inl issues
  end.

(** [.from('profiles').update({ name, phone, address }).eq('id', id)]:
    [undefined] fields are left out of the update. *)
Definition update_profile (id : string) (name : string) (ph ad : option string) (d : DB) : DB :=
  mkDB (donations d) (orders d)
    ((fun p => if bool_decide (p_id p = id)
               then mkProfile (p_id p) (Some name) (p_email p) (p_avatar_url p) (power_coins p) (role p)
                      (match ph with Some x => Some x | None => phone p end)
                      (match ad with Some x => Some x | None => address p end)
               else p) <$> profiles d)
    (objects d) (next_id d).

(** [.from('profiles').update({ avatar_url: path }).eq('id', id)] *)
Definition update_avatar (id : string) (path : option string) (d : DB) : DB :=
  mkDB (donations d) (orders d)
    ((fun p => if bool_decide (p_id p = id)
               then mkProfile (p_id p) (p_name p) (p_email p) path (power_coins p) (role p) (phone p) (address p)
               else p) <$> profiles d)
    (objects d) (next_id d).

(** [onSubmit(values)] *)
Definition onSubmitProfile (user : option AuthUser) (v : ProfileInput) : St unit :=
  match user with
  | None => toast "Error" "Not authenticated." true
  | Some u =>
      error ← call (update_profile (uid u) (pi_name v) (pi_phone v) (pi_address v));
      match error with
      | Some m => toast "Error updating profile" m true
      | None =>
          toast "Profile Updated!" "Your profile information has been successfully saved." false ;;
          emit Refresh
      end
  end.

(** [handleAvatarChange]: returns the new [avatarUrl] state.  A rejected
    [fetch] is not caught: the handler stops there. *)
Definition handleAvatarChange (files : list FileObj) (user : option AuthUser) (uuid : string)
    (avatarUrl : ImageSrc) : St ImageSrc :=
  match files with
  | [] => mret avatarUrl
  | file :: _ =>
      match user with
      | None => toast "Error" "Not authenticated." true ;; mret avatarUrl
      | Some u =>
          response ← fetch_upload u uuid [("file", FVFile file); ("bucket", FVString "avatars")];
          match response with
          | inl _ => mret avatarUrl
          | inr r =>
              if negb ((200 <=? status r) && (status r <? 300))%Z then
                toast "Upload Error"
                  (match body r with
                   | ErrBody e => if bool_decide (e = "") then "An unknown error occurred" else e
                   | PathBody _ => "An unknown error occurred"
                   end) true ;; mret avatarUrl
              else
                let path := match body r with PathBody p => Some p | ErrBody _ => None end in
                updateError ← call (update_avatar (uid u) path);
                match updateError with
                | Some m => toast "Error updating avatar" m true ;; mret avatarUrl
                | None =>
                    toast "Avatar updated!" "" false ;; emit Refresh ;;
                    mret (getPublicUrl "avatars" path)
                end
          end
      end
  end.

(** The render: the avatar image, the four fields (email disabled). *)
Record ProfileFormView := mkPFView {
  pf_avatar : ImageSrc;
  pf_name : string;
  pf_email : string;
  pf_emailDisabled : bool;
  pf_phone : string;
  pf_address : string
}.

Definition EditProfileFormView (avatarUrl : ImageSrc) (i : ProfileInput) : ProfileFormView :=
  mkPFView avatarUrl (pi_name i) (pi_email i) true (or_empty (pi_phone i)) (or_empty (pi_address i)).

(** [useState(getPublicUrl(supabase, 'avatars', profile.avatar_url))] *)
Definition initialAvatar (p : ProfileRow) : ImageSrc := getPublicUrl "avatars" (p_avatar_url p).

(** The four inputs of the form. *)
Inductive ProfileField := FName | FEmail | FPhone | FAddress.

(** A field's [disabled] attribute in the rendered form. *)
Definition fieldDisabled (v : ProfileFormView) (fl : ProfileField) : bool :=
  match fl with FEmail => pf_emailDisabled v | _ => false end.

(** [field.onChange(value)]: the typed text becomes the field's value. *)
Definition setField (fl : ProfileField) (x : string) (i : ProfileInput) : ProfileInput :=
  match fl with
  | FName => mkPInput x (pi_email i) (pi_phone i) (pi_address i)
  | FEmail => mkPInput (pi_name i) x (pi_phone i) (pi_address i)
  | FPhone => mkPInput (pi_name i) (pi_email i) (Some x) (pi_address i)
  | FAddress => mkPInput (pi_name i) (pi_email i) (pi_phone i) (Some x)
  end.

(** The state [useForm] keeps: the values and the issues shown by the
    [FormMessage]s. *)
Record ProfileForm := mkPForm { pf_values : ProfileInput; pf_errors : list (string * string) }.

(** [useForm({ resolver: zodResolver(formSchema), defaultValues })]. *)
Definition initialProfileForm (p : ProfileRow) : ProfileForm := mkPForm (profileDefaults p) [].

(** What the user can do in the form: type into an input, press
    [Save Changes]. *)
Inductive ProfileFormEvent := FieldInput (fl : ProfileField) (x : string) | SubmitProfile.

(** A disabled input receives no input events.  [form.handleSubmit(onSubmit)]
    runs the resolver first: on issues it shows them and does not call
    [onSubmit]; otherwise it clears them and calls [onSubmit] with the
    parsed values. *)
Definition profileForm_step (avatarUrl : ImageSrc) (user : option AuthUser) (e : ProfileFormEvent)
    (f : ProfileForm) : St ProfileForm :=
  match e with
  | FieldInput fl x =>
      if fieldDisabled (EditProfileFormView avatarUrl (pf_values f)) fl then mret f
      else mret (mkPForm (setField fl x (pf_values f)) (pf_errors f))
  | SubmitProfile =>
      match profileSchema (pf_values f) with
      | inl issues => mret (mkPForm (pf_values f) issues)
      | inr v => onSubmitProfile user v ;; mret (mkPForm (pf_values f) [])
      end
  end.

Fixpoint profileForm_run (avatarUrl : ImageSrc) (user : option AuthUser) (es : list ProfileFormEvent)
    (f : ProfileForm) : St ProfileForm :=
  match es with
  | [] => mret f
  | e :: es' => f' ← profileForm_step avatarUrl user e f; profileForm_run avatarUrl user es' f'
  end.

Definition avatarPath (u : AuthUser) (uuid : string) (f : FileObj) : string :=
  filePath (mkUser (uid u)) uuid (FVFile f).

Lemma fetch_avatar_ok u uuid f d fs log :
  ("avatars", avatarPath u uuid f) ∉ objects d ->
  fetch_upload u uuid [("file", FVFile f); ("bucket", FVString "avatars")] (mkWorld d (None :: None :: fs) log) =
  (inr (mkResp 200 (PathBody (avatarPath u uuid f))),
   mkWorld (add_object ("avatars", avatarPath u uuid f) d) fs log).
Proof.
  intros Hn. unfold fetch_upload, POST; simpl. unfold storage_upload; simpl.
  unfold avatarPath in Hn. by rewrite bool_decide_false.
Qed.

(** C29 [avatar_not_removed]: a successful avatar change stores
    the new image at [<user.id>/<uuid>-<file.name>] in [avatars], points
    the profile's [avatar_url] at it and shows it, but never removes the
    previous avatar: every object stored before is still stored after. *)
Theorem avatar_replaced_not_removed f fs u uuid old d fs' log :
  ("avatars", avatarPath u uuid f) ∉ objects d ->
  handleAvatarChange (f :: fs) (Some u) uuid old (mkWorld d (None :: None :: None :: fs') log) =
  (PublicUrl "avatars" (avatarPath u uuid f),
   mkWorld (update_avatar (uid u) (Some (avatarPath u uuid f))
              (add_object ("avatars", avatarPath u uuid f) d)) fs'
     (log ++ [Toast "Avatar updated!" "" false; Refresh])%list) /\
  (forall o, o ∈ objects d ->
     o ∈ objects (update_avatar (uid u) (Some (avatarPath u uuid f)) (add_object ("avatars", avatarPath u uuid f) d))).
Proof.
  intros Hn. split.
  - unfold handleAvatarChange. st_steps.
    erewrite bind_step by (apply fetch_avatar_ok; exact Hn). cbn -[avatarPath update_avatar add_object].
    st_steps. unfold ret. rewrite <- app_assoc. cbn. unfold getPublicUrl.
    rewrite bool_decide_false; [done|]. unfold avatarPath, filePath. cbn. destruct (uid u); discriminate.
  - intros o Ho. cbn. set_solver.
Qed.

Definition emailIssue : string * string := ("email", "Please enter a valid email address.").

(** The schema reports an email that zod rejects, whatever the other fields. *)
Lemma profileSchema_bad_email i :
  zod_email (pi_email i) = false -> exists issues, profileSchema i = inl issues /\ emailIssue ∈ issues.
Proof.
  intros He. unfold profileSchema. rewrite He. cbn [negb issue_if].
  destruct (String.length (pi_name i) <? 2)%nat; cbn; eexists; split; [done | set_solver | done | set_solver].
Qed.

(** One event of a form whose email zod rejects writes nothing, keeps the
    email, and a submit shows the email issue. *)
Lemma profileForm_step_bad_email avatarUrl user e f w :
  zod_email (pi_email (pf_values f)) = false ->
  let r := profileForm_step avatarUrl user e f w in
  db (snd r) = db w /\ pi_email (pf_values (fst r)) = pi_email (pf_values f) /\
  (e = SubmitProfile -> emailIssue ∈ pf_errors (fst r)).
Proof.
  intros He. destruct e as [fl x|].
  - cbn. by destruct fl.
  - destruct (profileSchema_bad_email _ He) as (issues & Hs & Hin). cbn. by rewrite Hs.
Qed.

(** The same along any sequence of events. *)
Lemma profileForm_run_bad_email avatarUrl user es f w :
  zod_email (pi_email (pf_values f)) = false ->
  let r := profileForm_run avatarUrl user es f w in
  db (snd r) = db w /\ pi_email (pf_values (fst r)) = pi_email (pf_values f) /\
  (last es = Some SubmitProfile -> emailIssue ∈ pf_errors (fst r)).
Proof.
  revert f w. induction es as [|e es IH]; intros f w He; [done|].
  cbn [profileForm_run]. unfold mbind, St_bind, bind.
  destruct (profileForm_step_bad_email avatarUrl user e f w He) as (Hd & Hm & Hsub).
  destruct (profileForm_step avatarUrl user e f w) as [f1 w1]; cbn in Hd, Hm, Hsub.
  rewrite <- Hm in He. destruct (IH f1 w1 He) as (Hd' & Hm' & Hl).
  rewrite Hd', Hm', Hm. split_and!; [done|done|]. destruct es as [|e' es'].
  - intros [= ->]. by apply Hsub.
  - intros Hlast. by apply Hl.
Qed.

(** C31 [invalid_email_blocks_save]: the email input is rendered disabled,
    so for a profile whose stored email is missing or not accepted by zod's
    email check, whatever the user types into the form's inputs and however
    often they press Save, the email stays the stored one, the profile is
    never written (the backend is untouched), and every submit shows the
    email issue. *)
Theorem invalid_email_blocks_save p avatarUrl user es w :
  zod_email (or_empty (p_email p)) = false ->
  let r := profileForm_run avatarUrl user es (initialProfileForm p) w in
  db (snd r) = db w /\ pi_email (pf_values (fst r)) = or_empty (p_email p) /\
  (last es = Some SubmitProfile -> emailIssue ∈ pf_errors (fst r)).
Proof. exact (profileForm_run_bad_email avatarUrl user es (initialProfileForm p) w). Qed.

Lemma avatar_replaced_not_removed_witness :
  fst (handleAvatarChange [mkFile "me.png"] (Some (mkAuthUser "owner-1" None)) "u-7" (Placeholder "x")
         (mkWorld sampleDB [None; None; None] [])) = PublicUrl "avatars" "owner-1/u-7-me.png".
Proof.
  rewrite (proj1 (avatar_replaced_not_removed (mkFile "me.png") [] (mkAuthUser "owner-1" None) "u-7"
                    (Placeholder "x") sampleDB [] [] ltac:(vm_compute; set_solver))).
  reflexivity.
Defined.

Lemma invalid_email_blocks_save_witness :
  let p := mkProfile "user-9" (Some "Ravi") None None 0 "Individual" None None in
  let r := profileForm_run (Placeholder "") (Some (mkAuthUser "user-9" None))
             [FieldInput FEmail "ravi@example.com"; FieldInput FName "Ravi Kumar"; SubmitProfile]
             (initialProfileForm p) (mkWorld sampleDB [None] []) in
  zod_email (or_empty (p_email p)) = false /\
  db (snd r) = sampleDB /\ pi_email (pf_values (fst r)) = "" /\ emailIssue ∈ pf_errors (fst r).
Proof.
  cbv zeta. split; [reflexivity|].
  destruct (invalid_email_blocks_save (mkProfile "user-9" (Some "Ravi") None None 0 "Individual" None None)
              (Placeholder "") (Some (mkAuthUser "user-9" None))
              [FieldInput FEmail "ravi@example.com"; FieldInput FName "Ravi Kumar"; SubmitProfile]
              (mkWorld sampleDB [None] []) eq_refl) as (Hd & Hm & Hl).
  exact (conj Hd (conj Hm (Hl eq_refl))).
Defined.

End ProfileEdit.
