(* ===== verification/EditDonation.v ===== *)
(** * Edit donation form ([src/components/donations/edit-donation-form.tsx])

    [EditDonationForm({ donation, onFinished })] fills a form from the
    listing ([pickupDate] is [new Date(donation.pickup_time)], [pickupTime]
    its local [HH:mm]), validates it with the schema of the new-donation
    form without the image, and saves title, description, serves, location
    and the recomputed pickup time.  Parsing the stored timestamp is the
    [Date] constructor's; the handlers take the parsed instant [t]. *)

From S2P Require Import Prelude JsText Backend Forms NewDonation.
From Stdlib Require Import QArith Qround.
From stdpp Require Import pretty.
Local Close Scope Q_scope.
Open Scope string_scope.
Local Open Scope Z_scope.

Module EditDonation.
Import JsText Backend Forms NewDonation.

(** [format(date, "HH:mm")] of date-fns in the time zone [tz]. *)
Definition format_HHmm (tz : Z) (t : Z) : string :=
  let local := (t + tz * msPerMinute) mod msPerDay in
  pad 2 (local / msPerHour) +:+ ":" +:+ pad 2 ((local mod msPerHour) / msPerMinute).

(** The edit form's fields (no image). *)
Record EditInput := mkEInput {
  e_foodName : string;
  e_description : option string;
  e_quantity : QuantityField;
  e_location : string;
  e_pickupDate : option Z;
  e_pickupTime : string
}.

(** [defaultValues] from the listing whose [pickup_time] parsed to [t]. *)
Definition editDefaults (tz : Z) (r : DonationRow) (t : Z) : EditInput :=
  mkEInput (title r) (Some (default "" (description r))) (QNumber (serves r)) (location r)
    (Some t) (format_HHmm tz t).

(** The schema's output. *)
Record EditValues := mkEValues {
  ev_foodName : string;
  ev_description : option string;
  ev_quantity : Q;
  ev_location : string;
  ev_pickupDate : Z;
  ev_pickupTime : string
}.

(** [formSchema] of the edit form: the new-donation schema without
    [image], in the same order. *)
Definition editSchema (i : EditInput) : list (string * string) + EditValues :=
  let issues :=
    (issue_if (String.length (e_foodName i) <? 3)%nat "foodName" "Food name must be at least 3 characters." ++
     match quantity_number (e_quantity i) with
     | None => [("quantity", "Expected number, received nan")]
     | Some q => issue_if (negb (Qle_bool 1 q)) "quantity" "Quantity must be at least 1"
     end ++
     issue_if (String.length (e_location i) <? 3)%nat "location" "Location is required" ++
     issue_if (bool_decide (e_pickupDate i = None)) "pickupDate" "A pickup date is required." ++
     issue_if (String.length (e_pickupTime i) <? 1)%nat "pickupTime" "Please specify a pickup time.")%list in
  match issues, quantity_number (e_quantity i), e_pickupDate i with
  | [], Some q, Some d =>
      inr (mkEValues (e_foodName i) (e_description i) q (e_location i) d (e_pickupTime i))
  | issues, _, _ => inl issues
  end.

(** Lines 73-75 and 82: the new pickup instant. *)
Definition editPickupDateTime (tz : Z) (v : EditValues) : option string :=
  let parts := js_split colon (ev_pickupTime v) in
  toISOString (date_setHours tz (Some (ev_pickupDate v))
                 (js_Number (default "" (parts !! 0%nat)))
                 (match parts !! 1%nat with Some m => js_Number m | None => None end)).

(** [.from('donations').update({ title, description, serves, location,
    pickup_time }).eq('id', id)]; an [undefined] description is left out. *)
Definition update_donation (id : string) (v : EditValues) (pickup : string) (d : DB) : DB :=
  mkDB ((fun r => if bool_decide (d_id r = id)
                  then mkDonation (d_id r) (lister_id r) (ev_foodName v)
                         (match ev_description v with Some x => Some x | None => description r end)
                         (ev_quantity v) (ev_location v) pickup (image_url r) (image_hint r) (d_status r)
                  else r) <$> donations d)
       (orders d) (profiles d) (objects d) (next_id d).

(** [onSubmit(values)]: [false] when [toISOString] throws, else whether
    [onFinished()] (closing the dialog) was called. *)
Definition onSubmitEdit (tz : Z) (r : DonationRow) (v : EditValues) : St bool :=
  match editPickupDateTime tz v with
  | None => mret false
  | Some pickup =>
      error ← call (update_donation (d_id r) v pickup);
      match error with
      | Some m => toast "Error Updating Donation" m true ;; mret false
      | None =>
          toast "Donation Updated!" "Your donation details have been successfully updated." false ;;
          emit Refresh ;; mret true
      end
  end.

Definition editSubmitLabel (isSubmitting : bool) : string :=
  if isSubmitting then "Saving..." else "Save Changes".

(** The rendered form: each field's [<FormMessage />], the date button
    ([format(field.value, "PPP")] or [Pick a date]), and the submit
    button. *)
Record EditFormView := mkEditView {
  ef_foodNameMessage : option string; ef_descriptionMessage : option string;
  ef_quantityMessage : option string; ef_locationMessage : option string;
  ef_pickupDateMessage : option string; ef_pickupTimeMessage : option string;
  ef_dateLabel : option Z; ef_submitDisabled : bool; ef_submitLabel : string
}.

Definition EditDonationFormView (i : EditInput) (errors : Issues) (isSubmitting : bool) : EditFormView :=
  mkEditView (fieldMessage errors "foodName") (fieldMessage errors "description")
    (fieldMessage errors "quantity") (fieldMessage errors "location")
    (fieldMessage errors "pickupDate") (fieldMessage errors "pickupTime")
    (e_pickupDate i) isSubmitting (editSubmitLabel isSubmitting).

(** [form.handleSubmit(onSubmit)]: [inr true] when the dialog was closed. *)
Definition submitEdit (tz : Z) (r : DonationRow) : EditInput -> St (Issues + bool) :=
  handleSubmit editSchema (onSubmitEdit tz r).

(** A listing picked up at 18:30 on 2025-01-15 in India, for the witness. *)
Definition sampleInstant : Z := 20103 * 86400000 - 330 * 60000 + (18 * 60 + 30) * 60000.

Definition sampleRow : DonationRow :=
  mkDonation "7" "owner-1" "Veg biryani" (Some "Fresh") 20%Q "Hyderabad" "2025-01-15T13:00:00.000Z"
    None "food meal" "Available".

(** ** Saving the form unchanged keeps the pickup instant *)

Lemma js_trunc_Z n : 0 <= n -> js_trunc (inject_Z n) = n.
Proof.
  intros Hn. unfold js_trunc.
  replace (Qle_bool 0 (inject_Z n)) with true
    by (symmetry; apply Qle_bool_iff; change 0%Q with (inject_Z 0); by rewrite <- Zle_Qle).
  apply Qfloor_Z.
Qed.

Lemma setHours_own_time tz t :
  Z.abs t <= 8640000000000000 ->
  let L := (t + tz * msPerMinute) mod msPerDay in
  date_setHours tz (Some t) (Some (inject_Z (L / msPerHour)))
    (Some (inject_Z ((L mod msPerHour) / msPerMinute))) = Some t.
Proof.
  intros Ht L. unfold date_setHours, time_clip.
  assert (HL : 0 <= L < msPerDay) by (apply Z.mod_pos_bound; unfold msPerDay; lia).
  rewrite !js_trunc_Z by (apply Z.div_pos; [apply Z.mod_pos_bound|]; unfold msPerHour, msPerMinute in *; lia).
  fold L.
  assert (Hm : (L mod msPerHour) mod msPerMinute = L mod msPerMinute).
  { apply Z.mod_mod_divide. unfold msPerHour, msPerMinute. exists 60; lia. }
  assert (Hsec : L mod msPerMinute = (t + tz * msPerMinute) mod msPerMinute).
  { unfold L. apply Z.mod_mod_divide. unfold msPerDay, msPerMinute. exists 1440; lia. }
  replace ((t + tz * msPerMinute) mod msPerDay mod msPerMinute) with (L mod msPerMinute) by done.
  pose proof (Z.div_mod (t + tz * msPerMinute) msPerDay ltac:(unfold msPerDay; lia)) as E1.
  pose proof (Z.div_mod L msPerHour ltac:(unfold msPerHour; lia)) as E2.
  pose proof (Z.div_mod (L mod msPerHour) msPerMinute ltac:(unfold msPerMinute; lia)) as E3.
  fold L in E1. rewrite Hm in E3.
  replace ((t + tz * msPerMinute) / msPerDay * msPerDay + L / msPerHour * msPerHour +
           L mod msPerHour / msPerMinute * msPerMinute + L mod msPerMinute - tz * msPerMinute) with t by lia.
  by rewrite (proj2 (Z.leb_le _ _) Ht).
Qed.

Lemma format_HHmm_split tz t :
  let L := (t + tz * msPerMinute) mod msPerDay in
  js_split colon (format_HHmm tz t) = [pad 2 (L / msPerHour); pad 2 ((L mod msPerHour) / msPerMinute)] /\
  js_Number (pad 2 (L / msPerHour)) = Some (inject_Z (L / msPerHour)) /\
  js_Number (pad 2 ((L mod msPerHour) / msPerMinute)) = Some (inject_Z ((L mod msPerHour) / msPerMinute)).
Proof.
  intros L.
  assert (HL : 0 <= L < msPerDay) by (apply Z.mod_pos_bound; unfold msPerDay; lia).
  assert (Hh : 0 <= L / msPerHour < 100).
  { split; [apply Z.div_pos; unfold msPerHour in *; lia|].
    apply Z.div_lt_upper_bound; unfold msPerHour, msPerDay in *; lia. }
  assert (Hmin : 0 <= (L mod msPerHour) / msPerMinute < 100).
  { assert (0 <= L mod msPerHour < msPerHour) by (apply Z.mod_pos_bound; unfold msPerHour; lia).
    split; [apply Z.div_pos; unfold msPerMinute in *; lia|].
    apply Z.div_lt_upper_bound; unfold msPerHour, msPerMinute in *; lia. }
  destruct (pad2_sound _ Hh) as [Ch Nh]. destruct (pad2_sound _ Hmin) as [Cm Nm].
  split_and!; [|done|done].
  unfold format_HHmm. fold L. rewrite str_append_cons, str_append_nil_l.
  by apply js_split_pair.
Qed.

Lemma list_lookup_pair_0 (a b : string) : [a; b] !! 0%nat = Some a.
Proof. done. Qed.

Lemma list_lookup_pair_1 (a b : string) : [a; b] !! 1%nat = Some b.
Proof. done. Qed.

Lemma editSchema_inr i v :
  editSchema i = inr v -> e_pickupDate i = Some (ev_pickupDate v) /\ ev_pickupTime v = e_pickupTime i.
Proof. unfold editSchema. repeat case_match; intros; simplify_eq; done. Qed.

(** The pickup instant written back by an unchanged form. *)
Lemma edit_pickup_roundtrip tz r t v :
  Z.abs t <= 8640000000000000 ->
  editSchema (editDefaults tz r t) = inr v ->
  editPickupDateTime tz v = toISOString (Some t).
Proof.
  intros Ht Hs. apply editSchema_inr in Hs as [Hd Htm]. cbn in Hd, Htm. injection Hd as Hd.
  unfold editPickupDateTime. rewrite Htm, <- Hd.
  destruct (format_HHmm_split tz t) as (Hsp & Hh & Hm). rewrite Hsp.
  rewrite (list_lookup_pair_0 _ _), (list_lookup_pair_1 _ _). cbn [default id].
  rewrite Hh, Hm. by rewrite setHours_own_time.
Qed.

(** C32 [edit_unchanged_keeps_pickup]: opening the edit dialog on a
    listing whose pickup time parsed to the instant [t] and submitting it
    without changes passes the schema, writes back the same instant
    ([HH:mm] of the local time, split, read by [Number] and set back with
    [setHours] on the same day gives [t] again, in any fixed-offset time
    zone), toasts, refreshes and closes the dialog. *)
Theorem edit_unchanged_keeps_pickup tz r t v d fs log :
  Z.abs t <= 8640000000000000 ->
  editSchema (editDefaults tz r t) = inr v ->
  exists iso, toISOString (Some t) = Some iso /\
    submitEdit tz r (editDefaults tz r t) (mkWorld d (None :: fs) log) =
    (inr true, mkWorld (update_donation (d_id r) v iso d) fs
                 (log ++ [Toast "Donation Updated!" "Your donation details have been successfully updated." false;
                          Refresh])%list).
Proof.
  intros Ht Hs. pose proof (edit_pickup_roundtrip tz r t v Ht Hs) as Hp.
  destruct (toISOString (Some t)) as [iso|] eqn:Ei; [|done]. exists iso. split; [done|].
  unfold submitEdit. rewrite (handleSubmit_valid _ _ _ v _ Hs).
  unfold onSubmitEdit. rewrite Hp. st_run. by rewrite <- app_assoc.
Qed.

Lemma edit_unchanged_keeps_pickup_witness :
  exists iso, toISOString (Some sampleInstant) = Some iso /\
    submitEdit 330 sampleRow (editDefaults 330 sampleRow sampleInstant)
      (mkWorld (mkDB [sampleRow] [] [] [] 8) [None] []) =
    (inr true, mkWorld (update_donation "7"
                          (mkEValues "Veg biryani" (Some "Fresh") 20%Q "Hyderabad" sampleInstant "18:30")
                          iso (mkDB [sampleRow] [] [] [] 8)) []
                 [Toast "Donation Updated!" "Your donation details have been successfully updated." false;
                  Refresh]).
Proof.
  apply (edit_unchanged_keeps_pickup 330 sampleRow sampleInstant
           (mkEValues "Veg biryani" (Some "Fresh") 20%Q "Hyderabad" sampleInstant "18:30")
           (mkDB [sampleRow] [] [] [] 8) [] []); [vm_compute; discriminate | vm_compute; reflexivity].
Defined.

End EditDonation.
