(* ===== verification/Leaderboard.v ===== *)
(** * Leaderboard page ([src/app/dashboard/leaderboard/page.tsx])

    [LeaderboardPage] is a server component.  It sends two queries to
    [profiles], one for the role [Restaurant] and one for [Individual],
    each ordered by [power_coins] descending and limited to 10 rows.  A
    failed query is only logged, and its [data] ([null]) becomes [[]].  Each
    result is mapped to [LeaderboardUser] rows:
    [{ rank: i + 1, name: p.name || 'Anonymous', points: p.power_coins || 0,
       avatar_url: p.avatar_url || '' }].
    [LeaderboardTable] shows a message for an empty list and otherwise one
    row per user, keyed by [rank].

    The database's ordering is modelled by stdpp's stable [merge_sort] on
    the rows in table order: PostgreSQL leaves the order of ties
    unspecified, and the theorems about ranking hold whatever order is
    chosen among equal coin counts.  The theorems show that both tables are
    well formed, that they show the role's highest coin counts, and that a
    failed query cannot be told apart from an empty role. *)

From S2P Require Import Prelude.
From S2P Require Import JsText Backend.
From stdpp Require Import sorting pretty.
Open Scope string_scope.
Local Open Scope Z_scope.

Module Leaderboard.
Import JsText Backend.

(** [type LeaderboardUser]. *)
Record LeaderboardUser := mkLU { rank : Z; name : string; points : Z; lb_avatar_url : string }.

(** [.order('power_coins', { ascending: false })]: [a] may come before
    [b] when it has at least as many coins. *)
Definition coins_desc (a b : ProfileRow) : Prop := power_coins b <= power_coins a.

#[export] Instance coins_desc_dec : RelDecision coins_desc.
Proof. intros a b. unfold coins_desc. apply _. Defined.

(** [.eq('role', r)]: the profiles of role [r], in table order. *)
Definition of_role (r : string) (d : DB) : list ProfileRow := filter (fun p => role p = r) (profiles d).

(** [.from('profiles').select(...).eq('role', r).order(...).limit(10)]. *)
Definition query_top (r : string) (d : DB) : list ProfileRow :=
  take 10 (merge_sort coins_desc (of_role r d)).

(** [{ data }] of the awaited query, with [fault] the error of a failed
    call ([data] is then [null]). *)
Definition query_data (fault : option string) (r : string) (d : DB) : option (list ProfileRow) :=
  match fault with Some _ => None | None => Some (query_top r d) end.

(** [(data || []).map((p, i) => ...)].  [power_coins || 0] is the
    column itself: the column is a number, and [0 || 0] is [0]. *)
Definition toLeaderboard (data : option (list ProfileRow)) : list LeaderboardUser :=
  imap (fun i p => mkLU (Z.of_nat i + 1) (js_or_str (p_name p) "Anonymous") (power_coins p)
                       (js_or_str (p_avatar_url p) "")) (default [] data).

(** One rendered row: its React [key], the rank cell, the avatar image and
    its fallback [item.name.charAt(0)], the name and the counter's value. *)
Record LBRow := mkRow {
  key : Z; rank_cell : Z; avatar_src : string; fallback : string; name_cell : string;
  counter_value : Z
}.

Inductive LBTable := EmptyMessage (msg : string) | Rows (rows : list LBRow).

(** [data.length === 0]: the message shown instead of a table. *)
Definition emptyMessage : LBTable := EmptyMessage "Leaderboard data is not available yet.".

Definition rowView (u : LeaderboardUser) : LBRow :=
  mkRow (rank u) (rank u) (lb_avatar_url u) (charAt0 (name u)) (name u) (points u).

(** [LeaderboardTable({ data })]; the desktop table and the mobile cards
    render the same rows. *)
Definition LeaderboardTable (data : list LeaderboardUser) : LBTable :=
  match data with
  | [] => emptyMessage
  | _ => Rows (rowView <$> data)
  end.

Record LeaderboardView := mkLB { restaurants_tab : LBTable; individuals_tab : LBTable }.

(** One tab: the query for role [r], the mapping and the table. *)
Definition role_tab (r : string) (fault : option string) (d : DB) : LBTable :=
  LeaderboardTable (toLeaderboard (query_data fault r d)).

(** [LeaderboardPage()] on the database [d], [fr] and [fi] the outcomes of
    the two queries. *)
Definition LeaderboardPage (fr fi : option string) (d : DB) : LeaderboardView :=
  mkLB (role_tab "Restaurant" fr d) (role_tab "Individual" fi d).

(** ** Well-formedness of a rendered table

    The rows of a table for role [r] on [d]: keys are the ranks [1..n]
    with [n <= 10], every name is non-empty and its fallback is one character, the
    coin counts do not increase down the table, and each row shows the
    coins of a profile of role [r]. *)
Definition table_wf (r : string) (d : DB) (rs : list LBRow) : Prop :=
  key <$> rs = (fun i => Z.of_nat i + 1) <$> seq 0 (length rs) /\
  (length rs <= 10)%nat /\
  Forall (fun v => name_cell v <> "" /\ String.length (fallback v) = 1%nat) rs /\
  Sorted Z.ge (counter_value <$> rs) /\
  Forall (fun c => exists p, p ∈ profiles d /\ role p = r /\ power_coins p = c) (counter_value <$> rs).

(** A tab as the page may show it: the message, or non-empty well-formed
    rows. *)
Definition tab_ok (r : string) (d : DB) (t : LBTable) : Prop :=
  match t with
  | EmptyMessage m => t = emptyMessage
  | Rows rs => rs <> [] /\ table_wf r d rs
  end.

(** Eleven restaurants with 1 to 11 coins and one individual. *)
Definition sampleProfile (i : Z) (r : string) : ProfileRow :=
  mkProfile ("p" +:+ pretty i) (if bool_decide (i = 3) then None else Some ("user" +:+ pretty i))
    None None i r None None.

Definition sampleProfilesDB : DB :=
  mkDB [] [] (((fun i => sampleProfile (Z.of_nat i + 1) "Restaurant") <$> seq 0 11) ++
              [sampleProfile 20 "Individual"])%list [] 1.

(** ** The query *)

#[export] Instance coins_desc_trans : Transitive coins_desc.
Proof. unfold coins_desc. intros ???; lia. Qed.

#[export] Instance coins_desc_total : Total coins_desc.
Proof. unfold coins_desc. intros a b. lia. Qed.

Lemma sorted_role_perm r d : merge_sort coins_desc (of_role r d) ≡ₚ of_role r d.
Proof. apply merge_sort_Permutation. Qed.

Lemma query_top_sorted r d : StronglySorted coins_desc (query_top r d).
Proof.
  unfold query_top. eapply StronglySorted_app_1_l.
  rewrite take_drop. apply StronglySorted_merge_sort; apply _.
Qed.

Lemma query_top_of_role r d :
  Forall (fun p => p ∈ profiles d /\ role p = r) (query_top r d).
Proof.
  unfold query_top. apply Forall_take. rewrite sorted_role_perm.
  apply Forall_forall. intros p. unfold of_role. rewrite list_elem_of_filter. tauto.
Qed.

Lemma length_query_top r d : length (query_top r d) = min 10 (length (of_role r d)).
Proof. unfold query_top. by rewrite length_take, sorted_role_perm. Qed.

Lemma length_query_top' r d : length (query_top r d) = 0%nat <-> length (of_role r d) = 0%nat.
Proof. rewrite length_query_top. lia. Qed.

(** A profile of role [r] the query leaves out has no more coins than
    any row it returns. *)
Lemma query_top_left_out r d p q :
  p ∈ profiles d -> role p = r -> p ∉ query_top r d -> q ∈ query_top r d ->
  (power_coins p <= power_coins q)%Z.
Proof.
  intros Hp Hr Hout Hq. unfold query_top in *.
  assert (Hin : p ∈ merge_sort coins_desc (of_role r d)).
  { rewrite sorted_role_perm. unfold of_role. by apply list_elem_of_filter. }
  rewrite <- (take_drop 10 (merge_sort coins_desc (of_role r d))) in Hin.
  apply elem_of_app in Hin as [?|Hd]; [done|].
  apply (StronglySorted_app_1_elem_of coins_desc (take 10 (merge_sort coins_desc (of_role r d)))
           (drop 10 (merge_sort coins_desc (of_role r d)))); [|done..].
  rewrite take_drop. apply StronglySorted_merge_sort; apply _.
Qed.

(** ** The rendered rows *)

Lemma toLeaderboard_keys l :
  key <$> (rowView <$> toLeaderboard (Some l)) = (fun i => Z.of_nat i + 1) <$> seq 0 (length l).
Proof.
  unfold toLeaderboard; cbn [default]. rewrite <- list_fmap_compose, fmap_imap.
  rewrite <- (imap_seq_0 l (fun i => Z.of_nat i + 1)). by apply imap_ext.
Qed.

Lemma toLeaderboard_coins l :
  counter_value <$> (rowView <$> toLeaderboard (Some l)) = power_coins <$> l.
Proof.
  unfold toLeaderboard; cbn [default]. rewrite <- list_fmap_compose, fmap_imap.
  rewrite <- imap_const. by apply imap_ext.
Qed.

Lemma length_toLeaderboard l : length (rowView <$> toLeaderboard (Some l)) = length l.
Proof. unfold toLeaderboard. by rewrite length_fmap, length_imap. Qed.

Lemma toLeaderboard_names l :
  Forall (fun v => name_cell v <> "" /\ String.length (fallback v) = 1%nat)
    (rowView <$> toLeaderboard (Some l)).
Proof.
  unfold toLeaderboard; cbn [default]. rewrite fmap_imap.
  apply Forall_imap_intro. intros i p _; cbn.
  assert (js_or_str (p_name p) "Anonymous" <> "") by (apply js_or_str_nonempty; done).
  split; [done|]. by apply charAt0_length.
Qed.

Lemma LeaderboardTable_rows data :
  data <> [] -> LeaderboardTable data = Rows (rowView <$> data).
Proof. by destruct data. Qed.

(** The table drawn from any query result of role [r] is the message or
    well-formed rows. *)
Lemma table_of_query r d l :
  StronglySorted coins_desc l -> (length l <= 10)%nat ->
  Forall (fun p => p ∈ profiles d /\ role p = r) l ->
  match LeaderboardTable (toLeaderboard (Some l)) with
  | EmptyMessage m => l = [] /\ m = "Leaderboard data is not available yet."
  | Rows rs => table_wf r d rs
  end.
Proof.
  intros Hs Hlen Hr. destruct l as [|p0 l0]; [done|].
  rewrite LeaderboardTable_rows by (unfold toLeaderboard; cbn; done).
  set (l := p0 :: l0). unfold table_wf.
  rewrite toLeaderboard_keys, length_toLeaderboard, toLeaderboard_coins.
  split_and!; [done | done | apply toLeaderboard_names | |].
  - eapply Sorted_fmap; [|by apply StronglySorted_Sorted]. unfold coins_desc. intros ??; lia.
  - apply Forall_fmap. eapply Forall_impl; [exact Hr|]. intros p []; cbn. by exists p.
Qed.

Lemma role_tab_ok r f d : tab_ok r d (role_tab r f d).
Proof.
  unfold role_tab, query_data. destruct f as [m|]; [done|].
  pose proof (table_of_query r d (query_top r d) (query_top_sorted r d)) as H.
  specialize (H ltac:(rewrite length_query_top; lia) (query_top_of_role r d)).
  destruct (LeaderboardTable _) as [m|rs] eqn:E; cbn.
  - by destruct H as [_ ->].
  - split; [|done]. intros ->. by destruct (toLeaderboard _).
Qed.

(** C22 [leaderboard_wf]: whatever the outcomes of its two queries, each
    tab of the leaderboard page shows either the message [Leaderboard data
    is not available yet.] or a non-empty table whose React keys are the
    ranks 1, 2, ..., n with n at most 10, whose names are non-empty with a
    one-letter avatar fallback, whose coin counts do not increase down the
    table, and whose every count is that of a profile of the tab's role. *)
Theorem leaderboard_tables_well_formed fr fi d :
  tab_ok "Restaurant" d (restaurants_tab (LeaderboardPage fr fi d)) /\
  tab_ok "Individual" d (individuals_tab (LeaderboardPage fr fi d)).
Proof. split; apply role_tab_ok. Qed.

(** C23 [leaderboard_top]: when the query for a role succeeds, its tab
    shows min(10, number of profiles of the role) rows with exactly the coin
    counts of the query's rows, and every profile of the role that the
    query leaves out has no more coins than any row shown. *)
Theorem leaderboard_shows_top r d rs :
  role_tab r None d = Rows rs ->
  length rs = min 10 (length (of_role r d)) /\
  counter_value <$> rs = power_coins <$> query_top r d /\
  forall p, p ∈ profiles d -> role p = r -> p ∉ query_top r d ->
    Forall (fun c => (power_coins p <= c)%Z) (counter_value <$> rs).
Proof.
  unfold role_tab, query_data. intros Hrs.
  assert (E : rs = rowView <$> toLeaderboard (Some (query_top r d))).
  { destruct (query_top r d) eqn:Eq; cbn in Hrs; [done|]. by injection Hrs. }
  subst rs. rewrite length_toLeaderboard, length_query_top, toLeaderboard_coins.
  split_and!; [done..|]. intros p Hp Hr Hout.
  apply Forall_fmap, Forall_forall. intros q Hq. by eapply query_top_left_out.
Qed.

(** a failed query is only logged: its
    tab shows the same message as a role with no profile at all, and a
    successful query shows the message exactly when no profile has the
    role. *)
Theorem leaderboard_error_masked r msg d :
  role_tab r (Some msg) d = emptyMessage /\
  (role_tab r None d = emptyMessage <-> of_role r d = []).
Proof.
  split; [done|]. unfold role_tab, query_data.
  rewrite <- (length_zero_iff_nil (of_role r d)), <- length_query_top'.
  destruct (query_top r d); cbn; [done|]. split; [done|lia].
Qed.

Lemma leaderboard_shows_top_witness :
  let rs := match role_tab "Restaurant" None sampleProfilesDB with Rows rs => rs | _ => [] end in
  role_tab "Restaurant" None sampleProfilesDB = Rows rs /\
  Forall (fun c => (1 <= c)%Z) (counter_value <$> rs).
Proof.
  intros rs. assert (E : role_tab "Restaurant" None sampleProfilesDB = Rows rs) by (vm_compute; reflexivity).
  split; [exact E|].
  apply (proj2 (proj2 (leaderboard_shows_top "Restaurant" sampleProfilesDB rs E)) (sampleProfile 1 "Restaurant")).
  - decide_eval.
  - reflexivity.
  - decide_eval.
Defined.

End Leaderboard.
