(* ===== verification/Orders.v ===== *)
(** * Order pages ([src/app/dashboard/orders/page.tsx] and
    [src/app/dashboard/orders/[id]/page.tsx])

    [OrdersPage] loads the signed-in user's orders, newest first, each
    with its donation's title.  It renders a loading line, an empty-history
    line, or one row per order that links to [/dashboard/orders/<id>].
    [OrderDetailsPage] loads one order by its id with [.single()], together
    with its donation and the lister's name.  It renders a skeleton while
    loading, [Order not found] when the fetch failed, and otherwise the
    order's summary.  The delivery fee and the agent's points appear only
    when [pickup_method === 'Delivery'].

    The [orders] table is [Backend.orders] in insertion order.  The model
    takes two facts about that table from the backend: the [id] column is
    a serial (the order at position [i] has id [i + 1]), and [created_at]
    increases with insertion.  So [.order('created_at', { ascending: false })]
    is the reverse of the table order.  The points columns
    [donor_points_earned] and [agent_points_earned] are never written by
    the client.  Their value is a parameter of the detail query: the
    column default, which is not part of the repository.

    A [null] join makes both pages throw while rendering
    ([item.donations.title] and the destructuring
    [const { profiles: { name } } = donations]).  The view types have a
    constructor for that [TypeError]. *)

From S2P Require Import Prelude.
From S2P Require Import Backend.
From S2P Require Import DonationDetails.
From stdpp Require Import pretty.
Open Scope string_scope.
Local Open Scope Z_scope.

Module Orders.
Import Backend DonationDetails.

(** [orders.id] of the order at position [i]: a serial from 1. *)
Definition order_id (i : nat) : string := pretty (S i).

(** The orders with their position, the [created_at] order. *)
Definition indexed_orders (d : DB) : list (nat * OrderRow) := imap pair (orders d).

(** The donation an order references, [donations ( ... )]: [null] when no
    row has that id. *)
Definition donation_of (o : OrderRow) (d : DB) : option DonationRow :=
  head (donation_rows (o_donation_id o) d).

(** The lister's profile of a donation, [profiles ( name )]. *)
Definition lister_profile (r : DonationRow) (d : DB) : option ProfileRow :=
  js_find (fun p => bool_decide (p_id p = lister_id r)) (profiles d).

(** ** The order history *)

(** [type OrderHistory]; [h_title] is [donations.title], [None] when the
    joined donation is [null]. *)
Record OrderHistory := mkHist {
  h_id : string; h_created_at : nat; h_status : string; h_title : option string
}.

Definition history_of (io : nat * OrderRow) (d : DB) : OrderHistory :=
  mkHist (order_id io.1) io.1 (o_status io.2) (title <$> donation_of io.2 d).

(** [.from('orders').select('id, created_at, status, donations ( title )')
     .eq('receiver_id', user.id).order('created_at', { ascending: false })] *)
Definition orders_query (uid : string) (d : DB) : list OrderHistory :=
  reverse ((fun io => history_of io d) <$> filter (fun io => receiver_id io.2 = uid) (indexed_orders d)).

Record OrdersState := mkOrders { orderHistory : list OrderHistory; loading : bool }.

(** [useState([])], [useState(true)]. *)
Definition initialOrders : OrdersState := mkOrders [] true.

(** [fetchOrders], run by the effect on mount: [user] is the result of
    [auth.getUser()], [fault] the error of the query.  A failed query is
    only logged. *)
Definition fetchOrders (user : option AuthUser) (fault : option string) (d : DB)
    (s : OrdersState) : OrdersState :=
  let s := mkOrders (orderHistory s) true in
  let s := match user with
           | Some u => match fault with
                       | Some _ => s
                       | None => mkOrders (orders_query (uid u) d) (loading s)
                       end
           | None => s
           end in
  mkOrders (orderHistory s) false.

(** [getStatusBadge(status)] of the orders page. *)
Definition orderStatusBadge (status : string) : string :=
  if bool_decide (status = "Delivered") then "bg-green-500/20 text-green-700 hover:bg-green-500/30"
  else if bool_decide (status = "In Transit") then "bg-blue-500/20 text-blue-700 hover:bg-blue-500/30"
  else "bg-muted hover:bg-muted/80".

(** One row of the history: its React [key], the link target, the
    [created_at] cell (the locale formatting is not modelled), the title
    and the status badge. *)
Record HistoryRow := mkHRow {
  hr_key : string; hr_href : string; hr_date : nat; hr_food : string;
  hr_badge : string; hr_status : string
}.

(** [item.donations.title]: [None] when [item.donations] is [null], the
    [TypeError] of the render. *)
#[export] Instance HistoryRow_eq_dec : EqDecision HistoryRow.
Proof. solve_decision. Defined.

Definition historyRow (h : OrderHistory) : option HistoryRow :=
  t ← h_title h;
  Some (mkHRow (h_id h) ("/dashboard/orders/" +:+ h_id h) (h_created_at h) t
          (orderStatusBadge (h_status h)) (h_status h)).

Inductive OrdersView :=
  | OrdersLoading | NoOrders | OrdersTable (rows : list HistoryRow) | OrdersTypeError.

(** The render of [OrdersPage]. *)
Definition OrdersPageView (s : OrdersState) : OrdersView :=
  if loading s then OrdersLoading else
  match orderHistory s with
  | [] => NoOrders
  | hs => match mapM historyRow hs with
          | Some rows => OrdersTable rows
          | None => OrdersTypeError
          end
  end.

(** ** The order details *)

(** [donations ( title, location, image_url, image_hint, profiles ( name ) )];
    [jd_lister] is [None] when the lister has no profile row. *)
Record JoinedDonation := mkJD {
  jd_title : string; jd_location : string; jd_image_url : option string;
  jd_image_hint : string; jd_lister : option (option string)
}.

(** [type OrderDetails] as the query returns it ([select('*, donations (...)')]). *)
Record OrderDetails := mkOD {
  od_id : string; od_created_at : nat; od_status : string; od_pickup_method : string;
  od_delivery_fee : Z; od_donor_points : option Z; od_agent_points : option Z;
  od_donation : option JoinedDonation
}.

(** The message of [.single()] when the filter does not select exactly one row. *)
Definition single_error : string := "JSON object requested, multiple (or no) rows returned".

Section Details.
(** The default of the points columns, which no client code writes. *)
Context (points_default : option Z).

Definition joined (r : DonationRow) (d : DB) : JoinedDonation :=
  mkJD (title r) (location r) (image_url r) (image_hint r) (p_name <$> lister_profile r d).

Definition details_of (io : nat * OrderRow) (d : DB) : OrderDetails :=
  mkOD (order_id io.1) io.1 (o_status io.2) (pickup_method io.2) (delivery_fee io.2)
    points_default points_default ((fun r => joined r d) <$> donation_of io.2 d).

(** [.from('orders').select(...).eq('id', orderId).single()], [fault] the
    error of a failed call. *)
Definition order_query (fault : option string) (orderId : string) (d : DB) : string + OrderDetails :=
  match fault with
  | Some m => inl m
  | None =>
      match filter (fun io => order_id io.1 = orderId) (indexed_orders d) with
      | [io] => inr (details_of io d)
      | _ => inl single_error
      end
  end.

End Details.

(** [params.id]: a string, an array of strings, or absent. *)
Inductive Param := PStr (s : string) | PArr (l : list string) | PNone.

(** [Array.isArray(params.id) ? params.id[0] : params.id]. *)
Definition orderIdOf (p : Param) : option string :=
  match p with PStr s => Some s | PArr l => head l | PNone => None end.

Record DetailState := mkDetail { order : option OrderDetails; d_loading : bool }.

Definition initialDetail : DetailState := mkDetail None true.

(** The effect: [if (!orderId) return;], otherwise [fetchOrder]:
    [setLoading(true)], the query for [orderId], then [setOrder(data)] or
    [setOrder(null)], and [setLoading(false)]. *)
Definition fetchOrder (orderId : option string) (query : string -> string + OrderDetails)
    (s : DetailState) : DetailState :=
  match orderId with
  | None => s
  | Some id =>
      if bool_decide (id = "") then s else
      let s := mkDetail (order s) true in
      let s := match query id with
               | inl _ => mkDetail None (d_loading s)
               | inr od => mkDetail (Some od) (d_loading s)
               end in
      mkDetail (order s) false
  end.

Inductive Icon := TruckIcon | UserIcon.

(** The rendered summary: the image, the title, [Donated by {donor} on
    {date}], the two locations, the pickup method with its icon, the
    delivery fee line, the donor's points and the agent's points line. *)
Record OrderSummary := mkDV {
  image : ImageSrc; dv_title : string; donor : option string; dv_date : nat;
  from_location : string; to_location : string; method_icon : Icon; method_text : string;
  fee_line : option Z; donor_points : Z; agent_points_line : option Z
}.

Inductive OrderPageView :=
  | OrderSkeleton | OrderNotFound | OrderDetailsShown (v : OrderSummary) | OrderTypeError.

(** [x || 0] on a nullable number column. *)
Definition or_zero (x : option Z) : Z := match x with Some n => n | None => 0 end.

(** The render of [OrderDetailsPage]. *)
Definition OrderDetailsView (s : DetailState) : OrderPageView :=
  if d_loading s then OrderSkeleton else
  match order s with
  | None => OrderNotFound
  | Some od =>
      match od_donation od with
      | None => OrderTypeError
      | Some jd =>
          match jd_lister jd with
          | None => OrderTypeError
          | Some donorName =>
              let isDelivery := bool_decide (od_pickup_method od = "Delivery") in
              OrderDetailsShown
                (mkDV (getPublicUrl "donations" (jd_image_url jd)) (jd_title jd) donorName
                   (od_created_at od) (jd_location jd) "Your Location, Bengaluru"
                   (if isDelivery then TruckIcon else UserIcon) (od_pickup_method od)
                   (if isDelivery then Some (od_delivery_fee od) else None)
                   (or_zero (od_donor_points od))
                   (if isDelivery then Some (or_zero (od_agent_points od)) else None))
          end
      end
  end.

(** The detail page for the route parameter [p] on [d]: mount, the
    effect, render. *)
Definition OrderDetailsPage (points_default : option Z) (fault : option string)
    (p : Param) (d : DB) : OrderPageView :=
  OrderDetailsView (fetchOrder (orderIdOf p) (fun id => order_query points_default fault id d)
                      initialDetail).

(** Two receivers' reservations of the sample listing: [r-1] reserved
    it twice (delivery, then pickup), [r-2] once. *)
Definition sampleOrdersDB : DB :=
  mkDB (donations sampleDB)
    [mkOrder "7" "r-1" "Reserved" "delivery" 50; mkOrder "7" "r-2" "Reserved" "pickup" 0;
     mkOrder "7" "r-1" "Reserved" "pickup" 0]
    (profiles sampleDB) (objects sampleDB) (next_id sampleDB).

(** ** Order ids and the indexed table *)

Lemma pretty_N_go_nonempty x s : s <> "" -> pretty_N_go x s <> "".
Proof.
  revert s. induction (N.lt_wf_0 x) as [x _ IH]; intros s Hs.
  destruct (decide (x = 0%N)) as [->|Hx]; [by rewrite pretty_N_go_0|].
  rewrite pretty_N_go_step by lia. apply IH; [apply N.div_lt; lia | done].
Qed.

Lemma order_id_nonempty i : order_id i <> "".
Proof.
  unfold order_id, pretty, pretty_nat. unfold pretty, pretty_N.
  case_decide; [done|]. rewrite pretty_N_go_step by lia. by apply pretty_N_go_nonempty.
Qed.

#[export] Instance order_id_inj : Inj eq eq order_id.
Proof. intros i j E. apply (inj pretty) in E. lia. Qed.

Lemma elem_of_indexed_orders d io : io ∈ indexed_orders d <-> orders d !! io.1 = Some io.2.
Proof.
  destruct io as [i o]. unfold indexed_orders. rewrite list_elem_of_lookup. split.
  - intros [j (o' & Ho & [= -> ->])%list_lookup_imap_Some]. done.
  - intros H. exists i. rewrite list_lookup_imap. cbn in H. by rewrite H.
Qed.

Lemma indexed_orders_keys d : NoDup ((fun io => order_id io.1) <$> indexed_orders d).
Proof.
  unfold indexed_orders. rewrite fmap_imap.
  rewrite (imap_ext _ (fun n _ => order_id n)) by done.
  rewrite imap_seq_0. apply NoDup_fmap_2; [apply _ | apply NoDup_seq].
Qed.

(** The query of the detail page finds the order at position [i] by its id. *)
Lemma order_query_at pd d i o :
  orders d !! i = Some o -> order_query pd None (order_id i) d = inr (details_of pd (i, o) d).
Proof.
  intros Ho. unfold order_query.
  rewrite (filter_key_unique (fun io : nat * OrderRow => order_id io.1) _ (i, o)).
  - done.
  - apply indexed_orders_keys.
  - by apply elem_of_indexed_orders.
Qed.

(** The page state after mounting on the route of the order at [i]. *)
Lemma fetchOrder_at pd d i o :
  orders d !! i = Some o ->
  fetchOrder (Some (order_id i)) (fun id => order_query pd None id d) initialDetail =
  mkDetail (Some (details_of pd (i, o) d)) false.
Proof.
  intros Ho. unfold fetchOrder. rewrite bool_decide_false by apply order_id_nonempty.
  by rewrite (order_query_at pd d i o Ho).
Qed.

Lemma elem_of_orders_query uid d h :
  h ∈ orders_query uid d <->
  exists i o, orders d !! i = Some o /\ receiver_id o = uid /\ h = history_of (i, o) d.
Proof.
  unfold orders_query. rewrite elem_of_reverse, list_elem_of_fmap. split.
  - intros ([i o] & -> & Hin). apply list_elem_of_filter in Hin as [Hr Hin].
    apply elem_of_indexed_orders in Hin. by exists i, o.
  - intros (i & o & Ho & Hr & ->). exists (i, o). split; [done|].
    apply list_elem_of_filter. split; [done|]. by apply elem_of_indexed_orders.
Qed.

Lemma historyRow_None h : historyRow h = None <-> h_title h = None.
Proof. unfold historyRow. by destruct (h_title h). Qed.

Lemma fetchOrders_signed_in u d :
  fetchOrders (Some u) None d initialOrders = mkOrders (orders_query (uid u) d) false.
Proof. done. Qed.

(** The rows of a rendered history, one per entry of the query. *)
Lemma historyRows_spec hs rows :
  mapM historyRow hs = Some rows ->
  Forall2 (fun h r => h_title h = Some (hr_food r) /\ hr_key r = h_id h /\
             hr_href r = "/dashboard/orders/" +:+ h_id h /\ hr_date r = h_created_at h /\
             hr_status r = h_status h) hs rows.
Proof.
  intros H%mapM_Some. eapply Forall2_impl; [exact H|].
  intros h r. unfold historyRow. destruct (h_title h); cbn; [|done]. by intros [= <-].
Qed.

Lemma OrdersPageView_table hs rows :
  OrdersPageView (mkOrders hs false) = OrdersTable rows -> mapM historyRow hs = Some rows.
Proof.
  unfold OrdersPageView; cbn -[mapM]. destruct hs as [|h hs]; [done|].
  destruct (mapM historyRow (h :: hs)); [by intros [= ->] | done].
Qed.

Lemma OrdersPageView_error hs :
  OrdersPageView (mkOrders hs false) = OrdersTypeError <-> mapM historyRow hs = None.
Proof.
  unfold OrdersPageView; cbn -[mapM]. destruct hs as [|h hs]; [done|].
  by destruct (mapM historyRow (h :: hs)).
Qed.

(** Every rendered row of the signed-in user's history shows one of the
    user's orders: its id, position, status and donation title. *)
Lemma history_rows_facts u d rows :
  OrdersPageView (fetchOrders (Some u) None d initialOrders) = OrdersTable rows ->
  Forall (fun r => hr_key r = order_id (hr_date r) /\
                   hr_href r = "/dashboard/orders/" +:+ hr_key r /\
                   exists o dr, orders d !! hr_date r = Some o /\ receiver_id o = uid u /\
                     hr_status r = o_status o /\ donation_of o d = Some dr /\
                     hr_food r = title dr) rows.
Proof.
  rewrite fetchOrders_signed_in. intros H%OrdersPageView_table%historyRows_spec.
  apply Forall_forall. intros r Hr.
  apply list_elem_of_lookup in Hr as [k Hk].
  destruct (Forall2_lookup_r _ _ _ _ _ H Hk) as (h & Hh & Ht & Hkey & Hhref & Hdate & Hst).
  apply list_elem_of_lookup_2, elem_of_orders_query in Hh as (i & o & Ho & Hrc & ->).
  cbn [history_of h_id h_created_at h_status h_title fst snd] in *.
  rewrite Hdate, Hkey. split_and!; [done | done |].
  destruct (donation_of o d) as [dr|] eqn:Edr; [|done]. injection Ht as Ht.
  exists o, dr. by split_and!.
Qed.

(** The indices of a user's orders, newest first, as the query returns them. *)
Lemma orders_query_dates uid d :
  h_created_at <$> orders_query uid d =
  reverse (fst <$> filter (fun io => receiver_id io.2 = uid) (indexed_orders d)).
Proof. unfold orders_query. by rewrite fmap_reverse, <- list_fmap_compose. Qed.

Lemma orders_query_ids uid d :
  h_id <$> orders_query uid d = order_id <$> (h_created_at <$> orders_query uid d).
Proof.
  unfold orders_query. by rewrite !fmap_reverse, <- !list_fmap_compose.
Qed.

Lemma orders_query_dates_sorted uid d : Sorted gt (h_created_at <$> orders_query uid d).
Proof.
  rewrite orders_query_dates. apply Sorted_reverse, StronglySorted_Sorted.
  eapply StronglySorted_fmap; [|apply StronglySorted_filter].
  - intros a b Hab. exact Hab.
  - unfold indexed_orders. rewrite (imap_ext pair (fun k x => (0 + k, x)%nat)) by done.
    apply imap_pair_sorted.
Qed.

Lemma orders_query_dates_nodup uid d : NoDup (h_created_at <$> orders_query uid d).
Proof.
  rewrite orders_query_dates, reverse_Permutation.
  apply (NoDup_fmap_filter fst). unfold indexed_orders. rewrite fmap_imap.
  rewrite (imap_ext _ (fun n _ => n)) by done. rewrite imap_seq_0, list_fmap_id. apply NoDup_seq.
Qed.

(** The rows' projections are those of the query's entries. *)
Lemma history_rows_proj u d rows :
  OrdersPageView (fetchOrders (Some u) None d initialOrders) = OrdersTable rows ->
  hr_date <$> rows = h_created_at <$> orders_query (uid u) d /\
  hr_key <$> rows = h_id <$> orders_query (uid u) d.
Proof.
  rewrite fetchOrders_signed_in. intros H%OrdersPageView_table%historyRows_spec.
  split; symmetry; (eapply Forall2_fmap_eq; [exact H|]); naive_solver.
Qed.

(** ** Reservations seen from the order pages *)

Lemma donation_rows_set_status id st d :
  donation_rows id (set_donation_status id st d) =
  (fun r => mkDonation (d_id r) (lister_id r) (title r) (description r) (serves r)
              (location r) (pickup_time r) (image_url r) (image_hint r) st) <$> donation_rows id d.
Proof.
  unfold donation_rows, set_donation_status; cbn [donations].
  induction (donations d) as [|r rs IH]; [done|].
  rewrite fmap_cons, !filter_cons. case_bool_decide as E.
  - rewrite !decide_True by done. by rewrite fmap_cons, IH.
  - rewrite !decide_False by done. exact IH.
Qed.

(** After a successful reservation the new order is the last row of
    [orders] and its donation and lister still join. *)
Lemma reserved_order_joins donation u opt d r p :
  head (donation_rows (d_id (row donation)) d) = Some r -> lister_profile r d = Some p ->
  let d' := set_donation_status (d_id (row donation)) "Reserved"
              (insert_order (reservation_order donation u opt) d) in
  orders d' !! length (orders d) = Some (reservation_order donation u opt) /\
  exists r', donation_of (reservation_order donation u opt) d' = Some r' /\
    lister_profile r' d' = Some p /\ title r' = title r /\ location r' = location r /\
    image_url r' = image_url r.
Proof.
  intros Hr Hp d'. split.
  - subst d'. rewrite set_status_orders. cbn. by rewrite list_lookup_middle.
  - unfold donation_of. cbn [reservation_order o_donation_id]. subst d'.
    rewrite donation_rows_set_status.
    change (donation_rows ?id (insert_order _ d)) with (donation_rows id d).
    destruct (donation_rows (d_id (row donation)) d) as [|r0 rs]; [done|].
    injection Hr as ->. eexists; split; [done|]. split_and!; [exact Hp | done..].
Qed.

(** C20 [orders_history_wf]: once the signed-in user's history has loaded
    and renders as a table, its rows are keyed by distinct order ids, are
    newest first, each links to [/dashboard/orders/<id>] and shows one of
    the user's own orders with its status and its donation's title, and
    every order of the user has a row. *)
Theorem orders_history_well_formed u d rows :
  OrdersPageView (fetchOrders (Some u) None d initialOrders) = OrdersTable rows ->
  NoDup (hr_key <$> rows) /\
  Sorted gt (hr_date <$> rows) /\
  Forall (fun r => hr_key r = order_id (hr_date r) /\
                   hr_href r = "/dashboard/orders/" +:+ hr_key r /\
                   exists o dr, orders d !! hr_date r = Some o /\ receiver_id o = uid u /\
                     hr_status r = o_status o /\ donation_of o d = Some dr /\
                     hr_food r = title dr) rows /\
  (forall i o, orders d !! i = Some o -> receiver_id o = uid u -> exists r, r ∈ rows /\ hr_date r = i).
Proof.
  intros H. pose proof (history_rows_proj u d rows H) as [Hdates Hkeys].
  split_and!.
  - rewrite Hkeys, orders_query_ids. apply NoDup_fmap_2; [apply _|]. apply orders_query_dates_nodup.
  - rewrite Hdates. apply orders_query_dates_sorted.
  - by apply history_rows_facts.
  - intros i o Ho Hr.
    assert (Hi : i ∈ hr_date <$> rows).
    { rewrite Hdates. apply list_elem_of_fmap. exists (history_of (i, o) d). split; [done|].
      apply elem_of_orders_query. by exists i, o. }
    apply list_elem_of_fmap in Hi as (r & -> & Hr'). by exists r.
Qed.

(** C21 [order_link_roundtrip]: following the link of any row of the
    loaded history opens the details page on the same order: the fetch
    by that id succeeds with the row's id, date and status, and the
    donation title the row showed. *)
Theorem order_link_roundtrip pd u d rows r :
  OrdersPageView (fetchOrders (Some u) None d initialOrders) = OrdersTable rows -> r ∈ rows ->
  exists od,
    fetchOrder (orderIdOf (PStr (hr_key r))) (fun id => order_query pd None id d) initialDetail =
      mkDetail (Some od) false /\
    od_id od = hr_key r /\ od_created_at od = hr_date r /\ od_status od = hr_status r /\
    jd_title <$> od_donation od = Some (hr_food r).
Proof.
  intros H Hr. eapply Forall_forall in Hr; [|exact (history_rows_facts u d rows H)].
  destruct Hr as (Hkey & _ & o & dr & Ho & _ & Hst & Hdr & Hfood).
  exists (details_of pd (hr_date r, o) d). cbn [orderIdOf]. rewrite Hkey.
  rewrite (fetchOrder_at pd d _ o Ho). split_and!; try done.
  unfold details_of; cbn. by rewrite Hdr, Hfood.
Qed.

(** A signed-in user's history page throws exactly when one of the user's
    orders references a donation that no longer exists. *)
Lemma orders_page_throws u d :
  OrdersPageView (fetchOrders (Some u) None d initialOrders) = OrdersTypeError <->
  exists i o, orders d !! i = Some o /\ receiver_id o = uid u /\ donation_of o d = None.
Proof.
  rewrite fetchOrders_signed_in, OrdersPageView_error, mapM_None, Exists_exists.
  setoid_rewrite historyRow_None. setoid_rewrite elem_of_orders_query. split.
  - intros (h & (i & o & Ho & Hr & ->) & Ht). exists i, o. split_and!; [done | done |].
    cbn in Ht. by destruct (donation_of o d).
  - intros (i & o & Ho & Hr & Hn). exists (history_of (i, o) d).
    split; [by exists i, o | cbn; by rewrite Hn].
Qed.

Lemma details_throw_without_donation pd d i o :
  orders d !! i = Some o -> donation_of o d = None ->
  OrderDetailsPage pd None (PStr (order_id i)) d = OrderTypeError.
Proof.
  intros Ho Hn. unfold OrderDetailsPage; cbn [orderIdOf]. rewrite (fetchOrder_at pd d i o Ho).
  unfold OrderDetailsView, details_of; cbn. by rewrite Hn.
Qed.

(** C27 [orders_error_paths]: a signed-out visitor and a failed query
    both see [You have no order history yet.]; for a signed-in user whose
    query succeeds the render throws exactly when one of the user's
    orders references a donation that no longer exists. *)
Theorem orders_page_error_paths u m d :
  OrdersPageView (fetchOrders None None d initialOrders) = NoOrders /\
  OrdersPageView (fetchOrders (Some u) (Some m) d initialOrders) = NoOrders /\
  (OrdersPageView (fetchOrders (Some u) None d initialOrders) = OrdersTypeError <->
   exists i o, orders d !! i = Some o /\ receiver_id o = uid u /\ donation_of o d = None).
Proof. split_and!; [done | done | apply orders_page_throws]. Qed.

(** C19 [delivery_shown_as_pickup]: a successful reservation with the
    default option [delivery] stores an order with pickup method
    [delivery] and a delivery fee of 50; its details page compares the
    method with ['Delivery'], so it shows the pickup icon and neither the
    delivery fee nor the agent's points. *)
Theorem delivery_reservation_shown_as_pickup pd donation u d fs log r p :
  d_id (row donation) <> "" ->
  head (donation_rows (d_id (row donation)) d) = Some r -> lister_profile r d = Some p ->
  let w := snd (handleConfirmReservation donation (Some u) "delivery"
                  (mkWorld d (None :: None :: fs) log)) in
  let i := length (orders d) in
  (exists o, orders (db w) !! i = Some o /\ pickup_method o = "delivery" /\ delivery_fee o = 50) /\
  exists v, OrderDetailsPage pd None (PStr (order_id i)) (db w) = OrderDetailsShown v /\
    method_icon v = UserIcon /\ method_text v = "delivery" /\
    fee_line v = None /\ agent_points_line v = None.
Proof.
  intros Hid Hr Hp w i. subst w i. rewrite reservation_success by done. cbn [snd db].
  destruct (reserved_order_joins donation u "delivery" d r p Hr Hp) as (Ho & r' & Hj & Hp' & _).
  split; [by eexists; split_and! |].
  unfold OrderDetailsPage; cbn [orderIdOf]. rewrite (fetchOrder_at pd _ _ _ Ho).
  unfold OrderDetailsView, details_of; cbn [d_loading order od_donation fst snd].
  rewrite Hj; cbn. unfold lister_profile in Hp'; cbn in Hp'. rewrite Hp'; cbn.
  rewrite bool_decide_false by done.
  by eexists.
Qed.

(** C28 [order_details_error_paths]: the details page without an id (or
    with an empty one) never fetches and shows its skeleton for good; a
    failed fetch or an id no order has shows [Order not found]; and an
    existing order whose donation is gone, or whose lister has no profile,
    makes the render throw. *)
Theorem order_details_error_paths pd fault p d id m i o r :
  (orderIdOf p = None \/ orderIdOf p = Some "" -> OrderDetailsPage pd fault p d = OrderSkeleton) /\
  (id <> "" -> OrderDetailsPage pd (Some m) (PStr id) d = OrderNotFound) /\
  (id <> "" -> (forall j, order_id j = id -> orders d !! j = None) ->
     OrderDetailsPage pd None (PStr id) d = OrderNotFound) /\
  (orders d !! i = Some o -> donation_of o d = None ->
     OrderDetailsPage pd None (PStr (order_id i)) d = OrderTypeError) /\
  (orders d !! i = Some o -> donation_of o d = Some r -> lister_profile r d = None ->
     OrderDetailsPage pd None (PStr (order_id i)) d = OrderTypeError).
Proof.
  split_and!.
  - unfold OrderDetailsPage. intros [->| ->]; [done|]. cbn. by rewrite bool_decide_true.
  - intros Hid. unfold OrderDetailsPage; cbn. by rewrite bool_decide_false.
  - intros Hid Hnone. unfold OrderDetailsPage; cbn [orderIdOf fetchOrder].
    rewrite bool_decide_false by done. unfold order_query.
    rewrite (filter_key_absent (fun io : nat * OrderRow => order_id io.1) _ id); [done|].
    intros ([j o'] & Hj & Hin)%list_elem_of_fmap. apply elem_of_indexed_orders in Hin.
    cbn in *. rewrite Hnone in Hin; congruence.
  - apply details_throw_without_donation.
  - intros Ho Hr Hl. unfold OrderDetailsPage; cbn [orderIdOf]. rewrite (fetchOrder_at pd d i o Ho).
    unfold OrderDetailsView, details_of; cbn -[lister_profile]. rewrite Hr; cbn -[lister_profile].
    by rewrite Hl.
Qed.

Lemma orders_history_well_formed_witness :
  let rows := match OrdersPageView (fetchOrders (Some (mkAuthUser "r-1" None)) None
                                     sampleOrdersDB initialOrders) with
              | OrdersTable rows => rows | _ => [] end in
  NoDup (hr_key <$> rows) /\ hr_key <$> rows = ["3"; "1"].
Proof.
  intros rows.
  assert (E : OrdersPageView (fetchOrders (Some (mkAuthUser "r-1" None)) None sampleOrdersDB
                                initialOrders) = OrdersTable rows) by (vm_compute; reflexivity).
  split; [exact (proj1 (orders_history_well_formed _ _ _ E)) | vm_compute; reflexivity].
Defined.

Lemma order_link_roundtrip_witness :
  exists od,
    fetchOrder (orderIdOf (PStr "3")) (fun id => order_query None None id sampleOrdersDB)
      initialDetail = mkDetail (Some od) false /\
    od_id od = "3" /\ od_created_at od = 2%nat /\ od_status od = "Reserved" /\
    jd_title <$> od_donation od = Some "Veg biryani".
Proof.
  apply (order_link_roundtrip None (mkAuthUser "r-1" None) sampleOrdersDB
           (match OrdersPageView (fetchOrders (Some (mkAuthUser "r-1" None)) None
                                    sampleOrdersDB initialOrders) with
            | OrdersTable rows => rows | _ => [] end)
           (mkHRow "3" "/dashboard/orders/3" 2 "Veg biryani"
              (orderStatusBadge "Reserved") "Reserved")).
  - vm_compute; reflexivity.
  - decide_eval.
Defined.

Lemma delivery_reservation_shown_as_pickup_witness :
  exists v, OrderDetailsPage None None (PStr (order_id 0))
    (db (snd (handleConfirmReservation sampleDonation (Some (mkAuthUser "r-1" None)) "delivery"
                (mkWorld sampleDB [None; None] [])))) = OrderDetailsShown v /\
    method_icon v = UserIcon /\ method_text v = "delivery" /\
    fee_line v = None /\ agent_points_line v = None.
Proof.
  exact (proj2 (delivery_reservation_shown_as_pickup None sampleDonation (mkAuthUser "r-1" None)
                  sampleDB [] [] (row sampleDonation) (mkProfile "owner-1" (Some "Asha")
                  (Some "asha@example.com") None 0 "Restaurant" None None)
                  ltac:(discriminate) ltac:(reflexivity) ltac:(vm_compute; reflexivity))).
Defined.

Lemma order_details_error_paths_witness :
  OrderDetailsPage None None (PStr "9") sampleOrdersDB = OrderNotFound.
Proof.
  refine (proj1 (proj2 (proj2 (order_details_error_paths None None PNone sampleOrdersDB "9"
            "network" 0 (mkOrder "7" "r-1" "Reserved" "delivery" 50) (row sampleDonation))))
            ltac:(discriminate) _).
  intros j Hj.
  assert (j = 8%nat) as -> by (apply (inj order_id); rewrite Hj; vm_compute; reflexivity).
  reflexivity.
Defined.

End Orders.
