(* ===== verification/Auth.v ===== *)
(** * Sign-up and sign-in pages ([src/app/signup/page.tsx] and
    [src/app/login/page.tsx])

    The sign-up form checks [fullName] (2 characters or more), [email]
    (zod's email check) and [password] (6 characters or more).
    [handleSignUp] asks the auth service to create the account.  When a
    user comes back, it inserts the [profiles] row
    [{ id, name: fullName, email }], toasts, and navigates to [/login].
    The sign-in form checks [email] and a non-empty [password].
    [handleSignIn] toasts the auth error, or navigates to [/dashboard] and
    refreshes.

    The auth service is not part of the repository.  The outcome of
    [auth.signUp] / [auth.signInWithPassword] is an argument of the
    handler: [inl] the error message, or [inr] the [data.user] returned.
    The profile insert is a [Backend.callv] of
    [ProfileContext.insert_profile], which the primary key can refuse.
    Like the provider's insert, it leaves [power_coins] and [role] to the
    column defaults, and these are parameters of a Section.

    The composition theorem connects this file to [ProfileContext].  An
    account whose profile insert failed at sign-up gets its row at the
    first sign-in, from the provider, and that row is named from the
    email rather than from the name typed at sign-up. *)

From S2P Require Import Prelude JsText Backend Forms NewDonation ProfileContext.
Open Scope string_scope.

Module Auth.
Import JsText Backend Forms NewDonation ProfileContext.

(** [z.infer<typeof formSchema>] of the sign-up form. *)
Record SignUpValues := mkSignUp { fullName : string; email : string; password : string }.

(** [defaultValues]. *)
Definition signUpDefaults : SignUpValues := mkSignUp "" "" "".

(** [formSchema.safeParse] of the sign-up form: the issues in the order of
    the schema. *)
Definition signUpSchema (v : SignUpValues) : list (string * string) + SignUpValues :=
  match (issue_if (String.length (fullName v) <? 2)%nat "fullName" "Full name must be at least 2 characters." ++
         issue_if (negb (zod_email (email v))) "email" "Please enter a valid email address." ++
         issue_if (String.length (password v) <? 6)%nat "password" "Password must be at least 6 characters.")%list with
  | [] => inr v
  | issues => inl issues
  end.

Section SignUp.
(** The column defaults of [profiles]. *)
Context (default_coins : Z) (default_role : string).

(** [{ id: signUpData.user.id, name: values.fullName, email: values.email }]. *)
Definition signUpProfileRow (u : AuthUser) (v : SignUpValues) : ProfileRow :=
  mkProfile (uid u) (Some (fullName v)) (Some (email v)) None default_coins default_role None None.

(** [handleSignUp(values)]: [signUp] is the outcome of [auth.signUp]. *)
Definition handleSignUp (v : SignUpValues) (signUp : string + option AuthUser) : St unit :=
  match signUp with
  | inl msg => toast "Sign Up Error" msg true
  | inr None => mret tt
  | inr (Some u) =>
      profileError ← callv (insert_profile (signUpProfileRow u v));
      match profileError with
      | inl m => toast "Profile Creation Error" m true
      | inr _ =>
          toast "Check your email!" "A confirmation link has been sent to your email address." false ;;
          emit (Push "/login")
      end
  end.

End SignUp.

(** [z.infer<typeof formSchema>] of the sign-in form. *)
Record LoginValues := mkLogin { l_email : string; l_password : string }.

Definition loginSchema (v : LoginValues) : list (string * string) + LoginValues :=
  match (issue_if (negb (zod_email (l_email v))) "email" "Please enter a valid email address." ++
         issue_if (String.length (l_password v) <? 1)%nat "password" "Password is required.")%list with
  | [] => inr v
  | issues => inl issues
  end.

(** [handleSignIn(values)]: [result] is the [error] of
    [auth.signInWithPassword]. *)
Definition handleSignIn (result : option string) : St unit :=
  match result with
  | Some msg => toast "Sign In Error" msg true
  | None => emit (Push "/dashboard") ;; emit Refresh
  end.

(** [handleGoogleSignIn] of both pages, [origin] being [location.origin]. *)
Definition handleGoogleSignIn (origin : string) : St unit :=
  emit (OAuthRedirect "google" (origin +:+ "/auth/callback")).

(** The sign-in page: each field's message, the submit button, and the
    links (the delivery agent's button goes straight to [/delivery]). *)
Record LoginView := mkLoginView {
  lv_emailMessage : option string; lv_passwordMessage : option string;
  lv_submitDisabled : bool; lv_submitLabel : string;
  lv_forgotLink : string; lv_deliveryLink : string; lv_signUpLink : string
}.

Definition LoginPageView (errors : Issues) (isSubmitting : bool) : LoginView :=
  mkLoginView (fieldMessage errors "email") (fieldMessage errors "password") isSubmitting
    (if isSubmitting then "Signing In..." else "Sign In") "#" "/delivery" "/signup".

(** [form.handleSubmit(handleSignIn)], [result] the answer of the auth
    service. *)
Definition submitLogin (result : option string) : LoginValues -> St (Issues + unit) :=
  handleSubmit loginSchema (fun _ => handleSignIn result).

(** The sign-up page: each field's message, the submit button and the
    sign-in link. *)
Record SignUpView := mkSignUpView {
  sv_fullNameMessage : option string; sv_emailMessage : option string;
  sv_passwordMessage : option string; sv_submitDisabled : bool; sv_submitLabel : string;
  sv_loginLink : string
}.

Definition SignUpPageView (errors : Issues) (isSubmitting : bool) : SignUpView :=
  mkSignUpView (fieldMessage errors "fullName") (fieldMessage errors "email")
    (fieldMessage errors "password") isSubmitting
    (if isSubmitting then "Creating..." else "Create Account") "/login".

(** [form.handleSubmit(handleSignUp)]. *)
Definition submitSignUp (dc : Z) (dr : string) (signUp : string + option AuthUser)
    : SignUpValues -> St (Issues + unit) :=
  handleSubmit signUpSchema (fun v => handleSignUp dc dr v signUp).

(** The session user of an account created by [auth.signUp({ email,
    password })]: no [user_metadata] is passed, so there is no name or
    avatar in it. *)
Definition signedUpSession (u : AuthUser) (v : SignUpValues) : SUser :=
  mkSUser (uid u) (Some (email v)) None None.

(** The local part of an email, [email.split('@')[0]]. *)
Definition email_local (e : string) : string := default "" (js_split at_sign e !! 0).

Definition sampleSignUp : SignUpValues := mkSignUp "Ravi Kumar" "ravi@example.com" "secret1".

(** ** The sign-up handler on each outcome *)

Section SignUpProps.
Context (dc : Z) (dr : string).

(** C24 [signup_branches]: the sign-up handler on every outcome of its
    two requests: an auth error is toasted and nothing is written; a
    missing user does nothing at all; a failed or refused profile insert
    toasts [Profile Creation Error] and writes nothing; a successful insert
    adds the row [{ id, name: fullName, email }], toasts [Check your
    email!] and navigates to [/login]. *)
Theorem signup_branches v u msg m d fs log :
  handleSignUp dc dr v (inl msg) (mkWorld d fs log) =
    (tt, mkWorld d fs (log ++ [Toast "Sign Up Error" msg true])%list) /\
  handleSignUp dc dr v (inr None) (mkWorld d fs log) = (tt, mkWorld d fs log) /\
  handleSignUp dc dr v (inr (Some u)) (mkWorld d (Some m :: fs) log) =
    (tt, mkWorld d fs (log ++ [Toast "Profile Creation Error" m true])%list) /\
  (uid u ∈ p_id <$> profiles d ->
   handleSignUp dc dr v (inr (Some u)) (mkWorld d (None :: fs) log) =
    (tt, mkWorld d fs (log ++ [Toast "Profile Creation Error" "23505" true])%list)) /\
  (uid u ∉ p_id <$> profiles d ->
   handleSignUp dc dr v (inr (Some u)) (mkWorld d (None :: fs) log) =
    (tt, mkWorld (add_profile (signUpProfileRow dc dr u v) d) fs
           (log ++ [Toast "Check your email!" "A confirmation link has been sent to your email address." false;
                    Push "/login"])%list)).
Proof.
  split_and!; [done | done | done | |].
  - intros Hin. unfold handleSignUp, mbind, St_bind, bind, callv; cbn.
    by rewrite (insert_profile_dup d (signUpProfileRow dc dr u v) Hin).
  - intros Hn. unfold handleSignUp, mbind, St_bind.
    rewrite (bind_callv_ok _ _ d fs log _ _ (insert_profile_fresh d (signUpProfileRow dc dr u v) Hn)).
    st_run. by rewrite <- app_assoc.
Qed.

(** C25 [signup_name_lost]: when the profile insert of a sign-up fails,
    nothing is written; at the account's first sign-in the profile
    provider creates the missing row, and names it from the email's local
    part ([user_metadata] is empty), not from the full name typed at
    sign-up. *)
Theorem signup_failure_renamed_at_signin v u m d fs log :
  uid u ∉ p_id <$> profiles d ->
  let w := snd (handleSignUp dc dr v (inr (Some u)) (mkWorld d (Some m :: fs) log)) in
  db w = d /\
  exists c, pc_run dc dr [GetSession (Some (signedUpSession u v)); RunJob 0; RunJob 0]
              (initialConf (mkWorld (db w) [] (ui w))) = Some c /\
    p_id <$> pc_profile (pc c) = Some (uid u) /\
    p_name <$> pc_profile (pc c) = Some (Some (email_local (email v))).
Proof.
  intros Hn w. subst w. unfold handleSignUp, mbind, St_bind.
  rewrite bind_callv_fail. cbn.
  split; [done|]. eexists. split.
  - apply (fetch_inserts_missing_profile dc dr (signedUpSession u v) d). exact Hn.
  - done.
Qed.

End SignUpProps.

Lemma signup_branches_witness :
  handleSignUp 0 "Individual" sampleSignUp (inr (Some (mkAuthUser "user-9" None)))
    (mkWorld emptyDB [None] []) =
  (tt, mkWorld (add_profile (signUpProfileRow 0 "Individual" (mkAuthUser "user-9" None) sampleSignUp)
                  emptyDB) []
         [Toast "Check your email!" "A confirmation link has been sent to your email address." false;
          Push "/login"]).
Proof.
  exact (proj2 (proj2 (proj2 (proj2 (signup_branches 0 "Individual" sampleSignUp
           (mkAuthUser "user-9" None) "" "" emptyDB [] []))))
           ltac:(cbn; set_solver)).
Defined.

Lemma signup_failure_renamed_at_signin_witness :
  exists c, pc_run 0 "Individual" [GetSession (Some (signedUpSession (mkAuthUser "user-9" None) sampleSignUp));
                                    RunJob 0; RunJob 0]
              (initialConf (mkWorld emptyDB [] [Toast "Profile Creation Error" "network" true])) = Some c /\
    p_id <$> pc_profile (pc c) = Some "user-9" /\
    p_name <$> pc_profile (pc c) = Some (Some "ravi").
Proof.
  exact (proj2 (signup_failure_renamed_at_signin 0 "Individual" sampleSignUp (mkAuthUser "user-9" None)
                  "network" emptyDB [] [] ltac:(cbn; set_solver))).
Defined.

End Auth.
