(* ===== verification/Listings.v ===== *)
(** * Donation listing and card ([src/app/dashboard/page.tsx] and
    [src/components/donations/donation-card.tsx])

    [DonationsPage] loads the view [public_donations] newest first when it
    mounts.  It shows eight skeletons while loading, then one
    [DonationCard] per row.  A failed load is only logged.  The search
    input, the location select and the Search button have no state and no
    handler.  [DonationCard] derives [isReserved] from [status].  That
    flag chooses the badge, the hover effect and the button label, and it
    disables the button.  The card always links to
    [/dashboard/donations/<id>].

    The view [public_donations] is defined in the database, not in the
    repository.  The model takes it to be the [donations] rows, newest
    first, each joined with its lister's name ([""] when the lister has no
    profile or no name).  The card reads only the row's own columns, and
    the composition theorem with [DonationDetails] relies on nothing else. *)

From S2P Require Import Prelude JsText Backend DonationDetails Orders.
From Stdlib Require Import QArith.
Local Close Scope Q_scope.
Open Scope string_scope.

Module Listings.
Import JsText Backend DonationDetails Orders.

(** [type Donation] of the dashboard page, a row of [public_donations]. *)
Record ListedDonation := mkListed {
  l_id : string; l_title : string; listerName : string; l_location : string; l_serves : Q;
  l_pickup_time : string; l_image_url : option string; l_image_hint : string; l_status : string
}.

(** The rows of [public_donations] (see the file header). *)
Definition public_donations (d : DB) : list ListedDonation :=
  reverse ((fun r => mkListed (d_id r) (title r) (default "" (lister_profile r d ≫= p_name))
                       (location r) (serves r) (pickup_time r) (image_url r) (image_hint r)
                       (d_status r)) <$> donations d).

Record DonationsState := mkDS { listed : list ListedDonation; ds_loading : bool }.

(** [useState([])], [useState(true)]. *)
Definition initialDonations : DonationsState := mkDS [] true.

(** [fetchDonations], run once on mount; [fault] is the error of the
    query, which is only logged. *)
Definition fetchDonations (fault : option string) (d : DB) (s : DonationsState) : DonationsState :=
  let s := mkDS (listed s) true in
  let s := match fault with
           | Some _ => s
           | None => mkDS (public_donations d) (ds_loading s)
           end in
  mkDS (listed s) false.

(** [type DonationCardProps]. *)
Record CardProps := mkProps {
  cp_id : string; cp_image_url : option string; cp_image_hint : string; cp_title : string;
  cp_lister : string; cp_location : string; cp_serves : Q; cp_pickup_time : string;
  cp_status : string
}.

(** [<DonationCard key={donation.id} {...donation} lister={donation.listerName} />]. *)
Definition cardProps (dn : ListedDonation) : CardProps :=
  mkProps (l_id dn) (l_image_url dn) (l_image_hint dn) (l_title dn) (listerName dn) (l_location dn)
    (l_serves dn) (l_pickup_time dn) (l_status dn).

(** The rendered card: image, badge (variant, colour, text), title,
    [by {lister}], location, servings, pickup time (its locale
    formatting is not modelled), the link with its label, whether the
    button is disabled, and whether the card lifts on hover. *)
Record CardView := mkCard {
  c_image : ImageSrc; c_badge_variant : string; c_badge_class : string; c_status : string;
  c_title : string; c_by : string; c_location : string; c_serves : Q; c_pickup : string;
  c_href : string; c_button : string; c_disabled : bool; c_lift : bool
}.

(** [DonationCard(props)]. *)
Definition DonationCard (p : CardProps) : CardView :=
  let isReserved := bool_decide (cp_status p = "Reserved") in
  mkCard (getPublicUrl "donations" (cp_image_url p))
    (if isReserved then "default" else "secondary")
    (if isReserved then "bg-blue-500/20 text-blue-700" else "bg-green-500/20 text-green-700")
    (cp_status p) (cp_title p) ("by " +:+ cp_lister p) (cp_location p) (cp_serves p)
    (cp_pickup_time p) ("/dashboard/donations/" +:+ cp_id p)
    (if isReserved then "View Details" else "View & Reserve") isReserved (negb isReserved).

Inductive DonationsView :=
  | GridSkeletons (count : nat)
  | Grid (cards : list (string * CardView)).   (** each card with its React [key] *)

(** The render of [DonationsPage]. *)
Definition DonationsPageView (s : DonationsState) : DonationsView :=
  if ds_loading s then GridSkeletons 8
  else Grid ((fun dn => (l_id dn, DonationCard (cardProps dn))) <$> listed s).

(** ** The card *)

Lemma card_reserved p :
  cp_status p = "Reserved" ->
  c_button (DonationCard p) = "View Details" /\ c_disabled (DonationCard p) = true /\
  c_badge_class (DonationCard p) = "bg-blue-500/20 text-blue-700" /\ c_lift (DonationCard p) = false.
Proof. intros H. unfold DonationCard; cbn. by rewrite bool_decide_true. Qed.

Lemma card_not_reserved p :
  cp_status p <> "Reserved" ->
  c_button (DonationCard p) = "View & Reserve" /\ c_disabled (DonationCard p) = false /\
  c_badge_class (DonationCard p) = "bg-green-500/20 text-green-700" /\ c_lift (DonationCard p) = true.
Proof. intros H. unfold DonationCard; cbn. by rewrite bool_decide_false. Qed.

(** Every row [set_donation_status id st] selects has status [st]. *)
Lemma status_after_set id st d r :
  r ∈ donations (set_donation_status id st d) -> d_id r = id -> d_status r = st.
Proof.
  unfold set_donation_status; cbn [donations]. intros (r0 & -> & _)%list_elem_of_fmap.
  case_bool_decide; [done|]. cbn. done.
Qed.

Lemma listed_card_reserved dn :
  l_status dn = "Reserved" ->
  c_status (DonationCard (cardProps dn)) = "Reserved" /\
  c_button (DonationCard (cardProps dn)) = "View Details" /\
  c_disabled (DonationCard (cardProps dn)) = true /\
  c_href (DonationCard (cardProps dn)) = "/dashboard/donations/" +:+ l_id dn.
Proof.
  intros H. destruct (card_reserved (cardProps dn) H) as (Hb & Hd & _).
  split_and!; [exact H | exact Hb | exact Hd | done].
Qed.

Lemma fetchDonations_ok d : fetchDonations None d initialDonations = mkDS (public_donations d) false.
Proof. done. Qed.

(** After a successful reservation, the
    next load of the dashboard lists every donation once more, and every
    card of the reserved donation shows the [Reserved] badge, the label
    [View Details] and a disabled button, and still links to the
    donation's page. *)
Theorem reserved_listing_card donation u opt d fs log :
  d_id (row donation) <> "" ->
  let d' := db (snd (handleConfirmReservation donation (Some u) opt
                       (mkWorld d (None :: None :: fs) log))) in
  exists cards, DonationsPageView (fetchDonations None d' initialDonations) = Grid cards /\
    length cards = length (donations d) /\
    Forall (fun kc => kc.1 = d_id (row donation) ->
              c_status kc.2 = "Reserved" /\ c_button kc.2 = "View Details" /\
              c_disabled kc.2 = true /\
              c_href kc.2 = "/dashboard/donations/" +:+ d_id (row donation)) cards.
Proof.
  intros Hid d'. subst d'. rewrite reservation_success by done. cbn [snd db].
  rewrite fetchDonations_ok. eexists; split; [reflexivity|]. split.
  - unfold public_donations, set_donation_status; cbn [listed donations insert_order].
    by rewrite !length_fmap, length_reverse, !length_fmap.
  - apply Forall_forall. intros [k c] Hin Hk; cbn [fst snd] in Hk |- *. subst k.
    apply list_elem_of_fmap in Hin as (dn & [= Hk ->] & Hdn).
    cbn [listed] in Hdn. unfold public_donations in Hdn. rewrite elem_of_reverse in Hdn.
    apply list_elem_of_fmap in Hdn as (r & -> & Hr). cbn [l_id] in Hk.
    rewrite Hk. apply listed_card_reserved. exact (status_after_set _ _ _ r Hr (eq_sym Hk)).
Qed.

Lemma reserved_listing_card_witness :
  exists cards, DonationsPageView (fetchDonations None
      (db (snd (handleConfirmReservation sampleDonation (Some (mkAuthUser "r-1" None)) "pickup"
                  (mkWorld sampleDB [None; None] [])))) initialDonations) = Grid cards /\
    length cards = 1%nat /\
    Forall (fun kc => kc.1 = "7" ->
              c_status kc.2 = "Reserved" /\ c_button kc.2 = "View Details" /\
              c_disabled kc.2 = true /\ c_href kc.2 = "/dashboard/donations/" +:+ "7") cards.
Proof.
  exact (reserved_listing_card sampleDonation (mkAuthUser "r-1" None) "pickup" sampleDB [] []
           ltac:(discriminate)).
Defined.

End Listings.
