(* ===== verification/ProfilePage.v ===== *)
(** * Donor profile page ([src/app/dashboard/profile/page.tsx])

    [ProfilePage] reads [user], [profile] and [loading] from the profile
    provider ([ProfileContext]).  Its effect runs whenever [user] changes.
    When a user is present, it loads that user's donations (newest first,
    each with its orders' [donor_points_earned]) into [donationHistory].
    A failed load is only logged.  With no user the effect does nothing
    and the history keeps its value.  The render shows a skeleton while
    the provider loads, [Profile not found] without a profile, and
    otherwise the profile card:
    - the avatar and its fallback letter;
    - name and email;
    - the power-coins counter;
    - four hard-coded badges;
    - the donation history: skeletons, an empty line, or one row per
      donation with the first order's points.

    The [donations] rows are in insertion order and [created_at] grows
    with it, as in [Orders].  The points column of [orders] takes its
    default, a parameter.  The join date ([profile.created_at]) and the
    locale date formatting are not modelled. *)

From S2P Require Import Prelude JsText Backend DonationDetails ProfileContext Orders.
From Stdlib Require Import QArith.
Local Close Scope Q_scope.
Open Scope string_scope.

Module ProfilePage.
Import JsText Backend DonationDetails ProfileContext Orders.

(** [const badges]: name and colour (the icon is not modelled). *)
Record Badge := mkBadge { badge_name : string; badge_color : string }.

Definition badges : list Badge :=
  [mkBadge "First Donation" "text-yellow-500"; mkBadge "Community Helper" "text-green-500";
   mkBadge "Top Contributor" "text-blue-500"; mkBadge "Verified Donor" "text-indigo-500"].

(** [type DonationHistory]; [dh_orders] is the [orders!left] relation,
    one [donor_points_earned] per order of the donation. *)
Record DonationHistory := mkDH {
  dh_id : string; dh_title : string; dh_serves : Q; dh_status : string; dh_created_at : nat;
  dh_orders : list (option Z)
}.

Section History.
(** The default of [orders.donor_points_earned], which no client code writes. *)
Context (points_default : option Z).

Definition history_entry (ir : nat * DonationRow) (d : DB) : DonationHistory :=
  mkDH (d_id ir.2) (title ir.2) (serves ir.2) (d_status ir.2) ir.1
    ((fun _ => points_default) <$> filter (fun o => o_donation_id o = d_id ir.2) (orders d)).

(** [.from('donations').select('id, title, serves, status, created_at,
    orders!left ( donor_points_earned )').eq('lister_id', user.id)
    .order('created_at', { ascending: false })]. *)
Definition history_query (uid : string) (d : DB) : list DonationHistory :=
  reverse ((fun ir => history_entry ir d) <$>
           filter (fun ir => lister_id ir.2 = uid) (imap pair (donations d))).

End History.

Record PPState := mkPP { donationHistory : list DonationHistory; loadingDonations : bool }.

(** [useState([])], [useState(true)]. *)
Definition initialPP : PPState := mkPP [] true.

(** The effect [fetchDonationHistory] for the current [user]; [result]
    is the outcome of the query for a user id ([inl] an error, only
    logged). *)
Definition fetchDonationHistory (user : option SUser)
    (result : string -> string + list DonationHistory) (s : PPState) : PPState :=
  match user with
  | None => s
  | Some u =>
      let s := mkPP (donationHistory s) true in
      let s := match result (su_id u) with
               | inl _ => s
               | inr hs => mkPP hs (loadingDonations s)
               end in
      mkPP (donationHistory s) false
  end.

(** One history row: key, title, servings, status badge and coins. *)
Record HistRow := mkHR {
  hr_id : string; hr_title : string; hr_serves : Q; hr_status : string; hr_badge : string;
  hr_coins : Z
}.

(** [item.orders?.[0]?.donor_points_earned || 0]. *)
Definition first_points (os : list (option Z)) : Z :=
  match os with
  | Some n :: _ => n
  | _ => 0
  end.

Definition histRow (h : DonationHistory) : HistRow :=
  mkHR (dh_id h) (dh_title h) (dh_serves h) (dh_status h)
    "bg-green-500/20 text-green-700 hover:bg-green-500/30" (first_points (dh_orders h)).

Inductive HistorySection := HistSkeletons (count : nat) | HistEmpty | HistRows (rows : list HistRow).

(** The loaded page: avatar, fallback, name, email, coins, badges and the
    history section. *)
Record ProfileView := mkPV {
  pv_avatar : ImageSrc; pv_fallback : string; pv_name : option string; pv_email : option string;
  pv_coins : Z; pv_badges : list Badge; pv_history : HistorySection
}.

Inductive ProfilePageView := ProfileSkeleton | ProfileNotFound | ProfileShown (v : ProfileView).

(** The Donation History card's content. *)
Definition history_section (s : PPState) : HistorySection :=
  if loadingDonations s then HistSkeletons 3
  else match donationHistory s with
       | [] => HistEmpty
       | hs => HistRows (histRow <$> hs)
       end.

(** [profile.name?.charAt(0) || 'U']. *)
Definition avatarFallback (name : option string) : string :=
  match name with
  | Some n => if bool_decide (charAt0 n = "") then "U" else charAt0 n
  | None => "U"
  end.

(** The render of [ProfilePage] on the provider's state [pc]. *)
Definition ProfilePageRender (pc : PCState) (s : PPState) : ProfilePageView :=
  if pc_loading pc then ProfileSkeleton else
  match pc_profile pc with
  | None => ProfileNotFound
  | Some p =>
      ProfileShown (mkPV (getPublicUrl "avatars" (p_avatar_url p)) (avatarFallback (p_name p))
                      (p_name p) (p_email p) (power_coins p) badges
                      (history_section s))
  end.

(** A donor with two listings, the second reserved once. *)
Definition sampleDonor : SUser := mkSUser "owner-1" (Some "asha@example.com") None None.

Definition sampleDonorDB : DB :=
  mkDB [row sampleDonation;
        mkDonation "8" "owner-1" "Chapati" None 10%Q "Hyderabad" "2025-01-01T20:00:00Z" None "bread"
          "Available"]
       [mkOrder "8" "r-1" "Reserved" "pickup" 0]
       (profiles sampleDB) [] 9.

(** ** The page after the provider's runs *)

(** The query as the page's effect sees it, on a database that answers. *)
Definition answering (pd : option Z) (d : DB) : string -> string + list DonationHistory :=
  fun id => inr (history_query pd id d).

Lemma fetch_then_signout pd u d :
  fetchDonationHistory None (answering pd d) (fetchDonationHistory (Some u) (answering pd d) initialPP) =
  mkPP (history_query pd (su_id u) d) false.
Proof. done. Qed.

(** C26 [signed_out_profile_page]: a sign-out while the provider's
    profile fetch is in flight leaves the profile page showing the
    signed-out user's profile (name, email, coins) and donation history:
    the provider ends with no user but a profile, and the page's effect
    does nothing when [user] becomes [null]. *)
Theorem signed_out_profile_page pd dc dr u p d log :
  filter (fun q => p_id q = su_id u) (profiles d) = [p] ->
  exists c v,
    pc_run dc dr [GetSession (Some u); AuthChange "SIGNED_OUT" None; RunJob 0]
      (initialConf (mkWorld d [] log)) = Some c /\
    pc_user (pc c) = None /\
    ProfilePageRender (pc c)
      (fetchDonationHistory (pc_user (pc c)) (answering pd d)
         (fetchDonationHistory (Some u) (answering pd d) initialPP)) = ProfileShown v /\
    pv_name v = p_name p /\ pv_email v = p_email p /\ pv_coins v = power_coins p /\
    pv_history v = history_section (mkPP (history_query pd (su_id u) d) false).
Proof.
  intros Hp. eexists _, _. split; [exact (signout_during_fetch dc dr u p d log Hp)|].
  cbn [pc pc_user]. split; [done|]. rewrite fetch_then_signout. split; [reflexivity|].
  by split_and!.
Qed.

Lemma signed_out_profile_page_witness :
  exists c v,
    pc_run 0 "Restaurant" [GetSession (Some sampleDonor); AuthChange "SIGNED_OUT" None; RunJob 0]
      (initialConf (mkWorld sampleDonorDB [] [])) = Some c /\
    pc_user (pc c) = None /\
    ProfilePageRender (pc c)
      (fetchDonationHistory (pc_user (pc c)) (answering (Some 5%Z) sampleDonorDB)
         (fetchDonationHistory (Some sampleDonor) (answering (Some 5%Z) sampleDonorDB) initialPP)) =
      ProfileShown v /\
    pv_name v = Some "Asha" /\ pv_email v = Some "asha@example.com" /\ pv_coins v = 0%Z /\
    pv_history v = history_section (mkPP (history_query (Some 5%Z) "owner-1" sampleDonorDB) false).
Proof.
  exact (signed_out_profile_page (Some 5%Z) 0 "Restaurant" sampleDonor
           (mkProfile "owner-1" (Some "Asha") (Some "asha@example.com") None 0 "Restaurant" None None)
           sampleDonorDB [] ltac:(vm_compute; reflexivity)).
Defined.

End ProfilePage.
