(* ===== verification/Headers.v ===== *)
(** * Navigation headers ([src/components/layout/header.tsx] and
    [src/components/layout/delivery-header.tsx])

    Both headers render three bars: a mobile top bar with the account
    menu, a desktop bar with the navigation and the account menu, and a
    mobile bottom navigation.  The donor header's account button shows the
    avatar from [getPublicUrl] and the fallback letter
    [profile?.name?.charAt(0) || user?.email?.charAt(0) || 'U'].  The
    delivery header shows the duty switch instead, which calls
    [setIsDutyOn] of [Session.DeliveryContext].  [handleLogout] awaits
    [auth.signOut()], then navigates to [/] and refreshes, whatever the
    sign-out returned.

    The links are modelled with their highlight test.  The donor desktop
    bar uses [pathname === "/dashboard"] for its first link and
    [pathname.startsWith(href)] for the others.  The mobile bars and the
    delivery desktop bar use [pathname === href].  Icons, classes and the
    theme toggle are not modelled. *)

From S2P Require Import Prelude JsText Backend DonationDetails ProfileContext.
Open Scope string_scope.

Module Headers.
Import JsText Backend DonationDetails ProfileContext.

Record MenuItem := mkItem { href : string; item_label : string }.

(** [menuItems] of the donor header. *)
Definition menuItems : list MenuItem :=
  [mkItem "/dashboard" "Home"; mkItem "/dashboard/orders" "Orders";
   mkItem "/dashboard/leaderboard" "Leaderboard"; mkItem "/dashboard/shop" "Shop"].

(** [menuItems] of the delivery header. *)
Definition deliveryMenuItems : list MenuItem :=
  [mkItem "/delivery" "Tasks"; mkItem "/delivery/shop" "Shop"].

(** A rendered link: target, text and whether it is highlighted
    ([text-primary]). *)
Record NavLink := mkLink { l_href : string; l_text : string; active : bool }.

(** The donor header's desktop navigation. *)
Definition desktopNav (pathname : string) : list NavLink :=
  [mkLink "/dashboard" "Donations" (bool_decide (pathname = "/dashboard"));
   mkLink "/dashboard/orders" "Orders" (String.prefix "/dashboard/orders" pathname);
   mkLink "/dashboard/leaderboard" "Leaderboard" (String.prefix "/dashboard/leaderboard" pathname);
   mkLink "/dashboard/shop" "Point Shop" (String.prefix "/dashboard/shop" pathname)].

(** A bottom navigation: one icon link per item, highlighted on
    [pathname === item.href]; its text is the item's label for screen
    readers only, kept here to name the link. *)
Definition bottomNav (items : list MenuItem) (pathname : string) : list NavLink :=
  (fun it => mkLink (href it) (item_label it) (bool_decide (pathname = href it))) <$> items.

(** The donor header's mobile bottom navigation. *)
Definition mobileNav (pathname : string) : list NavLink := bottomNav menuItems pathname.

(** The delivery header's desktop navigation and its bottom navigation,
    which adds the profile link. *)
Definition deliveryDesktopNav (pathname : string) : list NavLink := bottomNav deliveryMenuItems pathname.

Definition deliveryMobileNav (pathname : string) : list NavLink :=
  bottomNav (deliveryMenuItems ++ [mkItem "/delivery/profile" "Profile"])%list pathname.

(** [profile?.name?.charAt(0) || user?.email?.charAt(0) || 'U']. *)
Definition headerFallback (profile : option ProfileRow) (user : option SUser) : string :=
  let fromName := default "" (charAt0 <$> (profile ≫= p_name)) in
  let fromEmail := default "" (charAt0 <$> (user ≫= su_email)) in
  if bool_decide (fromName = "") then (if bool_decide (fromEmail = "") then "U" else fromEmail)
  else fromName.

(** [getPublicUrl(supabase, 'avatars', profile?.avatar_url || null)]. *)
Definition headerAvatar (profile : option ProfileRow) : ImageSrc :=
  getPublicUrl "avatars" (profile ≫= p_avatar_url).

(** [handleLogout]: [signOutError] is the [error] of [auth.signOut()],
    which the handler does not read. *)
Definition handleLogout (signOutError : option string) : St unit :=
  emit (Push "/") ;; emit Refresh.

(** What an account-menu entry does: a link, nothing ([Support]), or
    [handleLogout]. *)
Inductive MenuAction := MenuLink (target : string) | MenuNoop | MenuLogout.

Record AccountMenu := mkMenu { menu_label : string; menu_items : list (string * MenuAction) }.

(** The account dropdown of both headers. *)
Definition accountMenu (label profileHref : string) : AccountMenu :=
  mkMenu label [("Profile", MenuLink profileHref); ("Support", MenuNoop); ("Logout", MenuLogout)].

(** Choosing a menu entry; [signOutError] is the answer of
    [auth.signOut()] for the logout. *)
Definition menuSelect (signOutError : option string) (a : MenuAction) : St unit :=
  match a with
  | MenuLink target => emit (Push target)
  | MenuNoop => mret tt
  | MenuLogout => handleLogout signOutError
  end.

(** A rendered header: the logo's link, the account button's avatar and
    fallback, the duty switch's position (delivery header only), the
    account menu and the two navigations. *)
Record HeaderView := mkHeader {
  hv_home : string; hv_avatar : ImageSrc; hv_fallback : string; hv_duty : option bool;
  hv_menu : AccountMenu; hv_desktop : list NavLink; hv_mobile : list NavLink
}.

(** [Header()] on the current path and the provider's [user] and
    [profile]. *)
Definition HeaderRender (pathname : string) (user : option SUser) (profile : option ProfileRow)
    : HeaderView :=
  mkHeader "/dashboard" (headerAvatar profile) (headerFallback profile user) None
    (accountMenu "My Account" "/dashboard/profile") (desktopNav pathname) (mobileNav pathname).

(** [DeliveryHeader()] on the current path and the context's [isDutyOn]. *)
Definition DeliveryHeaderRender (pathname : string) (isDutyOn : bool) : HeaderView :=
  mkHeader "/delivery" (Placeholder "https://placehold.co/40x40.png") "DA" (Some isDutyOn)
    (accountMenu "Delivery Agent" "/delivery/profile")
    (deliveryDesktopNav pathname) (deliveryMobileNav pathname).

(** ** Highlighting on nested routes *)

Lemma order_route_not p id : String.prefix "/dashboard/orders/" p = false ->
  bool_decide ("/dashboard/orders/" +:+ id = p) = false.
Proof. intros H. apply bool_decide_false, append_ne_of_prefix, H. Qed.

(** On an order's page
    [/dashboard/orders/<id>] the desktop navigation highlights [Orders]
    and nothing else, while the mobile bottom navigation, which compares
    paths with [===], highlights no item at all. *)
Theorem nested_order_route_highlight id :
  active <$> desktopNav ("/dashboard/orders/" +:+ id) = [false; true; false; false] /\
  active <$> mobileNav ("/dashboard/orders/" +:+ id) = [false; false; false; false].
Proof.
  split.
  - unfold desktopNav; cbn [fmap list_fmap active].
    rewrite order_route_not by reflexivity.
    rewrite (prefix_append_r "/dashboard/orders" "/dashboard/orders/") by reflexivity.
    rewrite !prefix_append_apart by reflexivity. done.
  - unfold mobileNav, bottomNav; cbn [fmap list_fmap active href menuItems].
    rewrite !order_route_not by reflexivity. done.
Qed.

(** The logout navigates home and refreshes whatever [auth.signOut()]
    answered. *)
Lemma logout_ignores_error msg w :
  handleLogout (Some msg) w = handleLogout None w /\
  handleLogout None w = (tt, mkWorld (db w) (faults w) (ui w ++ [Push "/"; Refresh])%list).
Proof. split; [done|]. unfold handleLogout; st_run. by rewrite <- app_assoc. Qed.

End Headers.
