(* ===== verification/Pages.v ===== *)
(** * The static pages: landing, delivery profile, shops and the chart

    - [Home] ([src/app/page.tsx]) shows a header with two links, the hero
      line with a [TypingAnimation] over [heroWords], two call-to-action
      links, four [AnimatedCounter]s under "Our Live Impact" and a footer
      with the current year.
    - [DeliveryProfilePage] ([src/app/delivery/profile/page.tsx]) shows
      fixed agent data and two [AnimatedCounter]s (money and coins).
    - [ShopPage] and [DeliveryShopPage] ([src/app/dashboard/shop/page.tsx],
      [src/app/delivery/shop/page.tsx]) list a constant array of items
      with [price.toLocaleString()].
    - [StatCard] ([src/components/dashboard/stat-card.tsx]) is the card
      the delivery dashboard uses for its four figures.
    - [DonationsChart] ([src/components/charts/donations-chart.tsx])
      renders nothing before its mount effect and then a bar chart of
      constant data.

    The pages hold no state of their own.  The counters and the typing
    animation are the components of [AnimatedCounter] and
    [TypingAnimation].  A page with counters is modelled by one counter
    state per counter and the events of their observers and intervals.
    The buttons named in the views have no [onClick] in the code.  Icons,
    images and styling are not modelled. *)

From S2P Require Import Prelude JsText AnimatedCounter TypingAnimation.
From stdpp Require Import pretty.
Open Scope string_scope.

Module Pages.
Import JsText AnimatedCounter TypingAnimation.

(** A [<Link href=...>] with its text. *)
Record PageLink := mkPageLink { pl_label : string; pl_href : string }.

(** ** Pages with animated counters *)

(** The observer or the interval of the [i]-th counter of a page. *)
Inductive CounterEvent := CounterSeen (i : nat) | CounterFrame (i : nat).

(** One event on the counters of a page whose [i]-th counter has the
    value [values !! i]; [None] for a counter the page does not have. *)
Definition counters_step (values : list Z) (e : CounterEvent) (cs : list Counter)
    : option (list Counter) :=
  match e with
  | CounterSeen i => (fun _ => alter onIntersect i cs) <$> values !! i
  | CounterFrame i => (fun v => alter (tick v) i cs) <$> values !! i
  end.

Fixpoint counters_run (values : list Z) (es : list CounterEvent) (cs : list Counter)
    : option (list Counter) :=
  match es with
  | [] => Some cs
  | e :: es' => cs' ← counters_step values e cs; counters_run values es' cs'
  end.

(** The counters of a page on its first render. *)
Definition initialCounters (values : list Z) : list Counter := initialCounter <$> values.

(** ** Landing page *)

(** One figure of "Our Live Impact": the counter's [value], the text after
    it and the caption under it. *)
Record ImpactStat := mkImpact { impact_value : Z; impact_unit : string; impact_caption : string }.

Definition impactStats : list ImpactStat :=
  [mkImpact 350 " kg" "of food saved from waste";
   mkImpact 1287 "" "Meals provided";
   mkImpact 875 " kg" "CO₂ saved by avoiding landfill";
   mkImpact 25 "" "Jobs supported for delivery workers"].

Record HomeState := mkHome { hero : TState; impactCounters : list Counter }.

Definition initialHome : HomeState :=
  mkHome initialT (initialCounters (impact_value <$> impactStats)).

Inductive HomeEvent :=
  | HeroEvent (e : TEvent)              (** a timer of the typing animation *)
  | ImpactEvent (e : CounterEvent).     (** an observer or interval of a figure *)

Definition home_step (e : HomeEvent) (h : HomeState) : option HomeState :=
  match e with
  | HeroEvent te => (fun t => mkHome t (impactCounters h)) <$> t_step heroWords te (hero h)
  | ImpactEvent ce =>
      mkHome (hero h) <$> counters_step (impact_value <$> impactStats) ce (impactCounters h)
  end.

Record HomeView := mkHomeView {
  hv_brand : PageLink;                          (** the logo link *)
  hv_nav : list PageLink;                       (** [Log In], [Get Started] *)
  hv_heading : string * string;                 (** the fixed line and the typed text *)
  hv_cta : list PageLink;                       (** [Become a Donor], [Find Food] *)
  hv_impact_title : string * string;
  hv_impact : list (string * string * string);  (** the counter's text, unit, caption *)
  hv_footer : string
}.

(** [Home()]; [year] is [new Date().getFullYear()]. *)
Definition HomeRender (year : Z) (h : HomeState) : HomeView :=
  mkHomeView (mkPageLink "AnnaDaan" "/")
    [mkPageLink "Log In" "/login"; mkPageLink "Get Started" "/signup"]
    ("Turn Surplus into", text (hero h))
    [mkPageLink "Become a Donor" "/dashboard/donations"; mkPageLink "Find Food" "/dashboard"]
    ("Our Live Impact", "See the difference we're making together, in real-time.")
    (zip_with (fun st c => (counterText c, impact_unit st, impact_caption st))
       impactStats (impactCounters h))
    ("© " +:+ pretty year +:+ " AnnaDaan. All Rights Reserved.").

(** ** Delivery agent's profile page *)

(** The two counters: the money balance (8500) and the coins (12500). *)
Definition deliveryProfileValues : list Z := [8500; 12500]%Z.

Record DeliveryProfileView := mkDeliveryProfile {
  dp_avatar : string;
  dp_fallback : string;
  dp_name : string;
  dp_vehicle_line : string;
  dp_joined : string;
  dp_filters : list string;        (** the items of the Filter menu *)
  dp_balance : option string;      (** ["₹"] and the money counter's text *)
  dp_coins : option string;        (** the coins counter's text *)
  dp_vehicle : list (string * string);
  dp_buttons : list string         (** Edit Profile, Withdraw Funds, Redeem in Shop *)
}.

(** [DeliveryProfilePage()] on the states of its two counters. *)
Definition DeliveryProfileRender (cs : list Counter) : DeliveryProfileView :=
  mkDeliveryProfile "https://placehold.co/100x100.png" "DA" "Delivery Agent Name"
    "KA-01-AB-1234 (TVS Ntorq)" "Joined May 2024" ["This Week"; "This Month"; "All Time"]
    ((fun c => "₹" +:+ counterText c) <$> cs !! 0%nat) (counterText <$> cs !! 1%nat)
    [("Vehicle Type", "Scooter"); ("Make/Model", "TVS Ntorq"); ("Vehicle Number", "KA-01-AB-1234")]
    ["Edit Profile"; "Withdraw Funds"; "Redeem in Shop"].

(** ** Stat card *)

Record StatCardView := mkStatCard { sc_title : string; sc_value : string; sc_description : string }.

(** [StatCard({ title, value, icon, description })] with [value] already
    rendered to its text. *)
Definition StatCard (title value description : string) : StatCardView :=
  mkStatCard title value description.

(** ** Point shops *)

(** An element of [shopItems]. *)
Record ShopItem := mkShopItem {
  item_id : Z; item_name : string; price : Z; imageUrl : string; imageHint : string
}.

Definition placeholder600 : string := "https://placehold.co/600x400.png".

Definition shopItems : list ShopItem :=
  [mkShopItem 1 "Eco-Friendly Tote Bag" 500 placeholder600 "tote bag";
   mkShopItem 2 "Reusable Coffee Cup" 750 placeholder600 "coffee cup";
   mkShopItem 3 "Stainless Steel Water Bottle" 1000 placeholder600 "water bottle";
   mkShopItem 4 "Branded T-Shirt" 1500 placeholder600 "tshirt clothing";
   mkShopItem 5 "Meal Voucher for Partner Restaurant" 2000 placeholder600 "food voucher";
   mkShopItem 6 "Donate a Fruit Tree" 2500 placeholder600 "tree plant";
   mkShopItem 7 "Cooking Class Voucher" 3000 placeholder600 "cooking class";
   mkShopItem 8 "Mystery Swag Box" 5000 placeholder600 "mystery box"].

(** The delivery shop's items; the third name holds, byte for byte, the
    characters of the source file. *)
Definition deliveryShopItems : list ShopItem :=
  [mkShopItem 1 "Premium Helmet" 4000 placeholder600 "helmet safety";
   mkShopItem 2 "Riding Gloves" 1500 placeholder600 "riding gloves";
   mkShopItem 3 "Fuel Card (â‚¹500)" 5000 placeholder600 "fuel card";
   mkShopItem 4 "Vehicle Service Voucher" 10000 placeholder600 "mechanic service";
   mkShopItem 5 "Meal Voucher for Partner Restaurant" 2000 placeholder600 "food voucher";
   mkShopItem 6 "Phone Mount" 2500 placeholder600 "phone mount";
   mkShopItem 7 "Raincoat" 3000 placeholder600 "raincoat waterproof";
   mkShopItem 8 "Mystery Swag Box" 5000 placeholder600 "mystery box"].

(** One card: key, image (source, alt text, hint), title, price text, and
    the [Redeem] button's label. *)
Record ShopCardView := mkShopCard {
  card_key : Z; card_image : string * string * string; card_title : string;
  card_price : string; card_button : string
}.

Definition ShopCard (item : ShopItem) : ShopCardView :=
  mkShopCard (item_id item) (imageUrl item, item_name item, imageHint item) (item_name item)
    (toLocaleString (price item)) "Redeem".

Record ShopView := mkShopView { shop_title : string; shop_subtitle : string; shop_cards : list ShopCardView }.

Definition ShopPage : ShopView :=
  mkShopView "Point Shop" "Redeem your Power Coins for exclusive rewards!" (ShopCard <$> shopItems).

Definition DeliveryShopPage : ShopView :=
  mkShopView "Agent Point Shop" "Redeem your Power Coins for exclusive gear and rewards!"
    (ShopCard <$> deliveryShopItems).

(** ** Donations chart *)

Record ChartPoint := mkPoint { month : string; total : Z }.

Definition staticData : list ChartPoint :=
  [mkPoint "Jan" 2800; mkPoint "Feb" 3200; mkPoint "Mar" 2500; mkPoint "Apr" 4100;
   mkPoint "May" 3500; mkPoint "Jun" 4500; mkPoint "Jul" 3800; mkPoint "Aug" 4800;
   mkPoint "Sep" 3900; mkPoint "Oct" 4200; mkPoint "Nov" 4900; mkPoint "Dec" 5200].

(** [`${value / 1000}K`] for an integer tick [value]: [String(value / 1000)]
    is the exact decimal of the quotient, without trailing zeros. *)
Definition tickFormatter (value : Z) : string :=
  let a := Z.abs value in
  let ip := (a / 1000)%Z in
  let fp := (a mod 1000)%Z in
  (if (value <? 0)%Z then "-" else "") +:+ pretty ip +:+
  (if (fp =? 0)%Z then ""
   else if (fp mod 100 =? 0)%Z then "." +:+ pretty (fp / 100)%Z
   else if (fp mod 10 =? 0)%Z then "." +:+ pad 2 (fp / 10)
   else "." +:+ pad 3 fp) +:+ "K".

Record ChartView := mkChart {
  chart_title : string; chart_bars : list (string * Z); chart_height : Z; chart_ytick : Z -> string
}.

(** [DonationsChart()] with its [isClient] state ([useState(false)], set
    to [true] by the mount effect): [null] until mounted. *)
Definition DonationsChart (isClient : bool) : option ChartView :=
  if isClient then
    Some (mkChart "Donations Overview" ((fun p => (month p, total p)) <$> staticData) 350 tickFormatter)
  else None.

(** ** Byte-level reading of the delivery shop's third item *)

(** The UTF-8 bytes of a code point below [U+10000]. *)
Definition utf8_bytes (cp : Z) : list Z :=
  if (cp <? 128)%Z then [cp]
  else if (cp <? 2048)%Z then [192 + cp / 64; 128 + cp mod 64]%Z
  else [224 + cp / 4096; 128 + (cp / 64) mod 64; 128 + cp mod 64]%Z.

(** Windows-1252: the code point a byte stands for. *)
Definition cp1252 (b : Z) : Z :=
  match b with
  | 128 => 8364 | 130 => 8218 | 131 => 402 | 132 => 8222 | 133 => 8230 | 134 => 8224
  | 135 => 8225 | 136 => 710 | 137 => 8240 | 138 => 352 | 139 => 8249 | 140 => 338
  | 142 => 381 | 145 => 8216 | 146 => 8217 | 147 => 8220 | 148 => 8221 | 149 => 8226
  | 150 => 8211 | 151 => 8212 | 152 => 732 | 153 => 8482 | 154 => 353 | 155 => 8250
  | 156 => 339 | 158 => 382 | 159 => 376 | _ => b
  end%Z.

Definition string_bytes (s : string) : list Z :=
  (fun c => Z.of_nat (Ascii.nat_of_ascii c)) <$> String.list_ascii_of_string s.

(** The rupee sign, [U+20B9]. *)
Definition rupee : Z := 8377.

(** ** Lemmas *)

(** Every figure of the landing page seen and animated for 90 frames.  *)
Definition impactAnimation : list HomeEvent :=
  ImpactEvent <$> concat ((fun i => CounterSeen i :: repeat (CounterFrame i) 90) <$> seq 0 4).

Fixpoint home_run (es : list HomeEvent) (h : HomeState) : option HomeState :=
  match es with
  | [] => Some h
  | e :: es' => h' ← home_step e h; home_run es' h'
  end.

(** Once animated, "Our Live Impact" shows the four constants of the
    page, whatever the state of the application. *)
Lemma home_figures_after_animation year :
  (hv_impact ∘ HomeRender year) <$> home_run impactAnimation initialHome =
    Some [("350", " kg", "of food saved from waste"); ("1,287", "", "Meals provided");
          ("875", " kg", "CO₂ saved by avoiding landfill");
          ("25", "", "Jobs supported for delivery workers")].
Proof. vm_compute. reflexivity. Qed.

(** The third name of the delivery shop holds the UTF-8 bytes of the
    characters that the UTF-8 bytes of [₹] stand for in Windows-1252
    ([â], [‚], [¹]): the page shows [Fuel Card (â‚¹500)]. *)
Lemma fuel_card_name_double_encoded :
  (string_bytes ∘ item_name) <$> deliveryShopItems !! 2%nat =
    Some (string_bytes "Fuel Card (" ++ mjoin (utf8_bytes <$> (cp1252 <$> utf8_bytes rupee))
          ++ string_bytes "500)")%list /\
  string_bytes "₹" = utf8_bytes rupee.
Proof. split; vm_compute; reflexivity. Qed.

(** Every price label of both shops is the price with its digits grouped:
    without the separators it is the plain numeral. *)
Lemma shop_price_labels items :
  items = shopItems \/ items = deliveryShopItems ->
  Forall (fun it => filter (fun c => c <> group_sep)
                      (String.list_ascii_of_string (card_price (ShopCard it))) =
                    String.list_ascii_of_string (pretty (Z.to_N (price it)))) items.
Proof.
  intros Hi. apply Forall_forall. intros it Hit. apply toLocaleString_digits.
  destruct Hi as [->| ->]; repeat (apply elem_of_cons in Hit as [->|Hit]; [cbn; lia|]);
    set_solver.
Qed.

End Pages.
